(** * LINAC downtime analysis: report extraction and failure classification

    A shallow embedding of the four scripts of the repository:

    - [linac_failure_classifier.py]: the retry loop of [classify_report]
      around the chat-completion call, and the batch runner
      [classify_dataframe];
    - [report_type1_processing.py], [report_type2_processing.py],
      [report_type3_processing.py]: the three regular-expression field
      extractors and their batch runners.

    Python strings are modelled by [string]; a character stands for the
    code point of the same number (U+0000 to U+00FF).  Python integers are
    [Z].  The libraries the scripts call ([json], [re], [os.path], the PDF
    readers, the completion client, [pandas]) are modelled by what the
    scripts observe of them. *)

From Stdlib Require Import Bool Arith ZArith List Lia.
From Stdlib Require Import Strings.Ascii Strings.String.
Import ListNotations.
Open Scope list_scope.
Open Scope string_scope.
Set Warnings "-register-all".

(* ================================================================== *)
(** * Part I: the programs *)
(* ================================================================== *)

(** ** Python [str] operations used by the scripts *)

Module PyStr.

(** The line feed, written [\n] in the sources. *)
Definition LF : ascii := "010"%char.
Definition nl : string := String LF "".

(** [str.isspace] on one character: the code points below U+0100 that
    Python counts as white space. *)
Definition isspace (c : ascii) : bool :=
  let n := nat_of_ascii c in
  (((9 <=? n) && (n <=? 13)) || ((28 <=? n) && (n <=? 32))
   || (n =? 133) || (n =? 160))%nat.

Fixpoint lstrip (s : string) : string :=
  match s with
  | String c s' => if isspace c then lstrip s' else s
  | EmptyString => EmptyString
  end.

Fixpoint rstrip (s : string) : string :=
  match s with
  | EmptyString => EmptyString
  | String c s' =>
      match rstrip s' with
      | EmptyString => if isspace c then EmptyString else String c EmptyString
      | r => String c r
      end
  end.

(** [s.strip()] *)
Definition strip (s : string) : string := rstrip (lstrip s).

(** [s[n:]] *)
Fixpoint drop (n : nat) (s : string) : string :=
  match n, s with
  | S n', String _ s' => drop n' s'
  | _, _ => s
  end.

(** [sub in s] *)
Fixpoint contains (sub s : string) : bool :=
  if prefix sub s then true
  else match s with
       | String _ s' => contains sub s'
       | EmptyString => false
       end.

(** [s.partition(sep)] without the separator: the text before and the
    text after the leftmost occurrence of [sep], when there is one. *)
Fixpoint partition (sep s : string) : option (string * string) :=
  if prefix sep s then Some (EmptyString, drop (length sep) s)
  else match s with
       | EmptyString => None
       | String c s' =>
           match partition sep s' with
           | Some (before, after) => Some (String c before, after)
           | None => None
           end
       end.

Fixpoint split_loop (fuel : nat) (sep s : string) : list string :=
  match fuel with
  | O => [s]
  | S fuel' =>
      match partition sep s with
      | None => [s]
      | Some (before, after) => before :: split_loop fuel' sep after
      end
  end.

(** [s.split(sep)] for a non-empty separator: the pieces between the
    occurrences of [sep], found from left to right without overlap.
    Every cut removes at least one character, so [length s] rounds are
    enough ([split_fuel_enough]). *)
Definition split (sep s : string) : list string :=
  split_loop (length s) sep s.

(** [l[i]] for an index that the surrounding test keeps in range. *)
Definition item (l : list string) (i : nat) : string := nth i l EmptyString.

(** [s.lower()]: the capital letters below U+0100 are A to Z and
    U+00C0 to U+00DE without the multiplication sign U+00D7. *)
Definition lower_char (c : ascii) : ascii :=
  let n := nat_of_ascii c in
  if (((65 <=? n) && (n <=? 90))
      || ((192 <=? n) && (n <=? 222) && negb (n =? 215)))%nat
  then ascii_of_nat (n + 32) else c.

Fixpoint lower (s : string) : string :=
  match s with
  | EmptyString => EmptyString
  | String c s' => String (lower_char c) (lower s')
  end.

(** [s.endswith(suffix)] *)
Fixpoint endswith (s suffix : string) : bool :=
  if (s =? suffix)%string then true
  else match s with
       | EmptyString => false
       | String _ s' => endswith s' suffix
       end.

(** [s.rfind(c)] for a one-character needle: the last index, if any. *)
Fixpoint rfind_from (c : ascii) (i : nat) (s : string) : option nat :=
  match s with
  | EmptyString => None
  | String d s' =>
      match rfind_from c (S i) s' with
      | Some j => Some j
      | None => if Ascii.eqb d c then Some i else None
      end
  end.

Definition rfind (c : ascii) (s : string) : option nat := rfind_from c 0 s.

(** [s[:n]] *)
Definition take (n : nat) (s : string) : string := substring 0 n s.

End PyStr.

(** ** Python objects *)

Module Py.

(** The objects the scripts handle: what [json.loads] builds, the values
    of the extracted records and the cells of the tables.  A number keeps
    its JSON lexeme; a [dict] keeps its items in insertion order, one per
    key. *)
Inductive pyobj : Type :=
| PyNone
| PyBool (b : bool)
| PyNum (lexeme : string)
| PyStr (s : string)
| PyList (items : list pyobj)
| PyDict (items : list (string * pyobj)).

(** [d.get(key)] *)
Fixpoint dict_get (key : string) (d : list (string * pyobj)) : option pyobj :=
  match d with
  | [] => None
  | (k, v) :: d' => if (k =? key)%string then Some v else dict_get key d'
  end.

(** [d[key] = v]: an existing key keeps its place, a new key goes last. *)
Fixpoint dict_set (key : string) (v : pyobj) (d : list (string * pyobj))
  : list (string * pyobj) :=
  match d with
  | [] => [(key, v)]
  | (k, w) :: d' =>
      if (k =? key)%string then (k, v) :: d' else (k, w) :: dict_set key v d'
  end.

Definition keys (d : list (string * pyobj)) : list string := map fst d.

(** [isinstance(x, str)] and [isinstance(x, dict)] *)
Definition is_str (x : pyobj) : bool :=
  match x with PyStr _ => true | _ => false end.

Definition is_dict (x : pyobj) : bool :=
  match x with PyDict _ => true | _ => false end.

(** The exceptions the classifier tells apart: [json.JSONDecodeError] has
    a handler of its own, every other [Exception] falls to the second
    handler.  [msg] is [str(e)]. *)
Inductive py_exception : Type :=
| JSONDecodeError (msg : string)
| OtherException (msg : string).

(** Exceptions that leave a function of the scripts uncaught. *)
Inductive fault : Type :=
| UnboundLocalError (variable : string)
| KeyError (key : string).

End Py.
Import Py.

(** ** A reference decoder for [json.loads] *)

Module JsonRef.

(** [json.loads] belongs to Python's library; the classifier is modelled
    over an arbitrary decoder.  This one instantiates it on concrete
    documents.  It follows the scanner of the [json] module: the same
    grammar, the same white space, strict strings, the last value kept for
    a repeated key.  Two things are left out: an escape [\u....] of a code
    point above U+00FF is refused, and the message of a refused document
    is always the one of a fault at its first character. *)

Definition is_ws (c : ascii) : bool :=
  let n := nat_of_ascii c in
  ((n =? 32) || (n =? 9) || (n =? 10) || (n =? 13))%nat.

Fixpoint skip_ws (s : string) : string :=
  match s with
  | String c s' => if is_ws c then skip_ws s' else s
  | EmptyString => EmptyString
  end.

Definition is_digit (c : ascii) : bool :=
  let n := nat_of_ascii c in ((48 <=? n) && (n <=? 57))%nat.

(** The longest prefix of digits and the rest. *)
Fixpoint span_digits (s : string) : string * string :=
  match s with
  | String c s' =>
      if is_digit c then
        let (ds, rest) := span_digits s' in (String c ds, rest)
      else (EmptyString, s)
  | EmptyString => (EmptyString, EmptyString)
  end.

(** A number: an optional minus sign, an integer part without leading
    zero, an optional fraction, an optional exponent.  The lexeme and the
    rest. *)
Definition scan_number (s : string) : option (string * string) :=
  let (sign, s1) :=
    match s with
    | String "-"%char r => ("-", r)
    | _ => (EmptyString, s)
    end in
  match s1 with
  | String c r =>
      if is_digit c then
        let (int, s2) :=
          if Ascii.eqb c "0"%char then (String c EmptyString, r)
          else let (ds, rest) := span_digits r in (String c ds, rest) in
        let (frac, s3) :=
          match s2 with
          | String "."%char r2 =>
              match span_digits r2 with
              | (EmptyString, _) => (EmptyString, s2)
              | (ds, rest) => (String "."%char ds, rest)
              end
          | _ => (EmptyString, s2)
          end in
        let (exp, s4) :=
          match s3 with
          | String e r3 =>
              if Ascii.eqb e "e"%char || Ascii.eqb e "E"%char then
                let (sg, r4) :=
                  match r3 with
                  | String "+"%char r5 => ("+", r5)
                  | String "-"%char r5 => ("-", r5)
                  | _ => (EmptyString, r3)
                  end in
                match span_digits r4 with
                | (EmptyString, _) => (EmptyString, s3)
                | (ds, rest) => (String e (sg ++ ds), rest)
                end
              else (EmptyString, s3)
          | EmptyString => (EmptyString, s3)
          end in
        Some (sign ++ int ++ frac ++ exp, s4)
      else None
  | EmptyString => None
  end.

Definition hex_digit (c : ascii) : option nat :=
  let n := nat_of_ascii c in
  if ((48 <=? n) && (n <=? 57))%nat then Some (n - 48)
  else if ((65 <=? n) && (n <=? 70))%nat then Some (n - 55)
  else if ((97 <=? n) && (n <=? 102))%nat then Some (n - 87)
  else None.

Definition unescape (c : ascii) : option ascii :=
  if Ascii.eqb c "034"%char then Some "034"%char
  else if Ascii.eqb c "\"%char then Some "\"%char
  else if Ascii.eqb c "/"%char then Some "/"%char
  else if Ascii.eqb c "b"%char then Some "008"%char
  else if Ascii.eqb c "f"%char then Some "012"%char
  else if Ascii.eqb c "n"%char then Some "010"%char
  else if Ascii.eqb c "r"%char then Some "013"%char
  else if Ascii.eqb c "t"%char then Some "009"%char
  else None.

Definition cons_char (c : ascii) (r : option (string * string))
  : option (string * string) :=
  match r with
  | Some (str, rest) => Some (String c str, rest)
  | None => None
  end.

(** The string whose opening quote has been read, and the rest. *)
Fixpoint scan_string (s : string) : option (string * string) :=
  match s with
  | EmptyString => None
  | String c r =>
      if Ascii.eqb c "034"%char then Some (EmptyString, r)
      else if Ascii.eqb c "\"%char then
        match r with
        | String e r2 =>
            match unescape e with
            | Some ch => cons_char ch (scan_string r2)
            | None =>
                if Ascii.eqb e "u"%char then
                  match r2 with
                  | String h1 (String h2 (String h3 (String h4 r3))) =>
                      match hex_digit h1, hex_digit h2,
                            hex_digit h3, hex_digit h4 with
                      | Some 0, Some 0, Some a, Some b =>
                          cons_char (ascii_of_nat (16 * a + b)) (scan_string r3)
                      | _, _, _, _ => None
                      end
                  | _ => None
                  end
                else None
            end
        | EmptyString => None
        end
      else if (nat_of_ascii c <? 32)%nat then None
      else cons_char c (scan_string r)
  end.

(** [scan_once]: the value that starts at the head of the text, and the
    rest.  [scan_members] and [scan_items] read what follows the opening
    brace or bracket once it is known not to close at once.  The fuel
    bounds the depth of the calls, one per value, member or item that
    the text holds. *)
Fixpoint scan_once (fuel : nat) (s : string) : option (pyobj * string) :=
  match fuel with
  | O => None
  | S fuel' =>
      match s with
      | EmptyString => None
      | String c r =>
          if Ascii.eqb c "034"%char then
            match scan_string r with
            | Some (str, rest) => Some (PyStr str, rest)
            | None => None
            end
          else if Ascii.eqb c "{"%char then
            match skip_ws r with
            | String "}"%char rest => Some (PyDict [], rest)
            | r' =>
                match scan_members fuel' r' [] with
                | Some (d, rest) => Some (PyDict d, rest)
                | None => None
                end
            end
          else if Ascii.eqb c "["%char then
            match skip_ws r with
            | String "]"%char rest => Some (PyList [], rest)
            | r' =>
                match scan_items fuel' r' with
                | Some (l, rest) => Some (PyList l, rest)
                | None => None
                end
            end
          else if prefix "null" s then Some (PyNone, PyStr.drop 4 s)
          else if prefix "true" s then Some (PyBool true, PyStr.drop 4 s)
          else if prefix "false" s then Some (PyBool false, PyStr.drop 5 s)
          else if prefix "NaN" s then Some (PyNum "NaN", PyStr.drop 3 s)
          else if prefix "Infinity" s then
            Some (PyNum "Infinity", PyStr.drop 8 s)
          else if prefix "-Infinity" s then
            Some (PyNum "-Infinity", PyStr.drop 9 s)
          else
            match scan_number s with
            | Some (lexeme, rest) => Some (PyNum lexeme, rest)
            | None => None
            end
      end
  end

with scan_members (fuel : nat) (s : string) (acc : list (string * pyobj))
  : option (list (string * pyobj) * string) :=
  match fuel with
  | O => None
  | S fuel' =>
      match s with
      | String "034"%char r =>
          match scan_string r with
          | Some (key, r1) =>
              match skip_ws r1 with
              | String ":"%char r2 =>
                  match scan_once fuel' (skip_ws r2) with
                  | Some (v, r3) =>
                      let acc' := dict_set key v acc in
                      match skip_ws r3 with
                      | String "}"%char rest => Some (acc', rest)
                      | String ","%char r4 =>
                          scan_members fuel' (skip_ws r4) acc'
                      | _ => None
                      end
                  | None => None
                  end
              | _ => None
              end
          | None => None
          end
      | _ => None
      end
  end

with scan_items (fuel : nat) (s : string) : option (list pyobj * string) :=
  match fuel with
  | O => None
  | S fuel' =>
      match scan_once fuel' s with
      | Some (v, r1) =>
          match skip_ws r1 with
          | String "]"%char rest => Some ([v], rest)
          | String ","%char r2 =>
              match scan_items fuel' (skip_ws r2) with
              | Some (l, rest) => Some (v :: l, rest)
              | None => None
              end
          | _ => None
          end
      | None => None
      end
  end.

Definition refused : py_exception :=
  JSONDecodeError "Expecting value: line 1 column 1 (char 0)".

(** [json.loads(s)]: one value between optional white space. *)
Definition loads (s : string) : pyobj + py_exception :=
  match scan_once (2 * length s + 2) (skip_ws s) with
  | Some (v, rest) =>
      match skip_ws rest with
      | EmptyString => inl v
      | _ => inr refused
      end
  | None => inr refused
  end.

End JsonRef.

(** ** Regular expressions, as the scripts use [re] *)

Module Re.
Import PyStr.

(** What a character class is built from: a character, a range [a-z],
    [\d], [\s], [\S]. *)
Inductive atom : Type :=
| Chr (c : ascii)
| Range (lo hi : ascii)
| Digit
| Space
| NonSpace.

(** One position of a pattern: the dot, a single atom, a set [[...]] or a
    complemented set [[^...]]. *)
Inductive cclass : Type :=
| Dot
| One (a : atom)
| AnyOf (atoms : list atom)
| NoneOf (atoms : list atom).

(** The patterns of the scripts repeat only character classes and put no
    group under a repetition, which the syntax reflects. *)
Inductive regex : Type :=
| Lit (s : string)
| Cls (k : cclass)
| Rep (k : cclass) (lo : nat) (hi : option nat) (greedy : bool)
| Seq (r1 r2 : regex)
| Alt (r1 r2 : regex)
| Group (n : nat) (r : regex).

(** [\d] on one character: of the code points below U+0100, the ten
    ASCII digits are the only decimal digits. *)
Definition is_digit (c : ascii) : bool :=
  let n := nat_of_ascii c in ((48 <=? n) && (n <=? 57))%nat.

Definition atom_matches (a : atom) (c : ascii) : bool :=
  match a with
  | Chr x => Ascii.eqb x c
  | Range lo hi =>
      ((nat_of_ascii lo <=? nat_of_ascii c)
       && (nat_of_ascii c <=? nat_of_ascii hi))%nat
  | Digit => is_digit c
  | Space => isspace c
  | NonSpace => negb (isspace c)
  end.

(** [dotall] is the flag [re.DOTALL]: without it the dot refuses the line
    feed. *)
Definition class_matches (dotall : bool) (k : cclass) (c : ascii) : bool :=
  match k with
  | Dot => dotall || negb (Ascii.eqb c LF)
  | One a => atom_matches a c
  | AnyOf atoms => existsb (fun a => atom_matches a c) atoms
  | NoneOf atoms => negb (existsb (fun a => atom_matches a c) atoms)
  end.

(** The groups closed so far, the latest first: number and span. *)
Definition captures : Type := list (nat * (nat * nat)).

(** What remains to be matched after a sub-pattern: it receives the
    position reached, the text from there on and the groups, and answers
    with the end of the whole match and its groups, or fails, which sends
    the matcher back to its last choice. *)
Definition cont : Type := nat -> string -> captures -> option (nat * captures).

Fixpoint match_lit (lit s : string) : option string :=
  match lit, s with
  | EmptyString, _ => Some s
  | String a lit', String b s' =>
      if Ascii.eqb a b then match_lit lit' s' else None
  | String _ _, EmptyString => None
  end.

Definition orelse {A : Type} (x y : option A) : option A :=
  match x with
  | Some _ => x
  | None => y
  end.

Definition dec (hi : option nat) : option nat :=
  match hi with
  | Some n => Some (pred n)
  | None => None
  end.

Definition may_take (hi : option nat) : bool :=
  match hi with
  | Some O => false
  | _ => true
  end.

(** A repeated class with [lo] repetitions still due and [hi] allowed:
    the greedy form first tries one more character, the lazy form first
    tries to go on with the rest of the pattern. *)
Fixpoint rep (dotall : bool) (k : cclass) (greedy : bool) (lo : nat)
    (hi : option nat) (next : cont) (pos : nat) (s : string) (cs : captures)
    {struct s} : option (nat * captures) :=
  let stop := if (lo =? 0)%nat then next pos s cs else None in
  let more :=
    match s with
    | String c s' =>
        if may_take hi && class_matches dotall k c
        then rep dotall k greedy (pred lo) (dec hi) next (S pos) s' cs
        else None
    | EmptyString => None
    end in
  if greedy then orelse more stop else orelse stop more.

Fixpoint run (dotall : bool) (r : regex) (next : cont) : cont :=
  match r with
  | Lit l =>
      fun pos s cs =>
        match match_lit l s with
        | Some rest => next (pos + length l) rest cs
        | None => None
        end
  | Cls k =>
      fun pos s cs =>
        match s with
        | String c s' =>
            if class_matches dotall k c then next (S pos) s' cs else None
        | EmptyString => None
        end
  | Rep k lo hi greedy => rep dotall k greedy lo hi next
  | Seq r1 r2 => run dotall r1 (run dotall r2 next)
  | Alt r1 r2 =>
      fun pos s cs => orelse (run dotall r1 next pos s cs)
                             (run dotall r2 next pos s cs)
  | Group n r1 =>
      fun pos s cs =>
        run dotall r1 (fun pos' s' cs' => next pos' s' ((n, (pos, pos')) :: cs'))
          pos s cs
  end.

Definition accept : cont := fun pos _ cs => Some (pos, cs).

(** A match object: the text searched, the span and the groups. *)
Record Match : Type := {
  m_text : string;
  m_start : nat;
  m_end : nat;
  m_groups : captures
}.

(** The leftmost match that starts at [pos] or later; [s] is the text from
    [pos] on. *)
Fixpoint search_from (dotall : bool) (r : regex) (text : string) (pos : nat)
    (s : string) : option Match :=
  match run dotall r accept pos s [] with
  | Some (e, cs) =>
      Some {| m_text := text; m_start := pos; m_end := e; m_groups := cs |}
  | None =>
      match s with
      | String _ s' => search_from dotall r text (S pos) s'
      | EmptyString => None
      end
  end.

(** [re.search(pattern, text, flags)] *)
Definition search (r : regex) (text : string) (dotall : bool) : option Match :=
  search_from dotall r text 0 text.

Fixpoint span_of (n : nat) (cs : captures) : option (nat * nat) :=
  match cs with
  | [] => None
  | (i, sp) :: cs' => if (i =? n)%nat then Some sp else span_of n cs'
  end.

(** [match.group(n)].  In every pattern of the scripts each group lies on
    every path through the pattern ([group_bound]), so the group has
    taken part in the match and the empty default is never returned. *)
Definition group (m : Match) (n : nat) : string :=
  match span_of n (m_groups m) with
  | Some (a, b) => substring a (b - a) (m_text m)
  | None => EmptyString
  end.

(** The scan of [re.findall] from position [pos], where [s] is the text
    from there on.  [skip] counts the characters still inside the last
    match, where no match may start.  After a match that ends at [e] the
    scan resumes at [e], or one character further when the match is
    empty. *)
Fixpoint findall_from (dotall : bool) (r : regex) (text : string)
    (pos skip : nat) (s : string) : list Match :=
  match skip with
  | S skip' =>
      match s with
      | String _ s' => findall_from dotall r text (S pos) skip' s'
      | EmptyString => []
      end
  | O =>
      match run dotall r accept pos s [] with
      | Some (e, cs) =>
          {| m_text := text; m_start := pos; m_end := e; m_groups := cs |}
          :: match s with
             | String _ s' => findall_from dotall r text (S pos) (e - pos - 1) s'
             | EmptyString => []
             end
      | None =>
          match s with
          | String _ s' => findall_from dotall r text (S pos) 0 s'
          | EmptyString => []
          end
      end
  end.

(** The matches that [re.findall(pattern, text)] reports, from left to
    right without overlap. *)
Definition findall (r : regex) (text : string) : list Match :=
  findall_from false r text 0 0 text.

(** Group [n] lies on every path through the pattern. *)
Fixpoint always_sets (n : nat) (r : regex) : bool :=
  match r with
  | Lit _ | Cls _ | Rep _ _ _ _ => false
  | Seq r1 r2 => always_sets n r1 || always_sets n r2
  | Alt r1 r2 => always_sets n r1 && always_sets n r2
  | Group i r1 => (i =? n)%nat || always_sets n r1
  end.

(** Pattern syntax *)
Definition d : cclass := One Digit.
Definition ws : cclass := One Space.
Definition plus (k : cclass) : regex := Rep k 1 None true.
Definition star (k : cclass) : regex := Rep k 0 None true.
Definition opt (k : cclass) : regex := Rep k 0 (Some 1) true.
Definition plus_lazy (k : cclass) : regex := Rep k 1 None false.
Definition star_lazy (k : cclass) : regex := Rep k 0 None false.
Definition times (k : cclass) (n : nat) : regex := Rep k n (Some n) true.
Definition between (k : cclass) (lo hi : nat) : regex := Rep k lo (Some hi) true.

Fixpoint cat (rs : list regex) : regex :=
  match rs with
  | [] => Lit EmptyString
  | [r] => r
  | r :: rs' => Seq r (cat rs')
  end.

End Re.

(** ** Tables, as the scripts use [pandas.DataFrame] *)

Module Pandas.

(** A table: its number of rows and its columns in order, each a label and
    one cell per row. *)
Record DataFrame : Type := {
  nrows : nat;
  columns : list (string * list pyobj)
}.

Definition labels (df : DataFrame) : list string := map fst (columns df).

Fixpoint lookup (name : string) (cols : list (string * list pyobj))
  : option (list pyobj) :=
  match cols with
  | [] => None
  | (n, c) :: cols' => if (n =? name)%string then Some c else lookup name cols'
  end.

(** [df[name]] *)
Definition column (name : string) (df : DataFrame) : option (list pyobj) :=
  lookup name (columns df).

(** [row[name]] for row [i] *)
Definition cell (df : DataFrame) (i : nat) (name : string) : option pyobj :=
  match column name df with
  | Some c => nth_error c i
  | None => None
  end.

Fixpoint assign (name : string) (values : list pyobj)
    (cols : list (string * list pyobj)) : list (string * list pyobj) :=
  match cols with
  | [] => [(name, values)]
  | (n, c) :: cols' =>
      if (n =? name)%string then (n, values) :: cols'
      else (n, c) :: assign name values cols'
  end.

(** [df[name] = values]: a column of that label is replaced where it
    stands, a new label is added as the last column. *)
Definition set_column (name : string) (values : list pyobj) (df : DataFrame)
  : DataFrame :=
  {| nrows := nrows df; columns := assign name values (columns df) |}.

(** The cell of a record that lacks a column. *)
Definition NaN : pyobj := PyNum "nan".

(** A list or a mapping: with one of them among its values, a column
    has the dtype [object] and holds every value as it is. *)
Definition is_container (x : pyobj) : bool :=
  match x with
  | PyList _ | PyDict _ => true
  | _ => false
  end.

(** A string, a list or a mapping: the values that a column holds as
    they are, whatever its dtype. *)
Definition is_object (x : pyobj) : bool :=
  match x with
  | PyStr _ | PyList _ | PyDict _ => true
  | _ => false
  end.

(** What a column holds once pandas has built it from a list of values,
    as [Series(values)] and [Series.apply] do.  A column with a list or a
    mapping among its values has the dtype [object] and holds the values
    as they are; a column of strings only holds them as they are as
    well.  For any other column pandas chooses a dtype from the values
    ([None] can become [nan], an integer a float); [convert] stands for
    that choice and gives the values as they are stored. *)
Definition infer (convert : list pyobj -> list pyobj) (values : list pyobj)
  : list pyobj :=
  if existsb is_container values || forallb is_str values then values
  else convert values.

Fixpoint union_keys (seen : list string) (ks : list string) : list string :=
  match ks with
  | [] => seen
  | k :: ks' =>
      if existsb (String.eqb k) seen then union_keys seen ks'
      else union_keys (seen ++ [k])%list ks'
  end.

(** [pd.DataFrame(records)] for a list of dicts: one row per dict, in
    order; the columns are the keys in the order in which they first
    appear. *)
Definition from_records (records : list (list (string * pyobj))) : DataFrame :=
  let names := fold_left (fun seen r => union_keys seen (keys r)) records [] in
  {| nrows := List.length records;
     columns :=
       map (fun n =>
              (n, map (fun r => match dict_get n r with
                                | Some v => v
                                | None => NaN
                                end) records)) names |}.

(** Row [i] read back as a record. *)
Definition row (df : DataFrame) (i : nat) : list (string * pyobj) :=
  map (fun nc => (fst nc, nth i (snd nc) NaN)) (columns df).

(** The tables of a run, by reference: a Python variable holds a
    reference, and two variables holding the same reference name the
    same table. *)
Definition heap : Type := nat -> DataFrame.

Definition store (h : heap) (ref : nat) (df : DataFrame) : heap :=
  fun r => if (r =? ref)%nat then df else h r.

End Pandas.

(** ** The classification client, [linac_failure_classifier.py] *)

Module linac_failure_classifier.
Import PyStr Pandas.

(** The integers [k], [k + 1], ..., [k + m - 1]. *)
Definition tail_of_range (k m : nat) : list Z := map Z.of_nat (seq k m).

(** [range(n)] *)
Definition range (n : Z) : list Z := tail_of_range 0 (Z.to_nat n).

(** The request of one call of [client.chat.completions.create]: the
    model, the system message and the user message.  The sampling
    temperature is the same constant in every request. *)
Record request : Type := {
  req_model : string;
  req_system : string;
  req_user : string
}.

(** What one call of the client does: it raises, or it returns a response
    of which the script reads [choices[i].message.content], a string or
    [None]. *)
Inductive completion : Type :=
| Response (choices : list (option string))
| Raises (e : py_exception).

(** The object [self]: the model name and the few-shot block formatted at
    construction. *)
Record classifier : Type := {
  model : string;
  formatted_examples : string
}.

(** The markdown fence and the fence tagged [json]. *)
Definition fence : string := "```".
Definition fence_json : string := "```json".

(** Lines 136 to 139: the text handed to [json.loads]. *)
Definition unfence (result_text : string) : string :=
  if contains fence_json result_text then
    strip (item (split fence (item (split fence_json result_text) 1)) 0)
  else if contains fence result_text then
    strip (item (split fence (item (split fence result_text) 1)) 0)
  else result_text.

(** How the [try] block of one attempt ends: with the [return] of line
    142, in the handler of [json.JSONDecodeError], or in the handler of
    [Exception].  The handlers see the local [result_text] as the block
    left it: bound ([Some]) or not yet bound ([None]). *)
Inductive tried : Type :=
| Parsed (result : pyobj)
| DecodeFailed (msg : string) (result_text : option string)
| Failed (msg : string) (result_text : option string).

(** What a call of a function of the script does: it returns a value or
    an exception leaves it. *)
Inductive outcome (A : Type) : Type :=
| Returns (v : A)
| Escapes (e : fault).
Arguments Returns {A} v.
Arguments Escapes {A} e.

Section Client.

(** [json.loads]: the decoded object, or the exception raised. *)
Variable json_loads : string -> pyobj + py_exception.

(** The completion client: what its [n]-th call, counted from the start
    of the run, does with a request. *)
Variable create : nat -> request -> completion.

(** The class constant [SYSTEM_PROMPT]. *)
Variable SYSTEM_PROMPT : string.

Variable self : classifier.

(** [str(x)] for a cell that is not a string (a number, [nan]). *)
Variable repr : pyobj -> string.

(** pandas: the values stored for a column that holds no list and no
    mapping (see [infer]). *)
Variable convert : list pyobj -> list pyobj.

(** pandas: what [classify_dataframe] does with a table without rows.
    There [DataFrame.apply] does not go through the rows: it tries the
    function once on a row of [nan] and builds its result from how that
    trial ends.  This path is not followed further; it is a parameter,
    with the arguments and the result of [classify_dataframe]. *)
Variable on_empty :
  heap -> nat -> string -> string -> string -> nat -> outcome nat * heap * nat.

(** Lines 110 to 119 *)
Definition user_prompt (subject description : string) : string :=
  "Here are the examples:" ++ nl ++ formatted_examples self ++ nl ++ nl
  ++ "Classify this report:" ++ nl
  ++ "Failure_type must be selected exclusively from the defined Failure Type categories."
  ++ nl ++ nl ++ "**LINAC downtime report**" ++ nl
  ++ "Subject: " ++ subject ++ nl
  ++ "Description: " ++ description ++ nl.

Definition build_request (subject description : string) : request :=
  {| req_model := model self;
     req_system := SYSTEM_PROMPT;
     req_user := user_prompt subject description |}.

(** Lines 123 to 142, given what the client call did. *)
Definition try_block (result_text : option string) (c : completion) : tried :=
  match c with
  | Raises (JSONDecodeError msg) => DecodeFailed msg result_text
  | Raises (OtherException msg) => Failed msg result_text
  | Response [] => Failed "list index out of range" result_text
  | Response (None :: _) =>
      Failed "'NoneType' object has no attribute 'strip'" result_text
  | Response (Some content :: _) =>
      let result_text := unfence (strip content) in
      match json_loads result_text with
      | inl result => Parsed result
      | inr (JSONDecodeError msg) => DecodeFailed msg (Some result_text)
      | inr (OtherException msg) => Failed msg (Some result_text)
      end
  end.

Definition parse_error (result_text msg : string) : pyobj :=
  PyDict [("failure_type", PyStr "ParseError");
          ("raw_response", PyStr result_text);
          ("error", PyStr msg)].

Definition api_error (msg : string) : pyobj :=
  PyDict [("failure_type", PyStr "APIError"); ("error", PyStr msg)].

Definition unknown_error : pyobj :=
  PyDict [("failure_type", PyStr "UnknownError")].

(** How the [for] loop of lines 121 to 152 ends: a [return] or an
    exception inside the body leaves the function, or the attempts run
    out and control reaches line 154. *)
Inductive loop_end : Type :=
| Left (o : outcome pyobj) (calls : nat)
| Exhausted (calls : nat).

(** The loop over the attempts still to make.  The state carried from one
    attempt to the next is the binding of the local [result_text] and the
    number of client calls made so far. *)
Fixpoint attempts (req : request) (max_retries : Z) (todo : list Z)
    (result_text : option string) (calls : nat) : loop_end :=
  match todo with
  | [] => Exhausted calls
  | attempt :: todo' =>
      match try_block result_text (create calls req) with
      | Parsed result => Left (Returns result) (S calls)
      | DecodeFailed msg result_text' =>
          if (attempt =? max_retries - 1)%Z then
            match result_text' with
            | Some text => Left (Returns (parse_error text msg)) (S calls)
            | None => Left (Escapes (UnboundLocalError "result_text")) (S calls)
            end
          else attempts req max_retries todo' result_text' (S calls)
      | Failed msg result_text' =>
          if (attempt =? max_retries - 1)%Z then
            Left (Returns (api_error msg)) (S calls)
          else attempts req max_retries todo' result_text' (S calls)
      end
  end.

(** [classify_report(subject, description, max_retries)], started when
    the client has been called [calls] times; the second component is the
    number of calls made when it ends. *)
Definition classify_report (subject description : string) (max_retries : Z)
    (calls : nat) : outcome pyobj * nat :=
  match attempts (build_request subject description) max_retries
          (range max_retries) None calls with
  | Left o calls' => (o, calls')
  | Exhausted calls' => (Returns unknown_error, calls')
  end.

(** [str(x)] *)
Definition py_str (x : pyobj) : string :=
  match x with
  | PyStr s => s
  | _ => repr x
  end.

(** Lines 175 to 181: the function applied to the rows in order, each
    call with the default [max_retries] of 3. *)
Fixpoint apply_rows (frame : DataFrame) (subject_col description_col : string)
    (rows : list nat) (calls : nat) : outcome (list pyobj) * nat :=
  match rows with
  | [] => (Returns [], calls)
  | i :: rows' =>
      match cell frame i subject_col with
      | None => (Escapes (KeyError subject_col), calls)
      | Some subject =>
          match cell frame i description_col with
          | None => (Escapes (KeyError description_col), calls)
          | Some description =>
              match classify_report (py_str subject) (py_str description)
                      3 calls with
              | (Escapes e, calls') => (Escapes e, calls')
              | (Returns result, calls') =>
                  match apply_rows frame subject_col description_col
                          rows' calls' with
                  | (Escapes e, calls'') => (Escapes e, calls'')
                  | (Returns results, calls'') =>
                      (Returns (result :: results), calls'')
                  end
              end
          end
      end
  end.

(** The function of line 185 *)
Definition label_of (x : pyobj) : pyobj :=
  match x with
  | PyDict d =>
      match dict_get "failure_type" d with
      | Some v => v
      | None => PyStr "Error"
      end
  | _ => PyStr "Error"
  end.

(** [classify_dataframe(df, subject_col, description_col, output_col)]:
    [df] is a reference into the heap; the result is the reference
    returned (or the exception), the heap and the number of client calls
    at the end.  Each of the two assignments stores what pandas makes of
    the values it is given ([infer]); line 184 reads the column of line
    175 back from the table. *)
Definition classify_dataframe (h : heap) (df : nat)
    (subject_col description_col output_col : string) (calls : nat)
  : outcome nat * heap * nat :=
  match nrows (h df) with
  | O => on_empty h df subject_col description_col output_col calls
  | S _ =>
      match apply_rows (h df) subject_col description_col
              (seq 0 (nrows (h df))) calls with
      | (Escapes e, calls') => (Escapes e, h, calls')
      | (Returns results, calls') =>
          let h1 :=
            store h df (set_column output_col (infer convert results) (h df)) in
          let classified :=
            match column output_col (h1 df) with
            | Some c => c
            | None => []
            end in
          let h2 :=
            store h1 df
              (set_column "failure_type"
                 (infer convert (map label_of classified)) (h1 df)) in
          (Returns df, h2, calls')
      end
  end.

End Client.

(** One entry of the class constant [EXAMPLES]. *)
Record example : Type := {
  ex_subject : string;
  ex_description : string;
  ex_failure_type : string
}.

(** Lines 54 to 70 *)
Definition EXAMPLES : list example :=
  [{| ex_subject := "GFIL, down";
      ex_description :=
        ("Customer is getting intermittent GFIL interlock and high vac"
        ++ "uum activity in the electron gun. 6e energy will not run at "
        ++ "selected dose rate. Inspected hot deck and cold deck in the "
        ++ "gantry, downloaded gun controller parameters from the gun co"
        ++ "ntroller using boardman. Noted unusually high values for the"
        ++ " grid voltage for all energies, and HV settings incorrect. R"
        ++ "eprogrammed gun controller with grid and HV values from thei"
        ++ "r other machine. Performed basic beam tuning for all energie"
        ++ "s, verified operation all energies. Observed site physics pe"
        ++ "rform their QA procedure, site resumed treating patients.");
      ex_failure_type := "Beam Generation" |};
   {| ex_subject := "MLC is failing and secondary feedback";
      ex_description :=
        ("Friday 6-29-2012: MLC down upon arrival, MLC fault #420220 l"
        ++ "eaf B20 trajectory deviation R/O = 66.56cm. Replaced the lea"
        ++ "f motor, swapped the SFB PCB & Head Transceiver/Motor Driver"
        ++ " PCB's (no help). As t/s ordered NFO parts ... SoftPot Iso C"
        ++ "rg-B & Crg-B Motor I/C PCB. Saturday 6-30-2012: NFO parts pi"
        ++ "ck-up Chicago O'Hare airport. Assembled MLC & verified origi"
        ++ "nal problem MLC fault #420220. Shutdown MLC power supply & r"
        ++ "ebooted Collimator Node ... then power MLC & successfully in"
        ++ "itialized. Ran MLC autocycle & successfully initialized MLC "
        ++ "at gantry zero & 180 (multiple times). Could not successfull"
        ++ "y initialize the Y-Jaws due to Y1 over-current fault #415007"
        ++ ". Verified both Jaw outer Limits & Inner Limits. Found durin"
        ++ "g jaw initialization process that the jaws would come togeth"
        ++ "er physically & Y1 would draw high current. Made slight adju"
        ++ "stment to the collision switch position & successfully initi"
        ++ "alized jaws. Completed Jaw Calibration (internal) and saved "
        ++ "configuration.");
      ex_failure_type := "Collimation System" |};
   {| ex_subject := "Installed floating monitor arms.";
      ex_description :=
        ("Mounted 4 Linac control monitors on the floating arms. Same "
        ++ "configuration as Trilogy");
      ex_failure_type := "Operator Console/UI" |}].

(** Lines 91 to 95: the template filled with the fields of one entry. *)
Definition format_example (ex : example) : string :=
  "**Example report**" ++ nl
  ++ "Subject: " ++ ex_subject ex ++ nl
  ++ "Description: " ++ ex_description ex ++ nl
  ++ "Failure Type: " ++ ex_failure_type ex ++ nl.

(** [_format_examples], line 96: the blocks joined by line feeds. *)
Definition _format_examples (examples : list example) : string :=
  concat nl (map format_example examples).

(** [bool(x)] for an optional string: [None] and the empty string are
    false. *)
Definition truthy (x : option string) : bool :=
  match x with
  | Some (String _ _) => true
  | _ => false
  end.

(** [x or y] *)
Definition py_or (x y : option string) : option string :=
  if truthy x then x else y.

(** How the constructor ends: with the object, of which the key handed
    to the client is kept beside the fields that [classify_report]
    reads, or with the [ValueError] of line 82. *)
Inductive constructed : Type :=
| Built (api_key : string) (self : classifier)
| ValueError (msg : string).

(** [__init__(self, api_key, model)], lines 80 to 86; [getenv] is
    [os.getenv]. *)
Definition __init__ (getenv : string -> option string)
    (api_key : option string) (model : string) : constructed :=
  match py_or api_key (getenv "OPENAI_API_KEY") with
  | Some (String c key) =>
      Built (String c key)
        {| linac_failure_classifier.model := model;
           formatted_examples := _format_examples EXAMPLES |}
  | _ =>
      ValueError
        ("OpenAI API key not found. Set OPENAI_API_KEY environment variable"
         ++ " or pass api_key parameter.")
  end.

End linac_failure_classifier.

(** ** [os.path] on POSIX paths *)

Module OsPath.
Import PyStr.

(** [os.path.basename(p)]: what follows the last slash. *)
Definition basename (p : string) : string :=
  match rfind "/"%char p with
  | Some i => drop (S i) p
  | None => p
  end.

Fixpoint all_dots (s : string) : bool :=
  match s with
  | EmptyString => true
  | String c s' => Ascii.eqb c "."%char && all_dots s'
  end.

(** [os.path.splitext(p)]: the extension starts at the last dot of the
    last component, unless only dots precede it there. *)
Definition splitext (p : string) : string * string :=
  match rfind "."%char p with
  | None => (p, EmptyString)
  | Some dotIndex =>
      let filenameIndex :=
        match rfind "/"%char p with
        | Some sepIndex => S sepIndex
        | None => O
        end in
      if (filenameIndex <=? dotIndex)%nat
         && negb (all_dots (substring filenameIndex (dotIndex - filenameIndex) p))
      then (take dotIndex p, drop dotIndex p)
      else (p, EmptyString)
  end.

(** [os.path.join(a, b)] *)
Definition join (a b : string) : string :=
  if prefix "/" b then b
  else if (a =? "")%string || endswith a "/" then a ++ b
  else a ++ "/" ++ b.

End OsPath.

(** ** The first extractor, [report_type1_processing.py] *)

Module report_type1_processing.
Import PyStr Re Pandas.

(** [[\d/]+ [\d:]+ [APM]+] *)
Definition stamp : regex :=
  cat [plus (AnyOf [Digit; Chr "/"]); Lit " ";
       plus (AnyOf [Digit; Chr ":"]); Lit " ";
       plus (AnyOf [Chr "A"; Chr "P"; Chr "M"])].

(** [\d+\.?\d*] *)
Definition hours : regex := cat [plus d; opt (One (Chr ".")); star d].

(** Line 15 *)
Definition p_work_order_id : regex :=
  cat [Lit "Work Order"; plus ws; Lit "WO-"; Group 1 (plus d)].

(** Lines 21 and 22 *)
Definition p_time_in : regex := cat [Lit "Time In"; star ws; Group 1 stamp].
Definition p_time_out : regex := cat [Lit "Time Out"; star ws; Group 1 stamp].

(** The patterns of lines 15 to 26, in the order of the assignments. *)
Definition patterns : list (string * regex) :=
  [("work_order_id", p_work_order_id);
   ("machine_id", cat [Lit "Asset"; plus ws; Group 1 (plus (One NonSpace))]);
   ("subject", cat [Lit "Subject"; plus ws; Group 1 (plus Dot)]);
   ("description",
     cat [Lit "Closure Summary"; plus ws;
          Group 1 (plus_lazy (AnyOf [Space; NonSpace]));
          Lit (nl ++ "Work Order Times")]);
   ("malfunction_start",
     cat [Lit "Malfunction Start"; star ws; Lit ":"; star ws; Group 1 stamp]);
   ("machine_release", cat [Lit "Machine Release"; star ws; Group 1 stamp]);
   ("time_in", p_time_in);
   ("time_out", p_time_out);
   ("down_time_hours", cat [Lit "Agreed Downtime"; star ws; Group 1 hours]);
   ("site_hours", cat [Lit "Site Hours"; star ws; Group 1 hours]);
   ("travel_hours", cat [Lit "Travel Hours"; star ws; Group 1 hours]);
   ("total_work_hours", cat [Lit "Total Work Hours"; star ws; Group 1 hours])].

(** The body of the loop of lines 29 to 35 for one key. *)
Definition value_of (key : string) (m : option Match) : pyobj :=
  match m with
  | Some mt =>
      if (key =? "work_order_id")%string
      then PyStr ("WO-" ++ strip (group mt 1))
      else PyStr (strip (group mt 1))
  | None => PyNone
  end.

(** Lines 12 to 40 on the text of the document. *)
Definition extract_from_text (text : string) : list (string * pyobj) :=
  let extracted_data :=
    map (fun kp => (fst kp, value_of (fst kp) (search (snd kp) text false)))
        patterns in
  dict_set "report_source" (PyStr "varian") extracted_data.

Section Reader.

(** [pdfplumber]: what [extract_text()] gives for each page of the file,
    a string or [None]. *)
Variable pages : string -> list (option string).

(** Line 10: the pages with a non-empty text, joined by line feeds. *)
Definition read_text (pdf_path : string) : string :=
  concat nl
    (flat_map (fun t => match t with
                        | Some (String c s) => [String c s]
                        | _ => []
                        end) (pages pdf_path)).

Definition extract_data_from_pdf (pdf_path : string) : list (string * pyobj) :=
  extract_from_text (read_text pdf_path).

(** Lines 44 to 49: the list [results]. *)
Definition results (pdf_files : list string) : list (list (string * pyobj)) :=
  map (fun pdf_file =>
         dict_set "file_name" (PyStr (OsPath.basename pdf_file))
                  (extract_data_from_pdf pdf_file)) pdf_files.

Definition process_multiple_pdfs (pdf_files : list string) : DataFrame :=
  from_records (results pdf_files).

End Reader.

Section Script.

Variable pages : string -> list (option string).

(** [os.listdir] *)
Variable listdir : string -> list string.

(** The names of the directory that line 60 keeps: those that end in
    [.pdf], in lower case. *)
Definition pdf_names (directory_path : string) : list string :=
  filter (fun f => endswith f ".pdf") (listdir directory_path).

(** Line 60: the list [pdf_files] of the script, the names kept as paths
    below the directory. *)
Definition pdf_files (directory_path : string) : list string :=
  map (fun f => OsPath.join directory_path f) (pdf_names directory_path).

(** Line 61: the table [df_results] of the script, for the directory
    that line 59 names. *)
Definition df_results (directory_path : string) : DataFrame :=
  process_multiple_pdfs pages (pdf_files directory_path).

End Script.

End report_type1_processing.

(** ** The second extractor, [report_type2_processing.py] *)

Module report_type2_processing.
Import PyStr Re Pandas.

(** [\d{1,2}/\d{1,2}/\d{4}] *)
Definition date : regex :=
  cat [between d 1 2; Lit "/"; between d 1 2; Lit "/"; times d 4].

(** [\d{1,2}:\d{2}\s+[AP]M] *)
Definition clock : regex :=
  cat [between d 1 2; Lit ":"; times d 2; plus ws;
       Cls (AnyOf [Chr "A"; Chr "P"]); Lit "M"].

(** The row of the service time table, lines 17 to 19. *)
Definition time_entry : regex :=
  cat [Group 1 date; plus ws; Group 2 clock; plus ws; Group 3 clock].

(** [[\d.]+] *)
Definition number : regex := plus (AnyOf [Digit; Chr "."]).

Definition p_work_order_id : regex :=
  cat [Lit "Notification No."; plus ws; Group 1 (plus d)].

Definition p_machine_id : regex :=
  cat [Lit "Equipment ID"; plus ws; Lit "Equipment Name"; plus ws;
       Group 1 (plus (AnyOf [Range "A" "Z"; Range "0" "9"]))].

Definition p_subject : regex :=
  cat [Lit "Reason for Call"; plus ws; Group 1 (plus (NoneOf [Chr LF]))].

Definition p_description : regex :=
  cat [Lit "Corrective Action Comments"; Group 1 (star_lazy Dot);
       Lit "Times on site"].

Definition p_malfunction_start : regex :=
  cat [Lit "Event Date"; plus ws;
       Group 1 (cat [plus (AnyOf [Digit; Chr "/"]); plus ws;
                     plus d; Lit ":"; plus d; Lit ":"; plus d; plus ws;
                     Cls (AnyOf [Chr "A"; Chr "P"]); opt (One (Chr "M"))])].

Definition p_machine_release : regex :=
  cat [Lit "Equipment Released"; plus ws; Lit "Customer Signature"; plus ws;
       Group 1 (cat [date; plus ws; clock])].

Definition p_hours_block : regex :=
  cat [Lit "Total "; star_lazy (NoneOf [Chr LF]); plus ws;
       Group 1 number; plus ws; Group 2 number; plus ws; Group 3 number].

(** The local function [find] of lines 12 to 14, with [group=1]. *)
Definition find (text : string) (pattern : regex) (dotall : bool)
    (fallback : string) : string :=
  match search pattern text dotall with
  | Some m => strip (group m 1)
  | None => fallback
  end.

(** Lines 17 to 53 on the text and the file name of the document. *)
Definition extract_from_text (text filename : string)
  : list (string * pyobj) :=
  let time_entries := findall time_entry text in
  let time_in :=
    match time_entries with
    | first :: _ => group first 1 ++ " " ++ group first 2
    | [] => EmptyString
    end in
  let time_out :=
    match rev time_entries with
    | last :: _ => group last 1 ++ " " ++ group last 3
    | [] => EmptyString
    end in
  let work_order_id := find text p_work_order_id false "" in
  let machine_id := find text p_machine_id false "" in
  let subject := find text p_subject false "" in
  let description := strip (find text p_description true "") in
  let malfunction_start := find text p_malfunction_start false "" in
  let machine_release := find text p_machine_release false "" in
  let hours_block := search p_hours_block text false in
  let '(travel_hours, total_work_hours, site_hours) :=
    match hours_block with
    | Some m => (group m 1, group m 2, group m 3)
    | None => (EmptyString, EmptyString, EmptyString)
    end in
  [("work_order_id", PyStr work_order_id);
   ("machine_id", PyStr machine_id);
   ("subject", PyStr subject);
   ("description", PyStr description);
   ("malfunction_start", PyStr malfunction_start);
   ("machine_release", PyStr machine_release);
   ("time_in", PyStr time_in);
   ("time_out", PyStr time_out);
   ("down_time_hours", PyStr "");
   ("site_hours", PyStr site_hours);
   ("travel_hours", PyStr travel_hours);
   ("total_work_hours", PyStr total_work_hours);
   ("report_source", PyStr "varian");
   ("file_name", PyStr filename)].

(** Line 56: the names that end in [.pdf], whatever the case. *)
Definition is_pdf (f : string) : bool := endswith (lower f) ".pdf".

Section Reader.

(** [fitz]: the text of each page of the file. *)
Variable pages : string -> list string.

(** [os.listdir] *)
Variable listdir : string -> list string.

Definition extract_report_data (file_path : string) : list (string * pyobj) :=
  let text := concat nl (pages file_path) in
  let filename := fst (OsPath.splitext (OsPath.basename file_path)) in
  extract_from_text text filename.

Definition pdf_files (folder_path : string) : list string :=
  filter is_pdf (listdir folder_path).

(** Lines 57 to 61: the list [data]. *)
Definition data (folder_path : string) : list (list (string * pyobj)) :=
  map (fun file => extract_report_data (OsPath.join folder_path file))
      (pdf_files folder_path).

Definition extract_from_folder (folder_path : string) : DataFrame :=
  from_records (data folder_path).

End Reader.

End report_type2_processing.

(** ** The third extractor, [report_type3_processing.py] *)

Module report_type3_processing.
Import PyStr Re Pandas.

(** [\d{2}/\d{2}/\d{4} \d{2}:\d{2}] *)
Definition stamp : regex :=
  cat [times d 2; Lit "/"; times d 2; Lit "/"; times d 4; Lit " ";
       times d 2; Lit ":"; times d 2].

(** Lines 19 to 24 *)
Definition p_times : regex :=
  cat [Lit "Time In"; plus ws; Lit "Time Out"; plus ws;
       Lit "Malfunction Start"; plus ws; Lit "Machine Release Time"; plus ws;
       Group 1 stamp; plus ws; Group 2 stamp; plus ws;
       Group 3 stamp; plus ws; Group 4 stamp].

Definition p_work_order_id : regex :=
  cat [Lit "Work Order Number"; plus ws; Group 1 (cat [Lit "WO-"; plus d])].

Definition p_machine_id : regex :=
  cat [Lit "Installed Product"; plus ws;
       Group 1 (plus (AnyOf [Range "A" "Z"; Range "0" "9"]))].

Definition p_subject : regex :=
  cat [Lit "Problem Description"; plus ws; Group 1 (plus_lazy Dot);
       Alt (Lit nl) (Lit "Work Performed Comments")].

Definition p_description : regex :=
  cat [Lit "Work Performed Comments"; plus ws; Group 1 (plus_lazy Dot);
       Alt (Lit (nl ++ "Follow Up Comments")) (Lit (nl ++ nl))].

(** [[0-9.]+] *)
Definition number : regex := plus (AnyOf [Range "0" "9"; Chr "."]).

(** Lines 36 to 38 *)
Definition p_hours : regex :=
  cat [Lit "Total Travel Hours"; plus ws; Lit "Total Work Hours"; plus ws;
       Lit "Total Site Hours"; plus ws; Lit "Agreed Downtime"; star ws; Lit nl;
       Group 1 number; plus ws; Group 2 number; plus ws; Group 3 number].

(** The local function [find] of lines 13 to 15, with [group=1]. *)
Definition find (text : string) (pattern : regex) (dotall : bool)
    (fallback : string) : string :=
  match search pattern text dotall with
  | Some m => strip (group m 1)
  | None => fallback
  end.

(** Lines 18 to 57 on the text and the file name of the document. *)
Definition extract_from_text (text filename : string)
  : list (string * pyobj) :=
  let times_match := search p_times text false in
  let '(time_in, time_out, malfunction_start, machine_release) :=
    match times_match with
    | Some m => (group m 1, group m 2, group m 3, group m 4)
    | None => (EmptyString, EmptyString, EmptyString, EmptyString)
    end in
  let work_order_id := find text p_work_order_id false "" in
  let machine_id := find text p_machine_id false "" in
  let subject := find text p_subject true "" in
  let description := find text p_description true "" in
  let hours_match := search p_hours text false in
  let '(travel_hours, total_work_hours, site_hours) :=
    match hours_match with
    | Some m => (group m 1, group m 2, group m 3)
    | None => (EmptyString, EmptyString, EmptyString)
    end in
  [("work_order_id", PyStr work_order_id);
   ("machine_id", PyStr machine_id);
   ("subject", PyStr subject);
   ("description", PyStr description);
   ("malfunction_start", PyStr malfunction_start);
   ("machine_release", PyStr machine_release);
   ("time_in", PyStr time_in);
   ("time_out", PyStr time_out);
   ("down_time_hours", PyStr "");
   ("site_hours", PyStr site_hours);
   ("travel_hours", PyStr travel_hours);
   ("total_work_hours", PyStr total_work_hours);
   ("report_source", PyStr "varian");
   ("file_name", PyStr filename)].

Definition is_pdf (f : string) : bool := endswith (lower f) ".pdf".

Section Reader.

Variable pages : string -> list string.
Variable listdir : string -> list string.

Definition extract_report_data (file_path : string) : list (string * pyobj) :=
  let text := concat nl (pages file_path) in
  let filename := fst (OsPath.splitext (OsPath.basename file_path)) in
  extract_from_text text filename.

Definition pdf_files (folder_path : string) : list string :=
  filter is_pdf (listdir folder_path).

Definition data (folder_path : string) : list (list (string * pyobj)) :=
  map (fun f => extract_report_data (OsPath.join folder_path f))
      (pdf_files folder_path).

Definition extract_from_folder (folder_path : string) : DataFrame :=
  from_records (data folder_path).

End Reader.

End report_type3_processing.

(** ** Vocabulary of the properties *)

Module Props.
Import PyStr Re Pandas linac_failure_classifier.

(** A classification result in the sense of the data model: a mapping
    with a key [failure_type] whose value is a string. *)
Definition labelled (x : pyobj) : Prop :=
  exists d s, x = PyDict d /\ dict_get "failure_type" d = Some (PyStr s).

(** The three sentinel results of [classify_report]. *)
Definition sentinel (x : pyobj) : Prop :=
  (exists text msg, x = parse_error text msg)
  \/ (exists msg, x = api_error msg)
  \/ x = unknown_error.

(** What the [try] block does with the text that it hands to the decoder. *)
Definition decode (json_loads : string -> pyobj + py_exception) (text : string)
  : tried :=
  match json_loads text with
  | inl result => Parsed result
  | inr (JSONDecodeError msg) => DecodeFailed msg (Some text)
  | inr (OtherException msg) => Failed msg (Some text)
  end.

(** [c] does not occur in [s]. *)
Fixpoint free_of (c : ascii) (s : string) : bool :=
  match s with
  | EmptyString => true
  | String a s' => negb (Ascii.eqb a c) && free_of c s'
  end.

Definition tick : ascii := "`"%char.

(** A fenced code block of markdown: the fence, the language tag on the
    same line, the content on the following lines, the closing fence. *)
Definition fenced_block (tag body : string) : string :=
  fence ++ tag ++ nl ++ body ++ nl ++ fence.

(** The rule the specification gives for a table of rows (start, end):
    the start of the first row and the end of the last row. *)
Definition table_rule (rows : list (string * string)) : string * string :=
  match rows with
  | [] => (EmptyString, EmptyString)
  | first :: _ => (fst first, snd (last rows first))
  end.

(** The rows of the service time table of the second layout: a date, a
    start time and an end time. *)
Definition rows2 (text : string) : list (string * string) :=
  map (fun m => (group m 1 ++ " " ++ group m 2, group m 1 ++ " " ++ group m 3))
      (findall report_type2_processing.time_entry text).

(** The rows of the table of the third layout, four time stamps each:
    time in, time out, malfunction start, machine release. *)
Definition row3 : regex :=
  cat [Group 1 report_type3_processing.stamp; plus ws;
       Group 2 report_type3_processing.stamp; plus ws;
       Group 3 report_type3_processing.stamp; plus ws;
       Group 4 report_type3_processing.stamp].

Definition rows3 (text : string) : list (string * string) :=
  map (fun m => (group m 1, group m 2)) (findall row3 text).

(** [time_in] and [time_out] of a record. *)
Definition times_of (record : list (string * pyobj))
  : option pyobj * option pyobj :=
  (dict_get "time_in" record, dict_get "time_out" record).

(** The fields that the extractors file under "metadata" (the comments of
    lines 23 and 28 of the second and third script): identifiers, subject,
    description and the two event times. *)
Definition id_metadata_fields : list string :=
  ["work_order_id"; "machine_id"; "subject"; "description";
   "malfunction_start"; "machine_release"].

Definition is_id_metadata (key : string) : bool :=
  existsb (String.eqb key) id_metadata_fields.

(** The fixed column set of the data model. *)
Definition column_set : list string :=
  ["work_order_id"; "machine_id"; "subject"; "description";
   "malfunction_start"; "machine_release"; "time_in"; "time_out";
   "down_time_hours"; "site_hours"; "travel_hours"; "total_work_hours";
   "report_source"; "file_name"].

(** The fields of the second and third extractor that come from one
    search each, with the pattern and the [DOTALL] flag of the search. *)
Definition fields2 : list (string * (regex * bool)) :=
  [("work_order_id", (report_type2_processing.p_work_order_id, false));
   ("machine_id", (report_type2_processing.p_machine_id, false));
   ("subject", (report_type2_processing.p_subject, false));
   ("description", (report_type2_processing.p_description, true));
   ("malfunction_start", (report_type2_processing.p_malfunction_start, false));
   ("machine_release", (report_type2_processing.p_machine_release, false));
   ("site_hours", (report_type2_processing.p_hours_block, false));
   ("travel_hours", (report_type2_processing.p_hours_block, false));
   ("total_work_hours", (report_type2_processing.p_hours_block, false))].

Definition fields3 : list (string * (regex * bool)) :=
  [("work_order_id", (report_type3_processing.p_work_order_id, false));
   ("machine_id", (report_type3_processing.p_machine_id, false));
   ("subject", (report_type3_processing.p_subject, true));
   ("description", (report_type3_processing.p_description, true));
   ("malfunction_start", (report_type3_processing.p_times, false));
   ("machine_release", (report_type3_processing.p_times, false));
   ("time_in", (report_type3_processing.p_times, false));
   ("time_out", (report_type3_processing.p_times, false));
   ("site_hours", (report_type3_processing.p_hours, false));
   ("travel_hours", (report_type3_processing.p_hours, false));
   ("total_work_hours", (report_type3_processing.p_hours, false))].

(** The text starts with a character that passes the test. *)
Definition starts_with (p : ascii -> bool) (s : string) : bool :=
  match s with
  | String c _ => p c
  | EmptyString => false
  end.

(** The pattern matches at none of the first [n] positions from [pos]
    on, where [s] is the text from [pos] on. *)
Fixpoint no_match_before (dotall : bool) (r : regex) (n pos : nat)
    (s : string) : bool :=
  match n with
  | O => true
  | S n' =>
      match run dotall r accept pos s [] with
      | Some _ => false
      | None =>
          match s with
          | String _ s' => no_match_before dotall r n' (S pos) s'
          | EmptyString => true
          end
      end
  end.

(** The characters that [\d] and [\s] can take.  The texts here hold
    the code points below U+0100, where [\d] takes the ten ASCII digits
    and nothing else ([is_digit]); in a larger alphabet it also takes the
    decimal digits of other scripts, and [\s] further white space, all of
    them beyond ASCII.  A shape stated with the two tests below allows
    any character beyond ASCII where the pattern has [\d] or [\s]. *)
Definition digit_like (c : ascii) : bool :=
  Re.is_digit c || (128 <=? nat_of_ascii c)%nat.


(** Each search of the scripts with the groups read from its match. *)
Definition group_uses : list (regex * list nat) :=
  map (fun kp => (snd kp, [1])) report_type1_processing.patterns
  ++ [(report_type2_processing.time_entry, [1; 2; 3]);
      (report_type2_processing.p_work_order_id, [1]);
      (report_type2_processing.p_machine_id, [1]);
      (report_type2_processing.p_subject, [1]);
      (report_type2_processing.p_description, [1]);
      (report_type2_processing.p_malfunction_start, [1]);
      (report_type2_processing.p_machine_release, [1]);
      (report_type2_processing.p_hours_block, [1; 2; 3]);
      (report_type3_processing.p_times, [1; 2; 3; 4]);
      (report_type3_processing.p_work_order_id, [1]);
      (report_type3_processing.p_machine_id, [1]);
      (report_type3_processing.p_subject, [1]);
      (report_type3_processing.p_description, [1]);
      (report_type3_processing.p_hours, [1; 2; 3])].

(** No value of the record is [None]. *)
Definition all_str (record : list (string * pyobj)) : bool :=
  forallb (fun kv => is_str (snd kv)) record.

(** Every column of a table has one cell per row. *)
Definition well_formed (df : DataFrame) : Prop :=
  forall name cells, In (name, cells) (columns df) ->
                     List.length cells = nrows df.

(** What is assumed of pandas for a column without list and mapping: it
    stores one value for each value given, a string as it is, and no
    list and no mapping. *)
Definition converts_scalars (convert : list pyobj -> list pyobj) : Prop :=
  forall values,
    existsb is_container values = false ->
    List.length (convert values) = List.length values
    /\ (forall i s, nth_error values i = Some (PyStr s) ->
                    nth_error (convert values) i = Some (PyStr s))
    /\ existsb is_container (convert values) = false.

(** The labels of a table after an assignment to the column [name]: a
    label that is there keeps its place, another one comes last. *)
Definition add_label (name : string) (names : list string) : list string :=
  if existsb (String.eqb name) names then names else (names ++ [name])%list.

(** The client never raises [json.JSONDecodeError] itself. *)
Definition no_decode_error_raised (create : nat -> request -> completion)
  : Prop :=
  forall n req msg, create n req <> Raises (JSONDecodeError msg).

(** The answer of call [n] of the client to the request made of the
    cells [s] and [x], subject and description, decodes to [v]. *)
Definition answer_decodes (json_loads : string -> pyobj + py_exception)
    (create : nat -> request -> completion) (SYSTEM_PROMPT : string)
    (self : classifier) (repr : pyobj -> string) (n : nat) (s x v : pyobj)
  : Prop :=
  exists content rest,
    create n (build_request SYSTEM_PROMPT self (py_str repr s) (py_str repr x))
    = Response (Some content :: rest)
    /\ json_loads (unfence (strip content)) = inl v.

(** Every character of the text passes the test. *)
Fixpoint all_chars (p : ascii -> bool) (s : string) : bool :=
  match s with
  | EmptyString => true
  | String c s' => p c && all_chars p s'
  end.

(** The texts of a pattern: what the pattern matches as a whole, the
    groups and the choice between greedy and lazy set aside. *)
Fixpoint denotes (dotall : bool) (r : regex) (w : string) : Prop :=
  match r with
  | Lit l => w = l
  | Cls k =>
      exists c, w = String c EmptyString /\ class_matches dotall k c = true
  | Rep k lo hi _ =>
      all_chars (class_matches dotall k) w = true
      /\ lo <= length w
      /\ (forall h, hi = Some h -> length w <= h)
  | Seq r1 r2 =>
      exists w1 w2, w = w1 ++ w2 /\ denotes dotall r1 w1 /\ denotes dotall r2 w2
  | Alt r1 r2 => denotes dotall r1 w \/ denotes dotall r2 w
  | Group _ r1 => denotes dotall r1 w
  end.

(** The patterns between the parentheses numbered [n]. *)
Fixpoint bodies (n : nat) (r : regex) : list regex :=
  match r with
  | Lit _ | Cls _ | Rep _ _ _ _ => []
  | Seq r1 r2 | Alt r1 r2 => (bodies n r1 ++ bodies n r2)%list
  | Group i r1 => ((if (i =? n)%nat then [r1] else []) ++ bodies n r1)%list
  end.

(** A group of a match of [r] in [text] holds a text of the pattern
    between its parentheses. *)
Definition sound_capture (dotall : bool) (text : string) (r : regex)
    (c : nat * (nat * nat)) : Prop :=
  fst (snd c) <= snd (snd c)
  /\ exists r', In r' (bodies (fst c) r)
                /\ denotes dotall r'
                     (substring (fst (snd c)) (snd (snd c) - fst (snd c)) text).

(** What a match of a search holds. *)
Definition match_sound (dotall : bool) (r : regex) (text : string) (m : Match)
  : Prop :=
  m_text m = text
  /\ (exists pre w rest,
         text = pre ++ w ++ rest /\ m_start m = length pre
         /\ m_end m = length pre + length w /\ denotes dotall r w)
  /\ (forall c, In c (m_groups m) -> sound_capture dotall text r c).


(** One such character or more. *)
Definition number (s : string) : Prop :=
  s <> EmptyString /\ all_chars digit_like s = true.






End Props.

(** ** Sample runs *)

Module Samples.
Import PyStr Pandas linac_failure_classifier.

(** The double quote, and a JSON string literal. *)
Definition dq : string := String "034"%char EmptyString.
Definition quoted (s : string) : string := dq ++ s ++ dq.

(** The JSON object with one member. *)
Definition object1 (key value : string) : string :=
  "{" ++ quoted key ++ ": " ++ value ++ "}".

(** A well-formed classification, as a JSON document. *)
Definition cooling : string :=
  object1 "failure_type" (quoted "Cooling System").

Definition self : classifier :=
  {| model := "gpt-4o"; formatted_examples := EmptyString |}.

Definition SYSTEM_PROMPT : string :=
  "You are an expert medical engineering assistant.".

Definition subject : string := "GFIL, down".

Definition description : string :=
  "Customer is getting intermittent GFIL interlock.".

(** A report in the first layout that names no hours. *)
Definition text1 : string :=
  "Work Order WO-12345" ++ nl ++ "Asset H192345" ++ nl
  ++ "Subject GFIL, down" ++ nl.

(** A report in the second layout with two rows in its time table. *)
Definition text2 : string :=
  "Notification No. 4711" ++ nl
  ++ "1/2/2024 9:00 AM 10:15 AM" ++ nl
  ++ "1/3/2024 1:00 PM 2:30 PM" ++ nl.

(** A report in the third layout whose time table has two rows. *)
Definition text3 : string :=
  "Time In Time Out Malfunction Start Machine Release Time" ++ nl
  ++ "01/02/2024 08:00 01/02/2024 09:00 01/01/2024 07:00 01/02/2024 10:00"
  ++ nl
  ++ "01/03/2024 08:00 01/03/2024 11:00 01/01/2024 07:00 01/03/2024 12:00"
  ++ nl.

(** A reader for the first extractor: one file holds [text1] on a page
    between two empty pages, every other file has no text. *)
Definition pages1 (pdf_path : string) : list (option string) :=
  if (pdf_path =? "reports/a.pdf")%string
  then [None; Some text1; Some EmptyString]
  else [None].

(** A folder of the second layout and its reader. *)
Definition listdir2 (folder_path : string) : list string :=
  ["a.pdf"; "notes.txt"; "B.PDF"].

Definition pages2 (file_path : string) : list string :=
  if (file_path =? "reports/a.pdf")%string then [text2] else [].

(** A client that gives the same answer at every call. *)
Definition answers (content : string) : nat -> request -> completion :=
  fun _ _ => Response [Some content].

(** A client that raises the same exception at every call. *)
Definition fails (e : py_exception) : nat -> request -> completion :=
  fun _ _ => Raises e.

(** [str] of a cell that is not a string: the samples hold [nan] only. *)
Definition repr (x : pyobj) : string := "nan".

(** A table of one report, and the same table with a column of labels
    assigned by hand. *)
Definition frame : DataFrame :=
  {| nrows := 1;
     columns := [("subject", [PyStr subject]);
                 ("description", [PyStr description])] |}.

Definition labelled_frame : DataFrame :=
  {| nrows := 1;
     columns := [("subject", [PyStr subject]);
                 ("description", [PyStr description]);
                 ("failure_type", [PyStr "Imaging System (KV/MV)"])] |}.

(** The same table with a column under the name of the output column. *)
Definition classified_frame : DataFrame :=
  {| nrows := 1;
     columns := [("llm_classification", [PyStr "to do"]);
                 ("subject", [PyStr subject]);
                 ("description", [PyStr description])] |}.

(** A heap that holds the table [df] under every reference. *)
Definition heap_of (df : DataFrame) : heap := fun _ => df.

(** The sample tables have a row, and every column assigned to them
    holds a mapping, a list or strings only: the two parameters of pandas
    are not reached in the sample runs.  These values stand in for
    them. *)
Definition convert (values : list pyobj) : list pyobj := values.

Definition on_empty (h : heap) (df : nat)
    (subject_col description_col output_col : string) (calls : nat)
  : outcome nat * heap * nat :=
  (Returns df, h, calls).

(** [classify_dataframe] with the default column names on the table
    under reference 0, with the reference decoder, from a fresh client. *)
Definition classify_frame (create : nat -> request -> completion)
    (df : DataFrame) : outcome nat * heap * nat :=
  classify_dataframe JsonRef.loads create SYSTEM_PROMPT self repr convert
    on_empty (heap_of df) 0 "subject" "description" "llm_classification" 0.

(** The answer with two labels in a list. *)
Definition two_labels : string :=
  object1 "failure_type"
    ("[" ++ quoted "Beam Generation" ++ ", " ++ quoted "Cooling System" ++ "]").

(** [classify_report] on the sample report, with the reference decoder,
    from a fresh client. *)
Definition classify (create : nat -> request -> completion) (max_retries : Z)
  : outcome pyobj * nat :=
  classify_report JsonRef.loads create SYSTEM_PROMPT self subject description
    max_retries 0.

End Samples.

(* ================================================================== *)
(** * Part II: properties *)
(* ================================================================== *)

Import PyStr Re Pandas linac_failure_classifier Props.
(** ** Strings *)

Lemma append_assoc (a b c : string) : (a ++ b) ++ c = a ++ (b ++ c).
Proof. induction a as [|x a IH]; simpl; [reflexivity | now rewrite IH]. Qed.

Lemma length_append (a b : string) : length (a ++ b) = length a + length b.
Proof. induction a as [|x a IH]; simpl; [reflexivity | now rewrite IH]. Qed.

Lemma prefix_append (sep s : string) : prefix sep (sep ++ s) = true.
Proof.
  induction sep as [|x sep IH]; simpl.
  - now destruct s.
  - destruct (ascii_dec x x); [exact IH | congruence].
Qed.

Lemma drop_append (a s : string) : drop (length a) (a ++ s) = s.
Proof. induction a as [|x a IH]; simpl; [now destruct s | exact IH]. Qed.

Lemma prefix_head (c a : ascii) (sep s : string) :
  Ascii.eqb a c = false -> prefix (String c sep) (String a s) = false.
Proof.
  intros H. simpl. destruct (ascii_dec c a) as [E|]; [|reflexivity].
  subst. now rewrite Ascii.eqb_refl in H.
Qed.

Lemma partition_here (sep s : string) :
  prefix sep s = true -> partition sep s = Some (EmptyString, drop (length sep) s).
Proof. intros H. destruct s; cbn [partition]; now rewrite H. Qed.

Lemma contains_here (sep s : string) :
  prefix sep s = true -> contains sep s = true.
Proof. intros H. destruct s; cbn [contains]; now rewrite H. Qed.

(** A separator that starts with [c] is first found after a text free of
    [c]. *)
Lemma partition_skip (c : ascii) (sep pre rest : string) :
  free_of c pre = true ->
  partition (String c sep) (pre ++ String c sep ++ rest) = Some (pre, rest).
Proof.
  intros H. induction pre as [|a pre IH].
  - change (EmptyString ++ String c sep ++ rest) with (String c sep ++ rest).
    rewrite partition_here by apply prefix_append.
    now rewrite drop_append.
  - simpl in H. apply andb_true_iff in H as [Ha Hp].
    apply negb_true_iff in Ha.
    change ((String a pre) ++ String c sep ++ rest)
      with (String a (pre ++ String c sep ++ rest)).
    cbn [partition].
    rewrite (prefix_head c a sep _ Ha), (IH Hp). reflexivity.
Qed.

Lemma partition_free (c : ascii) (sep s : string) :
  free_of c s = true -> partition (String c sep) s = None.
Proof.
  intros H. induction s as [|a s IH].
  - reflexivity.
  - simpl in H. apply andb_true_iff in H as [Ha Hs].
    apply negb_true_iff in Ha.
    cbn [partition].
    rewrite (prefix_head c a sep _ Ha), (IH Hs). reflexivity.
Qed.

Lemma contains_partition (sep s : string) :
  contains sep s = false -> partition sep s = None.
Proof.
  induction s as [|a s IH]; cbn [contains partition].
  - destruct (prefix sep ""); [discriminate | reflexivity].
  - destruct (prefix sep (String a s)); [discriminate|].
    intros H. now rewrite IH.
Qed.

Lemma partition_contains (sep s : string) :
  contains sep s = true -> exists before after,
    partition sep s = Some (before, after).
Proof.
  induction s as [|a s IH]; cbn [contains partition].
  - destruct (prefix sep ""); [eauto | discriminate].
  - destruct (prefix sep (String a s)); [eauto|].
    intros H. destruct (IH H) as (b & r & E). rewrite E. eauto.
Qed.

Lemma contains_append (sep pre rest : string) :
  contains sep (pre ++ sep ++ rest) = true.
Proof.
  induction pre as [|a pre IH].
  - change (EmptyString ++ sep ++ rest) with (sep ++ rest).
    apply contains_here, prefix_append.
  - change (String a pre ++ sep ++ rest) with (String a (pre ++ sep ++ rest)).
    cbn [contains]. rewrite IH. now destruct (prefix sep _).
Qed.

(** The first two pieces of a split. *)
Lemma split_loop_cut (n : nat) (sep s before after : string) :
  partition sep s = Some (before, after) ->
  split_loop (S n) sep s = before :: split_loop n sep after.
Proof. intros H. cbn [split_loop]. now rewrite H. Qed.

Lemma split_loop_whole (n : nat) (sep s : string) :
  partition sep s = None -> split_loop n sep s = [s].
Proof. intros H. destruct n; cbn [split_loop]; [reflexivity | now rewrite H]. Qed.

Lemma split_first (sep s before after : string) :
  partition sep s = Some (before, after) -> s <> EmptyString ->
  item (split sep s) 0 = before
  /\ item (split sep s) 1 = item (split_loop (pred (length s)) sep after) 0.
Proof.
  intros H Hs. unfold split. destruct s as [|a s]; [congruence|].
  cbn [length pred]. rewrite (split_loop_cut _ _ _ _ _ H). split; reflexivity.
Qed.

Lemma prefix_weaken (a b s : string) :
  prefix (a ++ b) s = true -> prefix a s = true.
Proof.
  revert s. induction a as [|x a IH]; intros s.
  - now destruct s.
  - destruct s as [|y s]; simpl; [discriminate|].
    destruct (ascii_dec x y); [apply IH | discriminate].
Qed.

Lemma contains_fence_json (s : string) :
  contains fence s = false -> contains fence_json s = false.
Proof.
  induction s as [|a s IH]; cbn [contains].
  - reflexivity.
  - destruct (prefix fence (String a s)) eqn:E; [discriminate|].
    intros H. rewrite (IH H).
    destruct (prefix fence_json (String a s)) eqn:F; [|reflexivity].
    apply (prefix_weaken fence "json") in F. congruence.
Qed.

(** ** The text handed to the decoder *)

(** A block opened by the fence tagged [json]: the text between that
    fence and the closing fence is kept, stripped. *)
Lemma unfence_json (pre body post : string) :
  free_of tick pre = true -> free_of tick body = true ->
  contains fence_json (body ++ fence ++ post) = false ->
  unfence (pre ++ fence_json ++ body ++ fence ++ post) = strip body.
Proof.
  intros Hpre Hbody Hpost. unfold unfence.
  rewrite contains_append.
  assert (P1 : partition fence_json (pre ++ fence_json ++ body ++ fence ++ post)
               = Some (pre, body ++ fence ++ post))
    by (apply (partition_skip tick "``json"); exact Hpre).
  destruct (split_first _ _ _ _ P1) as [_ E1].
  { intros E. apply (f_equal length) in E.
    rewrite !length_append in E. simpl in E. lia. }
  rewrite E1, (split_loop_whole _ _ _ (contains_partition _ _ Hpost)).
  cbn [item nth].
  assert (P2 : partition fence (body ++ fence ++ post) = Some (body, post))
    by (apply (partition_skip tick "``"); exact Hbody).
  destruct (split_first _ _ _ _ P2) as [E2 _].
  { intros E. apply (f_equal length) in E.
    rewrite !length_append in E. simpl in E. lia. }
  now rewrite E2.
Qed.

(** A block opened by a bare fence, in a text without the tagged fence. *)
Lemma unfence_bare (pre body post : string) :
  free_of tick pre = true -> free_of tick body = true ->
  contains fence_json (pre ++ fence ++ body ++ fence ++ post) = false ->
  unfence (pre ++ fence ++ body ++ fence ++ post) = strip body.
Proof.
  intros Hpre Hbody Hjson. unfold unfence.
  rewrite Hjson, contains_append.
  assert (P1 : partition fence (pre ++ fence ++ body ++ fence ++ post)
               = Some (pre, body ++ fence ++ post))
    by (apply (partition_skip tick "``"); exact Hpre).
  destruct (split_first _ _ _ _ P1) as [_ E1].
  { intros E. apply (f_equal length) in E.
    rewrite !length_append in E. simpl in E. lia. }
  rewrite E1.
  assert (P2 : partition fence (body ++ fence ++ post) = Some (body, post))
    by (apply (partition_skip tick "``"); exact Hbody).
  assert (L : exists n, pred (length (pre ++ fence ++ body ++ fence ++ post))
                        = S n).
  { exists (length pre + (1 + (length body + (3 + length post)))).
    unfold fence. rewrite !length_append. cbn [length]. lia. }
  destruct L as [n L]. rewrite L, (split_loop_cut _ _ _ _ _ P2).
  cbn [item nth].
  assert (P3 : partition fence body = None)
    by (apply (partition_free tick "``"); exact Hbody).
  unfold split. now rewrite (split_loop_whole _ _ _ P3).
Qed.

(** Without a fence the text is handed over as it is. *)
Lemma unfence_plain (text : string) :
  contains fence text = false -> unfence text = text.
Proof.
  intros H. unfold unfence. now rewrite (contains_fence_json _ H), H.
Qed.

(** The indices of lines 137 and 139 are in range: a text that contains
    the separator splits into two pieces at least. *)
Lemma split_in_range (sep s : string) :
  contains sep s = true -> sep <> EmptyString ->
  2 <= List.length (split sep s).
Proof.
  intros H Hsep. destruct (partition_contains _ _ H) as (b & a & P).
  unfold split. destruct s as [|c s].
  - destruct sep; [congruence | discriminate].
  - cbn [length]. rewrite (split_loop_cut _ _ _ _ _ P).
    destruct (length s); cbn [split_loop List.length]; [lia|].
    destruct (partition sep a) as [[? ?]|]; cbn [List.length]; lia.
Qed.

(** The fuel of [split] is enough: more of it changes nothing. *)
Lemma prefix_drop_length (sep s : string) :
  prefix sep s = true -> length s = length sep + length (drop (length sep) s).
Proof.
  revert s. induction sep as [|a sep IH]; intros s.
  - now destruct s.
  - destruct s as [|b s]; simpl; [discriminate|].
    destruct (ascii_dec a b); [|discriminate].
    intros H. now rewrite (IH s H) at 1.
Qed.

Lemma partition_length (sep s before after : string) :
  partition sep s = Some (before, after) ->
  length s = length before + length sep + length after.
Proof.
  revert before. induction s as [|c s IH]; intros before; cbn [partition].
  - destruct (prefix sep EmptyString) eqn:E; [|discriminate].
    intros F. injection F as <- <-. exact (prefix_drop_length _ _ E).
  - destruct (prefix sep (String c s)) eqn:E.
    + intros F. injection F as <- <-. exact (prefix_drop_length _ _ E).
    + destruct (partition sep s) as [[b a]|]; [|discriminate].
      intros F. injection F as <- <-. cbn [length]. rewrite (IH b eq_refl). lia.
Qed.

Lemma split_fuel_enough (sep : string) :
  sep <> EmptyString ->
  forall n m s, length s <= n -> length s <= m ->
                split_loop n sep s = split_loop m sep s.
Proof.
  intros Hsep. induction n as [|n IH]; intros m s Hn Hm.
  - destruct s; [|cbn in Hn; lia].
    assert (P : partition sep EmptyString = None).
    { cbn [partition]. destruct sep; [congruence | reflexivity]. }
    now rewrite !split_loop_whole.
  - destruct (partition sep s) as [[b a]|] eqn:P.
    + pose proof (partition_length _ _ _ _ P) as L.
      assert (0 < length sep) by (destruct sep; [congruence | cbn; lia]).
      destruct m as [|m]; [lia|].
      rewrite !(split_loop_cut _ _ _ _ _ P). f_equal. apply IH; lia.
    + now rewrite !split_loop_whole.
Qed.

(** ** The attempt loop *)

Section Loop.

Variable json_loads : string -> pyobj + py_exception.
Variable create : nat -> request -> completion.
Variable req : request.
Variable max_retries : Z.

Lemma tail_of_range_cons (k m : nat) :
  tail_of_range k (S m) = Z.of_nat k :: tail_of_range (S k) m.
Proof. reflexivity. Qed.

Lemma last_attempt (k : nat) :
  Z.of_nat (k + 1) = max_retries -> (Z.of_nat k =? max_retries - 1)%Z = true.
Proof. intros H. apply Z.eqb_eq. lia. Qed.

Lemma earlier_attempt (k m : nat) :
  Z.of_nat (k + S (S m)) = max_retries ->
  (Z.of_nat k =? max_retries - 1)%Z = false.
Proof. intros H. apply Z.eqb_neq. lia. Qed.

(** With an attempt still to make, the loop is left from inside. *)
Lemma attempts_not_exhausted (m k : nat) (rt : option string) (calls c : nat) :
  Z.of_nat (k + S m) = max_retries ->
  attempts json_loads create req max_retries (tail_of_range k (S m)) rt calls <> Exhausted c.
Proof.
  revert k rt calls. induction m as [|m IH]; intros k rt calls H;
    rewrite tail_of_range_cons; cbn [attempts].
  - rewrite (last_attempt k H).
    destruct (try_block json_loads rt (create calls req)) as [r|msg [t|]|msg t];
      discriminate.
  - rewrite (earlier_attempt k m H).
    destruct (try_block json_loads rt (create calls req)) as [r|msg rt'|msg rt'];
      [discriminate| |]; apply (IH (S k)); lia.
Qed.

(** When every attempt gets a response that the decoder refuses, the
    loop returns the parse error of the last attempt. *)
Lemma attempts_all_refused (m k : nat) (rt : option string) (calls : nat) :
  Z.of_nat (k + S m) = max_retries ->
  (forall i, i < S m -> exists content rest msg,
      create (calls + i) req = Response (Some content :: rest)
      /\ json_loads (unfence (strip content)) = inr (JSONDecodeError msg)) ->
  exists content rest msg,
    create (calls + m) req = Response (Some content :: rest)
    /\ json_loads (unfence (strip content)) = inr (JSONDecodeError msg)
    /\ attempts json_loads create req max_retries (tail_of_range k (S m)) rt calls
       = Left (Returns (parse_error (unfence (strip content)) msg))
              (calls + S m).
Proof.
  revert k rt calls. induction m as [|m IH]; intros k rt calls H Hall;
    rewrite tail_of_range_cons; cbn [attempts].
  - destruct (Hall 0) as (content & rest & msg & Hc & Hj); [lia|].
    rewrite Nat.add_0_r in *. exists content, rest, msg.
    repeat split; try assumption.
    rewrite Hc. cbn [try_block]. rewrite Hj, (last_attempt k H).
    f_equal. lia.
  - destruct (Hall 0) as (content0 & rest0 & msg0 & Hc0 & Hj0); [lia|].
    rewrite Nat.add_0_r in Hc0.
    rewrite Hc0. cbn [try_block]. rewrite Hj0, (earlier_attempt k m H).
    destruct (IH (S k) (Some (unfence (strip content0))) (S calls))
      as (content & rest & msg & Hc & Hj & Hl).
    + lia.
    + intros i Hi. destruct (Hall (S i)) as (c' & r' & m' & Hc' & Hj'); [lia|].
      exists c', r', m'. split; [|assumption].
      now replace (S calls + i) with (calls + S i) by lia.
    + exists content, rest, msg.
      replace (calls + S m) with (S calls + m) by lia.
      repeat split; try assumption.
      rewrite Hl. f_equal. lia.
Qed.


(** When the client itself raises a decode error at every attempt of a
    run that has bound no [result_text] yet, the first handler reads the
    unbound local at the last attempt. *)
Lemma attempts_all_decode_raise (m k : nat) (calls : nat) :
  Z.of_nat (k + S m) = max_retries ->
  (forall i, i < S m -> exists msg,
      create (calls + i) req = Raises (JSONDecodeError msg)) ->
  attempts json_loads create req max_retries (tail_of_range k (S m)) None calls
  = Left (Escapes (UnboundLocalError "result_text")) (calls + S m).
Proof.
  revert k calls. induction m as [|m IH]; intros k calls H Hall;
    rewrite tail_of_range_cons; cbn [attempts].
  - destruct (Hall 0) as (msg & Hc); [lia|]. rewrite Nat.add_0_r in Hc.
    rewrite Hc. cbn [try_block]. rewrite (last_attempt k H). f_equal. lia.
  - destruct (Hall 0) as (msg & Hc); [lia|]. rewrite Nat.add_0_r in Hc.
    rewrite Hc. cbn [try_block]. rewrite (earlier_attempt k m H).
    rewrite (IH (S k) (S calls)).
    + f_equal. lia.
    + lia.
    + intros i Hi. destruct (Hall (S i)) as (m' & Hc'); [lia|].
      exists m'. now replace (S calls + i) with (calls + S i) by lia.
Qed.

(** A decode error that does not come from the client comes from the
    decoder, after [result_text] was bound. *)
Lemma try_block_bound (rt : option string) (c : completion) (msg : string)
    (rt' : option string) :
  (forall m, c <> Raises (JSONDecodeError m)) ->
  try_block json_loads rt c = DecodeFailed msg rt' ->
  exists text, rt' = Some text.
Proof.
  intros Hc. destruct c as [[|[content|] rest]|[m|m]]; cbn [try_block];
    try discriminate.
  - destruct (json_loads (unfence (strip content))) as [v|[m|m]];
      try discriminate.
    intros E. injection E as _ E. eauto.
  - now destruct (Hc m).
Qed.

Lemma try_block_parsed (rt : option string) (c : completion) (v : pyobj) :
  try_block json_loads rt c = Parsed v -> exists text, json_loads text = inl v.
Proof.
  destruct c as [[|[content|] rest]|[m|m]]; cbn [try_block]; try discriminate.
  destruct (json_loads (unfence (strip content))) as [w|[m|m]] eqn:E;
    try discriminate.
  intros F. injection F as ->. eauto.
Qed.

(** If the client never raises a decode error, the loop runs out or
    returns: a decoded object as it is, or a sentinel. *)
Lemma attempts_return (todo : list Z) (rt : option string) (calls : nat) :
  no_decode_error_raised create ->
  (exists c, attempts json_loads create req max_retries todo rt calls = Exhausted c)
  \/ (exists v c, attempts json_loads create req max_retries todo rt calls = Left (Returns v) c
                  /\ (sentinel v \/ exists text, json_loads text = inl v)).
Proof.
  intros Hc. revert rt calls.
  induction todo as [|attempt todo IH]; intros rt calls; cbn [attempts].
  - left. eauto.
  - destruct (try_block json_loads rt (create calls req))
      as [v|msg rt'|msg rt'] eqn:E.
    + right. exists v, (S calls). split; [reflexivity|].
      right. exact (try_block_parsed _ _ _ E).
    + destruct (attempt =? max_retries - 1)%Z; [|apply IH].
      destruct (try_block_bound _ _ _ _ (Hc calls req) E) as [text ->].
      right. exists (parse_error text msg), (S calls).
      split; [reflexivity|]. left. left. eauto.
    + destruct (attempt =? max_retries - 1)%Z; [|apply IH].
      right. exists (api_error msg), (S calls).
      split; [reflexivity|]. left. right. left. eauto.
Qed.

End Loop.

Lemma sentinel_labelled (x : pyobj) : sentinel x -> labelled x.
Proof.
  intros [(text & msg & ->)|[(msg & ->)| ->]]; unfold labelled;
    eexists; eexists; (split; [reflexivity|]); reflexivity.
Qed.

Section ClassifyReport.

Variable json_loads : string -> pyobj + py_exception.
Variable create : nat -> request -> completion.
Variable SYSTEM_PROMPT : string.
Variable self : classifier.
Variables subject description : string.

Lemma range_positive (max_retries : Z) :
  (0 < max_retries)%Z ->
  exists m, Z.to_nat max_retries = S m
            /\ range max_retries = tail_of_range 0 (S m)
            /\ Z.of_nat (0 + S m) = max_retries.
Proof.
  intros H. exists (pred (Z.to_nat max_retries)).
  assert (E : Z.to_nat max_retries = S (pred (Z.to_nat max_retries))) by lia.
  repeat split; [exact E | | lia].
  unfold range. now rewrite E at 1.
Qed.

Lemma range_not_positive (max_retries : Z) :
  (max_retries <= 0)%Z -> range max_retries = [].
Proof.
  intros H. unfold range. now replace (Z.to_nat max_retries) with 0 by lia.
Qed.


End ClassifyReport.

(** ** Claims on [classify_report] *)

(** C1, as stated, fails: the object decoded from the response is returned
    as it is.  A response [[]] makes [classify_report] return a list, and
    a response that is an object with the one member [label] a mapping without the key
    [failure_type]. *)
Lemma C1_counterexample :
  Samples.classify (Samples.answers "[]") 3 = (Returns (PyList []), 1)
  /\ ~ labelled (PyList [])
  /\ Samples.classify
      (Samples.answers (Samples.object1 "label" (Samples.quoted "Beam Generation"))) 3
     = (Returns (PyDict [("label", PyStr "Beam Generation")]), 1)
  /\ ~ labelled (PyDict [("label", PyStr "Beam Generation")]).
Proof.
  repeat split; try reflexivity.
  - intros (d & s & E & _). discriminate.
  - intros (d & s & E & G). injection E as <-. discriminate.
Qed.

(** C1, amended: whatever the client does short of raising a decode error
    itself, [classify_report] returns; what it returns is one of the three
    sentinel mappings, whose [failure_type] is a string, or the object
    that the decoder built from a response, handed on unchecked. *)
Theorem C1_classify_report_returns
    (json_loads : string -> pyobj + py_exception)
    (create : nat -> request -> completion) (SYSTEM_PROMPT : string)
    (self : classifier) (subject description : string) (max_retries : Z)
    (calls : nat) :
  no_decode_error_raised create ->
  exists result calls',
    classify_report json_loads create SYSTEM_PROMPT self subject description
      max_retries calls = (Returns result, calls')
    /\ ((sentinel result /\ labelled result)
        \/ exists text, json_loads text = inl result).
Proof.
  intros Hc. unfold classify_report.
  destruct (attempts_return json_loads create
              (build_request SYSTEM_PROMPT self subject description)
              max_retries (range max_retries) None calls Hc)
    as [[c E]|(v & c & E & Hv)]; rewrite E.
  - exists unknown_error, c. split; [reflexivity|]. left.
    assert (S : sentinel unknown_error) by (right; right; reflexivity).
    split; [exact S | exact (sentinel_labelled _ S)].
  - exists v, c. split; [reflexivity|].
    destruct Hv as [S|T]; [left | right; exact T].
    split; [exact S | exact (sentinel_labelled _ S)].
Qed.

Lemma C1_witness :
  no_decode_error_raised (Samples.answers "not json")
  /\ exists result calls',
       Samples.classify (Samples.answers "not json") 3 = (Returns result, calls')
       /\ ((sentinel result /\ labelled result)
           \/ exists text, JsonRef.loads text = inl result).
Proof.
  assert (H : no_decode_error_raised (Samples.answers "not json"))
    by (intros n req msg; discriminate).
  split; [exact H|].
  exact (C1_classify_report_returns JsonRef.loads (Samples.answers "not json")
           Samples.SYSTEM_PROMPT Samples.self Samples.subject
           Samples.description 3 0 H).
Defined.

(** C2: the claim holds for a client that raises anything but a decode
    error ([classify_report_all_raise]).  A client that raises
    [json.JSONDecodeError] at every attempt lands in the first handler,
    which at the last attempt reads [result_text] before any assignment:
    after [max_retries] calls the function does not return the API error,
    [UnboundLocalError] leaves it. *)
Theorem C2_decode_error_from_client_escapes
    (json_loads : string -> pyobj + py_exception)
    (create : nat -> request -> completion) (SYSTEM_PROMPT : string)
    (self : classifier) (subject description : string) (max_retries : Z)
    (calls : nat) :
  (0 < max_retries)%Z ->
  (forall i, i < Z.to_nat max_retries -> exists msg,
      create (calls + i) (build_request SYSTEM_PROMPT self subject description)
      = Raises (JSONDecodeError msg)) ->
  classify_report json_loads create SYSTEM_PROMPT self subject description
    max_retries calls
  = (Escapes (UnboundLocalError "result_text"), calls + Z.to_nat max_retries).
Proof.
  intros Hpos Hall.
  destruct (range_positive _ Hpos) as (m & Em & Er & Ek).
  rewrite Em in *. unfold classify_report. rewrite Er.
  now rewrite (attempts_all_decode_raise json_loads create _ max_retries m 0
                 calls Ek Hall).
Qed.

Lemma C2_witness :
  Samples.classify
    (Samples.fails (JSONDecodeError "Expecting value: line 1 column 1 (char 0)"))
    3
  = (Escapes (UnboundLocalError "result_text"), 0 + Z.to_nat 3).
Proof.
  apply (C2_decode_error_from_client_escapes JsonRef.loads
           (Samples.fails
              (JSONDecodeError "Expecting value: line 1 column 1 (char 0)"))
           Samples.SYSTEM_PROMPT Samples.self Samples.subject
           Samples.description 3 0).
  - reflexivity.
  - intros i _. eexists. reflexivity.
Defined.

(** C8, as stated, fails: the attempts also run out for a negative
    count. *)
Lemma C8_counterexample :
  (-1 <> 0)%Z
  /\ attempts JsonRef.loads (Samples.answers "[]")
       (build_request Samples.SYSTEM_PROMPT Samples.self Samples.subject
          Samples.description)
       (-1) (range (-1)) None 0 = Exhausted 0
  /\ Samples.classify (Samples.answers "[]") (-1) = (Returns unknown_error, 0).
Proof. split; [discriminate|]. split; reflexivity. Qed.

(** C8, amended: control reaches line 154 exactly when the count is zero
    or negative; the client is then not called and the result is the
    mapping with [UnknownError].  For a positive count the loop is always
    left from inside. *)
Theorem C8_unknown_error_exactly_without_attempt
    (json_loads : string -> pyobj + py_exception)
    (create : nat -> request -> completion) (SYSTEM_PROMPT : string)
    (self : classifier) (subject description : string) (max_retries : Z)
    (calls : nat) :
  ((exists c,
       attempts json_loads create
         (build_request SYSTEM_PROMPT self subject description)
         max_retries (range max_retries) None calls = Exhausted c)
   <-> (max_retries <= 0)%Z)
  /\ ((max_retries <= 0)%Z ->
      classify_report json_loads create SYSTEM_PROMPT self subject description
        max_retries calls = (Returns unknown_error, calls)).
Proof.
  split; [split|].
  - intros [c E]. destruct (Z_lt_le_dec 0 max_retries) as [Hpos|Hle]; [|exact Hle].
    exfalso. destruct (range_positive _ Hpos) as (m & _ & Er & Ek).
    rewrite Er in E.
    exact (attempts_not_exhausted json_loads create _ max_retries m 0 None
             calls c Ek E).
  - intros Hle. exists calls. now rewrite (range_not_positive _ Hle).
  - intros Hle. unfold classify_report. now rewrite (range_not_positive _ Hle).
Qed.

(** C3, as stated, fails for a fence with a language tag other than
    [json]: the second branch cuts at the bare fence, so the tag stays in
    front of the content.  The content of the block below is a valid
    document, yet what is decoded is the tag followed by it, and
    [classify_report] ends with a parse error. *)
Lemma C3_counterexample :
  strip (fenced_block "python" Samples.cooling) = fenced_block "python" Samples.cooling
  /\ unfence (fenced_block "python" Samples.cooling)
     = "python" ++ nl ++ Samples.cooling
  /\ unfence (fenced_block "python" Samples.cooling) <> strip Samples.cooling
  /\ JsonRef.loads (strip Samples.cooling)
     = inl (PyDict [("failure_type", PyStr "Cooling System")])
  /\ Samples.classify (Samples.answers (fenced_block "python" Samples.cooling)) 3
     = (Returns (parse_error ("python" ++ nl ++ Samples.cooling)
                   "Expecting value: line 1 column 1 (char 0)"), 3).
Proof.
  split; [reflexivity|]. split; [reflexivity|]. split; [discriminate|].
  split; reflexivity.
Qed.

(** C3, amended.  What the [try] block decodes from a response whose
    stripped text holds
    - a block opened by the fence tagged [json] and closed by a fence,
      with no back quote before or inside it and no second tagged fence:
      the stripped content of the block, and nothing else;
    - a block between bare fences, in a text without the tagged fence:
      the stripped content of the block;
    - no fence: the whole stripped text.
    And for a positive count, when every attempt gets a response that the
    decoder refuses, the client is called that many times and the result
    is the mapping with [ParseError], the text last handed to the decoder
    and the message of its refusal. *)
Theorem C3_fenced_content_then_parse_error
    (json_loads : string -> pyobj + py_exception)
    (create : nat -> request -> completion) (SYSTEM_PROMPT : string)
    (self : classifier) (subject description : string) :
  (forall rt content rest pre body post,
      strip content = pre ++ fence_json ++ body ++ fence ++ post ->
      free_of tick pre = true -> free_of tick body = true ->
      contains fence_json (body ++ fence ++ post) = false ->
      try_block json_loads rt (Response (Some content :: rest))
      = decode json_loads (strip body))
  /\ (forall rt content rest pre body post,
         strip content = pre ++ fence ++ body ++ fence ++ post ->
         free_of tick pre = true -> free_of tick body = true ->
         contains fence_json (strip content) = false ->
         try_block json_loads rt (Response (Some content :: rest))
         = decode json_loads (strip body))
  /\ (forall rt content rest,
         contains fence (strip content) = false ->
         try_block json_loads rt (Response (Some content :: rest))
         = decode json_loads (strip content))
  /\ (forall max_retries calls,
         (0 < max_retries)%Z ->
         (forall i, i < Z.to_nat max_retries -> exists content rest msg,
             create (calls + i)
                    (build_request SYSTEM_PROMPT self subject description)
             = Response (Some content :: rest)
             /\ json_loads (unfence (strip content))
                = inr (JSONDecodeError msg)) ->
         exists content rest msg,
           create (calls + Z.to_nat max_retries - 1)
                  (build_request SYSTEM_PROMPT self subject description)
           = Response (Some content :: rest)
           /\ json_loads (unfence (strip content)) = inr (JSONDecodeError msg)
           /\ classify_report json_loads create SYSTEM_PROMPT self
                subject description max_retries calls
              = (Returns (parse_error (unfence (strip content)) msg),
                 calls + Z.to_nat max_retries)).
Proof.
  repeat apply conj.
  - intros rt content rest pre body post E Hpre Hbody Hpost.
    cbn [try_block]. rewrite E, (unfence_json _ _ _ Hpre Hbody Hpost).
    reflexivity.
  - intros rt content rest pre body post E Hpre Hbody Hjson.
    cbn [try_block]. rewrite E in *.
    rewrite (unfence_bare _ _ _ Hpre Hbody Hjson). reflexivity.
  - intros rt content rest H. cbn [try_block].
    rewrite (unfence_plain _ H). reflexivity.
  - intros max_retries calls Hpos Hall.
    destruct (range_positive _ Hpos) as (m & Em & Er & Ek).
    rewrite Em in *.
    destruct (attempts_all_refused json_loads create _ max_retries m 0 None
                calls Ek Hall) as (content & rest & msg & Hc & Hj & Hl).
    exists content, rest, msg.
    replace (calls + S m - 1) with (calls + m) by lia.
    repeat split; try assumption.
    unfold classify_report. now rewrite Er, Hl.
Qed.

Lemma C3_witness :
  try_block JsonRef.loads None
    (Response [Some ("Here it is: " ++ fence_json ++ nl ++ Samples.cooling
                       ++ nl ++ fence ++ nl)])
  = Parsed (PyDict [("failure_type", PyStr "Cooling System")])
  /\ exists content rest msg,
       Samples.answers "not json" (0 + Z.to_nat 3 - 1)
         (build_request Samples.SYSTEM_PROMPT Samples.self Samples.subject
            Samples.description)
       = Response (Some content :: rest)
       /\ JsonRef.loads (unfence (strip content)) = inr (JSONDecodeError msg)
       /\ Samples.classify (Samples.answers "not json") 3
          = (Returns (parse_error (unfence (strip content)) msg),
             0 + Z.to_nat 3).
Proof.
  destruct (C3_fenced_content_then_parse_error JsonRef.loads
              (Samples.answers "not json") Samples.SYSTEM_PROMPT Samples.self
              Samples.subject Samples.description) as (A & _ & _ & D).
  split.
  - rewrite (A None _ [] "Here it is: " (nl ++ Samples.cooling ++ nl) EmptyString);
      reflexivity.
  - apply (D 3%Z 0).
    + reflexivity.
    + intros i _. exists "not json", [], "Expecting value: line 1 column 1 (char 0)".
      split; reflexivity.
Defined.

(** ** Regular expressions *)

Lemma orelse_some {A : Type} (x y : option A) (v : A) :
  orelse x y = Some v -> x = Some v \/ y = Some v.
Proof. destruct x; cbn [orelse]; auto. Qed.

Lemma rep_calls_next (dotall : bool) (k : cclass) (greedy : bool)
    (next : cont) (s : string) :
  forall lo hi pos cs res,
    rep dotall k greedy lo hi next pos s cs = Some res ->
    exists pos' s', next pos' s' cs = Some res.
Proof.
  assert (Stop : forall lo pos t cs res,
             (if (lo =? 0)%nat then next pos t cs else None) = Some res ->
             exists pos' s', next pos' s' cs = Some res).
  { intros lo pos t cs res. destruct (lo =? 0)%nat; [eauto | discriminate]. }
  induction s as [|c s IH]; intros lo hi pos cs res; cbn [rep].
  - destruct greedy; intros E; apply orelse_some in E as [E|E];
      try discriminate; exact (Stop _ _ _ _ _ E).
  - assert (More : (if may_take hi && class_matches dotall k c
                    then rep dotall k greedy (pred lo) (dec hi) next (S pos) s cs
                    else None) = Some res ->
                   exists pos' s', next pos' s' cs = Some res).
    { destruct (may_take hi && class_matches dotall k c);
        [apply IH | discriminate]. }
    destruct greedy; intros E; apply orelse_some in E as [E|E];
      first [exact (Stop _ _ _ _ _ E) | exact (More E)].
Qed.

Lemma span_of_cons (n i : nat) (sp : nat * nat) (cs : captures) :
  span_of n cs <> None -> span_of n ((i, sp) :: cs) <> None.
Proof. intros H. cbn [span_of]. now destruct (i =? n)%nat. Qed.

(** A successful run ends in a success of what follows the pattern, with
    the groups it had, and with every group that lies on all paths. *)
Lemma run_ends_in_next (dotall : bool) (r : regex) :
  forall next pos s cs res,
    run dotall r next pos s cs = Some res ->
    exists pos' s' cs',
      next pos' s' cs' = Some res
      /\ (forall n, span_of n cs <> None -> span_of n cs' <> None)
      /\ (forall n, always_sets n r = true -> span_of n cs' <> None).
Proof.
  induction r as [l|k|k lo hi g|r1 IH1 r2 IH2|r1 IH1 r2 IH2|i r1 IH1];
    intros next pos s cs res; cbn [run always_sets].
  - destruct (match_lit l s) as [rest|]; [|discriminate].
    intros E. exists (pos + length l), rest, cs.
    repeat split; [exact E | auto | discriminate].
  - destruct s as [|c s]; [discriminate|].
    destruct (class_matches dotall k c); [|discriminate].
    intros E. exists (S pos), s, cs. repeat split; [exact E | auto | discriminate].
  - intros E. destruct (rep_calls_next _ _ _ _ _ _ _ _ _ _ E) as (p & t & F).
    exists p, t, cs. repeat split; [exact F | auto | discriminate].
  - intros E. destruct (IH1 _ _ _ _ _ E) as (p1 & s1 & cs1 & E1 & K1 & A1).
    destruct (IH2 _ _ _ _ _ E1) as (p2 & s2 & cs2 & E2 & K2 & A2).
    exists p2, s2, cs2. repeat split; [exact E2 | auto |].
    intros n H. apply orb_true_iff in H as [H|H]; auto.
  - unfold orelse. destruct (run dotall r1 next pos s cs) eqn:E.
    + intros F. rewrite <- F.
      destruct (IH1 _ _ _ _ _ E) as (p1 & s1 & cs1 & E1 & K1 & A1).
      exists p1, s1, cs1. repeat split; [exact E1 | auto |].
      intros n H. apply andb_true_iff in H as [H _]. auto.
    + intros F.
      destruct (IH2 _ _ _ _ _ F) as (p2 & s2 & cs2 & E2 & K2 & A2).
      exists p2, s2, cs2. repeat split; [exact E2 | auto |].
      intros n H. apply andb_true_iff in H as [_ H]. auto.
  - intros E. destruct (IH1 _ _ _ _ _ E) as (p1 & s1 & cs1 & E1 & K1 & A1).
    exists p1, s1, ((i, (pos, p1)) :: cs1). repeat split; [exact E1 | |].
    + intros n H. apply span_of_cons. auto.
    + intros n H. apply orb_true_iff in H as [H|H].
      * apply Nat.eqb_eq in H. subst i. cbn [span_of].
        rewrite Nat.eqb_refl. discriminate.
      * apply span_of_cons. auto.
Qed.

Lemma search_from_bound (dotall : bool) (r : regex) (text : string) (n : nat) :
  always_sets n r = true ->
  forall s pos m, search_from dotall r text pos s = Some m ->
                  span_of n (m_groups m) <> None.
Proof.
  intros Hr. induction s as [|c s IH]; intros pos m; cbn [search_from];
    destruct (run dotall r accept pos _ []) as [[e cs]|] eqn:E;
    try discriminate; try apply IH.
  all: intros F; injection F as <-; cbn [m_groups];
    destruct (run_ends_in_next _ _ _ _ _ _ _ E) as (p & t & cs' & A & _ & B);
    unfold accept in A; injection A as _ <-; auto.
Qed.

(** A group that lies on every path of the pattern took part in every
    match that [search] returns, so [group] does not fall back on its
    default. *)
Lemma group_bound (r : regex) (text : string) (dotall : bool) (n : nat)
    (m : Match) :
  always_sets n r = true -> search r text dotall = Some m ->
  exists a b, span_of n (m_groups m) = Some (a, b).
Proof.
  intros Hr E. pose proof (search_from_bound dotall r text n Hr _ _ _ E) as H.
  destruct (span_of n (m_groups m)) as [[a b]|]; [eauto | congruence].
Qed.

Lemma findall_from_bound (r : regex) (text : string) (n : nat) (m : Match) :
  always_sets n r = true ->
  forall s pos skip, In m (findall_from false r text pos skip s) ->
                     span_of n (m_groups m) <> None.
Proof.
  intros Hr s. induction s as [|c s IH]; intros pos skip;
    destruct skip as [|skip]; cbn [findall_from];
    try (destruct (run false r accept pos _ []) as [[e cs]|] eqn:E);
    cbn [In]; try tauto.
  all: try (intros [<-|H]; [|tauto || exact (IH _ _ H)]).
  all: try (cbn [m_groups];
            destruct (run_ends_in_next _ _ _ _ _ _ _ E)
              as (p & t & cs' & A & _ & B);
            unfold accept in A; injection A as _ <-; auto).
  all: apply IH.
Qed.

Lemma findall_bound (r : regex) (text : string) (n : nat) (m : Match) :
  always_sets n r = true -> In m (findall r text) ->
  exists a b, span_of n (m_groups m) = Some (a, b).
Proof.
  intros Hr H. pose proof (findall_from_bound r text n m Hr _ _ _ H) as K.
  destruct (span_of n (m_groups m)) as [[a b]|]; [eauto | congruence].
Qed.

(** Every group that the scripts read lies on every path of its
    pattern. *)
Lemma scripts_groups_bound :
  forallb (fun rn => forallb (fun n => always_sets n (fst rn)) (snd rn))
          group_uses = true.
Proof. reflexivity. Qed.

(** ** Dictionaries *)

Lemma dict_get_set_same (k : string) (v : pyobj) (d : list (string * pyobj)) :
  dict_get k (dict_set k v d) = Some v.
Proof.
  induction d as [|[k' w] d IH]; cbn [dict_set dict_get].
  - now rewrite String.eqb_refl.
  - destruct (k' =? k)%string eqn:E; cbn [dict_get]; now rewrite E.
Qed.

Lemma dict_get_set_other (key k : string) (v : pyobj)
    (d : list (string * pyobj)) :
  k <> key -> dict_get key (dict_set k v d) = dict_get key d.
Proof.
  intros H. apply String.eqb_neq in H.
  induction d as [|[k' w] d IH]; cbn [dict_set dict_get].
  - now rewrite H.
  - destruct (k' =? k)%string eqn:E; cbn [dict_get].
    + apply String.eqb_eq in E. subst k'. now rewrite H.
    + now rewrite IH.
Qed.

Lemma keys_dict_set_new (k : string) (v : pyobj) (d : list (string * pyobj)) :
  ~ In k (keys d) -> dict_set k v d = (d ++ [(k, v)])%list.
Proof.
  induction d as [|[k' w] d IH]; cbn [dict_set keys map fst app In]; intros H.
  - reflexivity.
  - destruct (k' =? k)%string eqn:E.
    + apply String.eqb_eq in E. tauto.
    + f_equal. apply IH. unfold keys. tauto.
Qed.

Lemma dict_get_in (key : string) (v : pyobj) (d : list (string * pyobj)) :
  NoDup (keys d) -> In (key, v) d -> dict_get key d = Some v.
Proof.
  induction d as [|[k w] d IH]; cbn [keys map fst In dict_get]; intros N H.
  - destruct H.
  - inversion N as [|? ? Hk Nd]; subst.
    destruct H as [H|H].
    + injection H as -> ->. now rewrite String.eqb_refl.
    + destruct (k =? key)%string eqn:E; [|exact (IH Nd H)].
      apply String.eqb_eq in E. subst k. exfalso. apply Hk.
      unfold keys. change key with (fst (key, v)). now apply in_map.
Qed.

Lemma dict_get_none (key : string) (d : list (string * pyobj)) :
  ~ In key (keys d) -> dict_get key d = None.
Proof.
  induction d as [|[k w] d IH]; cbn [keys map fst In dict_get]; intros H.
  - reflexivity.
  - destruct (k =? key)%string eqn:E.
    + apply String.eqb_eq in E. tauto.
    + apply IH. unfold keys. tauto.
Qed.

(** ** The first extractor *)

Lemma type1_keys (text : string) :
  keys (report_type1_processing.extract_from_text text) = firstn 13 column_set.
Proof. reflexivity. Qed.

Lemma type1_pattern_field (text key : string) (pattern : regex) :
  In (key, pattern) report_type1_processing.patterns ->
  dict_get key (report_type1_processing.extract_from_text text)
  = Some (report_type1_processing.value_of key (search pattern text false)).
Proof.
  intros H. unfold report_type1_processing.extract_from_text.
  assert (Hk : "report_source" <> key).
  { intros <-. revert H. unfold report_type1_processing.patterns.
    cbn [In]. intuition discriminate. }
  rewrite (dict_get_set_other _ _ _ _ Hk).
  apply dict_get_in.
  - unfold keys. rewrite map_map. cbn [fst].
    unfold report_type1_processing.patterns. cbn [map fst].
    repeat (constructor; [cbn [In]; intuition discriminate|]). constructor.
  - apply (in_map (fun kp => (fst kp, report_type1_processing.value_of (fst kp)
                                        (search (snd kp) text false)))) in H.
    exact H.
Qed.

(** ** Searching for a label *)

Lemma match_lit_none (lit s : string) :
  prefix lit s = false -> match_lit lit s = None.
Proof.
  revert s. induction lit as [|a lit IH]; intros s.
  - now destruct s.
  - destruct s as [|b s]; cbn [match_lit]; [reflexivity|]. simpl.
    destruct (ascii_dec a b) as [->|N].
    + rewrite Ascii.eqb_refl. apply IH.
    + intros _. now apply Ascii.eqb_neq in N as ->.
Qed.

Lemma match_lit_append (lit s : string) : match_lit lit (lit ++ s) = Some s.
Proof.
  induction lit as [|a lit IH]; cbn [append match_lit].
  - now destruct s.
  - now rewrite Ascii.eqb_refl.
Qed.

(** A prefix of [u ++ y] no longer than [u] is a prefix of [u]. *)
Lemma prefix_cut (lit u y : string) :
  length lit <= length u -> prefix lit (u ++ y) = true -> prefix lit u = true.
Proof.
  revert u. induction lit as [|a lit IH]; intros u.
  - now destruct u.
  - destruct u as [|b u]; cbn [length append]; [lia|]. simpl.
    intros L. destruct (ascii_dec a b); [apply IH; lia | discriminate].
Qed.

Lemma contains_cons (sep : string) (a : ascii) (s : string) :
  contains sep (String a s) = false ->
  prefix sep (String a s) = false /\ contains sep s = false.
Proof.
  cbn [contains]. destruct (prefix sep (String a s)); [discriminate | auto].
Qed.

(** A pattern that opens with a label is not matched before the first
    occurrence of the label: the search resumes where the label can
    start. *)
Lemma search_from_skip (dotall : bool) (lit : string) (r : regex)
    (text x y : string) :
  length lit <= S (length x) ->
  forall pre pos,
    contains lit (pre ++ x) = false ->
    search_from dotall (Seq (Lit lit) r) text pos (pre ++ x ++ y)
    = search_from dotall (Seq (Lit lit) r) text (pos + length pre) (x ++ y).
Proof.
  intros L. induction pre as [|a pre IH]; intros pos H.
  - cbn [append length]. now rewrite Nat.add_0_r.
  - change (String a pre ++ x ++ y) with (String a (pre ++ x ++ y)).
    change (String a pre ++ x) with (String a (pre ++ x)) in H.
    apply contains_cons in H as [Hp Hc].
    cbn [search_from run].
    rewrite match_lit_none.
    + rewrite (IH (S pos) Hc). cbn [length]. f_equal. lia.
    + destruct (prefix lit (String a (pre ++ x ++ y))) eqn:E; [|reflexivity].
      rewrite <- Hp. symmetry.
      apply (prefix_cut lit (String a (pre ++ x)) y).
      * cbn [length]. rewrite length_append. lia.
      * cbn [append]. now rewrite append_assoc.
Qed.

Lemma substring_skip (pre s : string) (k n : nat) :
  substring (length pre + k) n (pre ++ s) = substring k n s.
Proof. induction pre as [|a pre IH]; [reflexivity | exact IH]. Qed.

Lemma substring_0_0 (s : string) : substring 0 0 s = EmptyString.
Proof. now destruct s. Qed.
(** ** The records of the second and of the third layout *)

(** The records of the second and third extractor, field by field. *)
Lemma type2_field (text filename key : string) (pattern : regex)
    (dotall : bool) :
  In (key, (pattern, dotall)) fields2 ->
  search pattern text dotall = None ->
  dict_get key (report_type2_processing.extract_from_text text filename)
  = Some (PyStr EmptyString).
Proof.
  unfold fields2. cbn [In]. intros H E.
  unfold report_type2_processing.extract_from_text,
    report_type2_processing.find.
  repeat (destruct H as [H|H];
          [injection H as <- <- <-; rewrite E;
           destruct (search report_type2_processing.p_hours_block text false);
           reflexivity|]).
  destruct H.
Qed.

Lemma type3_field (text filename key : string) (pattern : regex)
    (dotall : bool) :
  In (key, (pattern, dotall)) fields3 ->
  search pattern text dotall = None ->
  dict_get key (report_type3_processing.extract_from_text text filename)
  = Some (PyStr EmptyString).
Proof.
  unfold fields3. cbn [In]. intros H E.
  unfold report_type3_processing.extract_from_text,
    report_type3_processing.find.
  repeat (destruct H as [H|H];
          [injection H as <- <- <-; rewrite E;
           destruct (search report_type3_processing.p_hours text false);
           destruct (search report_type3_processing.p_times text false);
           reflexivity|]).
  destruct H.
Qed.

Lemma type2_all_str (text filename : string) :
  all_str (report_type2_processing.extract_from_text text filename) = true.
Proof.
  unfold report_type2_processing.extract_from_text.
  destruct (search report_type2_processing.p_hours_block text false);
    reflexivity.
Qed.

Lemma type3_all_str (text filename : string) :
  all_str (report_type3_processing.extract_from_text text filename) = true.
Proof.
  unfold report_type3_processing.extract_from_text.
  destruct (search report_type3_processing.p_hours text false);
    destruct (search report_type3_processing.p_times text false);
    reflexivity.
Qed.

Lemma type3_work_order_field (text filename : string) :
  dict_get "work_order_id"
    (report_type3_processing.extract_from_text text filename)
  = Some (PyStr (report_type3_processing.find text
                   report_type3_processing.p_work_order_id false EmptyString)).
Proof.
  unfold report_type3_processing.extract_from_text.
  destruct (search report_type3_processing.p_hours text false);
    destruct (search report_type3_processing.p_times text false);
    reflexivity.
Qed.

(** ** Claims on the field extractors *)

(** C5, as stated, fails: in the first extractor the fields outside the
    identifiers and metadata default to [None] as well.  On a report
    without hours, [site_hours] is [None]. *)
Lemma C5_counterexample :
  is_id_metadata "site_hours" = false
  /\ In "site_hours" column_set
  /\ dict_get "site_hours"
       (report_type1_processing.extract_from_text Samples.text1)
     = Some PyNone.
Proof.
  split; [reflexivity|]. split; [|reflexivity].
  unfold column_set. cbn [In]. tauto.
Qed.

(** C5, amended: in the first extractor every field that comes from a
    pattern, all twelve of them, is [None] when its pattern does not
    match.  In the second and the third extractor no field is ever [None],
    and a field whose search fails is the empty string; so are [time_in]
    and [time_out] of the second extractor when the text has no row of the
    time table. *)
Theorem C5_absent_fields_default :
  (forall text key pattern,
      In (key, pattern) report_type1_processing.patterns ->
      search pattern text false = None ->
      dict_get key (report_type1_processing.extract_from_text text)
      = Some PyNone)
  /\ (forall text filename,
         all_str (report_type2_processing.extract_from_text text filename)
         = true
         /\ all_str (report_type3_processing.extract_from_text text filename)
            = true)
  /\ (forall text filename key pattern dotall,
         In (key, (pattern, dotall)) fields2 ->
         search pattern text dotall = None ->
         dict_get key (report_type2_processing.extract_from_text text filename)
         = Some (PyStr EmptyString))
  /\ (forall text filename,
         findall report_type2_processing.time_entry text = [] ->
         times_of (report_type2_processing.extract_from_text text filename)
         = (Some (PyStr EmptyString), Some (PyStr EmptyString)))
  /\ (forall text filename key pattern dotall,
         In (key, (pattern, dotall)) fields3 ->
         search pattern text dotall = None ->
         dict_get key (report_type3_processing.extract_from_text text filename)
         = Some (PyStr EmptyString)).
Proof.
  repeat apply conj.
  - intros text key pattern H E.
    rewrite (type1_pattern_field _ _ _ H), E. reflexivity.
  - intros text filename. split; [apply type2_all_str | apply type3_all_str].
  - intros. eapply type2_field; eassumption.
  - intros text filename E.
    unfold report_type2_processing.extract_from_text. rewrite E.
    destruct (search report_type2_processing.p_hours_block text false);
      reflexivity.
  - intros. eapply type3_field; eassumption.
Qed.

Lemma C5_witness :
  dict_get "total_work_hours"
    (report_type1_processing.extract_from_text Samples.text1) = Some PyNone
  /\ dict_get "total_work_hours"
       (report_type2_processing.extract_from_text Samples.text1 "report")
     = Some (PyStr EmptyString).
Proof.
  destruct C5_absent_fields_default as (A & _ & B & _).
  split.
  - apply (A Samples.text1 "total_work_hours"
             (cat [Lit "Total Work Hours"; star ws;
                   Group 1 report_type1_processing.hours])).
    + unfold report_type1_processing.patterns. cbn [In]. tauto.
    + reflexivity.
  - apply (B Samples.text1 "report" "total_work_hours"
             report_type2_processing.p_hours_block false).
    + unfold fields2. cbn [In]. tauto.
    + reflexivity.
Defined.


(** ** Where [time_in] and [time_out] come from *)

Lemma rev_last {A : Type} (l : list A) (x d : A) :
  exists t, rev (x :: l) = last (x :: l) d :: t.
Proof.
  revert x. induction l as [|y l IH]; intros x.
  - exists []. reflexivity.
  - destruct (IH y) as [t E].
    exists (t ++ [x])%list.
    change (rev (x :: y :: l)) with (rev (y :: l) ++ [x])%list.
    rewrite E. reflexivity.
Qed.

Lemma last_map {A B : Type} (f : A -> B) (l : list A) (d : A) :
  last (map f l) (f d) = f (last l d).
Proof.
  induction l as [|a l IH]; [reflexivity|].
  cbn [map last]. destruct l as [|b l]; [reflexivity | exact IH].
Qed.

(** The second extractor follows the rule of the table: the start of the
    first row and the end of the last row. *)
Lemma type2_times (text filename : string) :
  times_of (report_type2_processing.extract_from_text text filename)
  = (Some (PyStr (fst (table_rule (rows2 text)))),
     Some (PyStr (snd (table_rule (rows2 text))))).
Proof.
  unfold report_type2_processing.extract_from_text, rows2.
  set (f := fun m : Match =>
              (group m 1 ++ " " ++ group m 2, group m 1 ++ " " ++ group m 3)).
  destruct (search report_type2_processing.p_hours_block text false) as [h|];
    destruct (findall report_type2_processing.time_entry text) as [|m l];
    try reflexivity.
  all: destruct (rev_last l m m) as [t ->]; unfold times_of;
    cbn [dict_get String.eqb Ascii.eqb Bool.eqb];
    change (table_rule (map f (m :: l)))
      with (fst (f m), snd (last (map f (m :: l)) (f m)));
    rewrite (last_map f (m :: l) m); reflexivity.
Qed.

(** The third extractor reads the one match of the header and the four
    time stamps that follow it: the first and the second stamp. *)
Lemma type3_times (text filename : string) :
  times_of (report_type3_processing.extract_from_text text filename)
  = match search report_type3_processing.p_times text false with
    | Some m => (Some (PyStr (group m 1)), Some (PyStr (group m 2)))
    | None => (Some (PyStr EmptyString), Some (PyStr EmptyString))
    end.
Proof.
  unfold report_type3_processing.extract_from_text.
  destruct (search report_type3_processing.p_hours text false);
    destruct (search report_type3_processing.p_times text false);
    reflexivity.
Qed.

(** The first extractor reads two labelled fields. *)
Lemma type1_times (text : string) :
  times_of (report_type1_processing.extract_from_text text)
  = (Some (report_type1_processing.value_of "time_in"
             (search report_type1_processing.p_time_in text false)),
     Some (report_type1_processing.value_of "time_out"
             (search report_type1_processing.p_time_out text false))).
Proof.
  unfold times_of.
  rewrite (type1_pattern_field _ "time_in" report_type1_processing.p_time_in),
    (type1_pattern_field _ "time_out" report_type1_processing.p_time_out);
    [reflexivity | |];
    unfold report_type1_processing.patterns; cbn [In]; tauto.
Qed.

(** C4, as stated, fails: the third extractor does not take the end of
    the last row.  On a table of two rows its [time_out] is the time out
    of the first row. *)
Lemma C4_counterexample :
  rows3 Samples.text3
  = [("01/02/2024 08:00", "01/02/2024 09:00");
     ("01/03/2024 08:00", "01/03/2024 11:00")]
  /\ table_rule (rows3 Samples.text3) = ("01/02/2024 08:00", "01/03/2024 11:00")
  /\ times_of (report_type3_processing.extract_from_text Samples.text3 "report")
     = (Some (PyStr "01/02/2024 08:00"), Some (PyStr "01/02/2024 09:00")).
Proof. split; [|split]; reflexivity. Qed.

(** C4, amended: two of the three extractors, the second and the third,
    read [time_in] and [time_out] from a table and not from a labelled
    field each.  The second takes the start of the first row and the end
    of the last row of all the rows (date, start, end) found in the text.
    The third takes the first and the second time stamp of the one row
    matched after the header of its table.  The first reads the fields
    labelled [Time In] and [Time Out]. *)
Theorem C4_time_in_time_out :
  (forall text filename,
      times_of (report_type2_processing.extract_from_text text filename)
      = (Some (PyStr (fst (table_rule (rows2 text)))),
         Some (PyStr (snd (table_rule (rows2 text))))))
  /\ (forall text filename,
         times_of (report_type3_processing.extract_from_text text filename)
         = match search report_type3_processing.p_times text false with
           | Some m => (Some (PyStr (group m 1)), Some (PyStr (group m 2)))
           | None => (Some (PyStr EmptyString), Some (PyStr EmptyString))
           end)
  /\ (forall text,
         times_of (report_type1_processing.extract_from_text text)
         = (Some (report_type1_processing.value_of "time_in"
                    (search report_type1_processing.p_time_in text false)),
            Some (report_type1_processing.value_of "time_out"
                    (search report_type1_processing.p_time_out text false)))).
Proof.
  split; [exact type2_times | split; [exact type3_times | exact type1_times]].
Qed.

Lemma C4_witness :
  times_of (report_type2_processing.extract_from_text Samples.text2 "report")
  = (Some (PyStr "1/2/2024 9:00 AM"), Some (PyStr "1/3/2024 2:30 PM"))
  /\ rows2 Samples.text2
     = [("1/2/2024 9:00 AM", "1/2/2024 10:15 AM");
        ("1/3/2024 1:00 PM", "1/3/2024 2:30 PM")].
Proof.
  destruct C4_time_in_time_out as (A & _ & _).
  split; [rewrite A|]; reflexivity.
Defined.

(** ** Tables built from records *)

Lemma existsb_eqb_in (k : string) (seen : list string) :
  existsb (String.eqb k) seen = true <-> In k seen.
Proof.
  rewrite existsb_exists. split.
  - intros (x & Hx & E). apply String.eqb_eq in E. now subst.
  - intros H. exists k. split; [exact H | apply String.eqb_refl].
Qed.

Lemma union_keys_known (seen ks : list string) :
  (forall k, In k ks -> In k seen) -> union_keys seen ks = seen.
Proof.
  induction ks as [|k ks IH]; intros H; cbn [union_keys]; [reflexivity|].
  assert (E : existsb (String.eqb k) seen = true)
    by (apply existsb_eqb_in, H; now left).
  rewrite E. apply IH. intros k' Hk'. apply H. now right.
Qed.

Lemma union_keys_new (seen ks : list string) :
  NoDup ks -> (forall k, In k ks -> ~ In k seen) ->
  union_keys seen ks = (seen ++ ks)%list.
Proof.
  revert seen. induction ks as [|k ks IH]; intros seen N H; cbn [union_keys].
  - now rewrite app_nil_r.
  - inversion N as [|? ? Hk Nk]; subst.
    destruct (existsb (String.eqb k) seen) eqn:E.
    + apply existsb_eqb_in in E. exfalso. apply (H k); [now left | exact E].
    + rewrite IH; [now rewrite <- app_assoc | exact Nk |].
      intros k' Hk' Hin. apply in_app_or in Hin as [Hin|[<-|[]]].
      * apply (H k'); [now right | exact Hin].
      * exact (Hk Hk').
Qed.

Lemma fold_union_known (names : list string)
    (records : list (list (string * pyobj))) :
  (forall r, In r records -> keys r = names) ->
  fold_left (fun seen r => union_keys seen (keys r)) records names = names.
Proof.
  induction records as [|r records IH]; intros H; cbn [fold_left];
    [reflexivity|].
  rewrite (H r) by now left.
  rewrite union_keys_known by auto. apply IH. intros r' Hr'. apply H. now right.
Qed.

(** The columns of a table built from records that share their keys are
    those keys. *)
Lemma from_records_labels (names : list string)
    (records : list (list (string * pyobj))) :
  NoDup names -> (forall r, In r records -> keys r = names) ->
  records <> [] -> labels (from_records records) = names.
Proof.
  intros N H Hne. unfold labels, from_records. cbn [columns].
  rewrite map_map. cbn [fst]. rewrite map_id.
  destruct records as [|r records]; [congruence|]. cbn [fold_left].
  rewrite (H r) by now left.
  rewrite (union_keys_new [] names N) by (intros k _ []).
  cbn [app]. apply fold_union_known. intros r' Hr'. apply H. now right.
Qed.

Lemma record_rebuilt (r : list (string * pyobj)) :
  NoDup (keys r) ->
  map (fun n => (n, match dict_get n r with Some v => v | None => NaN end))
      (keys r) = r.
Proof.
  induction r as [|[k v] r IH]; cbn [keys map fst dict_get]; intros N;
    [reflexivity|].
  inversion N as [|? ? Hk Nr]; subst.
  rewrite String.eqb_refl. f_equal.
  rewrite <- (IH Nr) at 2. apply map_ext_in. intros n Hn.
  destruct (k =? n)%string eqn:E; [|reflexivity].
  apply String.eqb_eq in E. subst. contradiction.
Qed.

(** Row [i] of the table is record [i] of the list. *)
Lemma from_records_row (names : list string)
    (records : list (list (string * pyobj))) (i : nat) :
  NoDup names -> (forall r, In r records -> keys r = names) ->
  i < List.length records ->
  row (from_records records) i = nth i records [].
Proof.
  intros N H Hi.
  assert (Hne : records <> []) by (destruct records; cbn in Hi; [lia | discriminate]).
  pose proof (from_records_labels names records N H Hne) as L.
  unfold labels, from_records in L. cbn [columns] in L.
  rewrite map_map in L. cbn [fst] in L. rewrite map_id in L.
  unfold row, from_records. cbn [columns]. rewrite L, map_map. cbn [fst snd].
  assert (Hr : keys (nth i records []) = names) by (apply H, nth_In, Hi).
  rewrite <- (record_rebuilt (nth i records [])) by (now rewrite Hr).
  rewrite Hr. apply map_ext. intros n. f_equal.
  exact (map_nth (fun r => match dict_get n r with
                           | Some v => v
                           | None => NaN
                           end) records [] i).
Qed.

Lemma from_records_nrows (records : list (list (string * pyobj))) :
  nrows (from_records records) = List.length records.
Proof. reflexivity. Qed.

Lemma column_set_nodup : NoDup column_set.
Proof.
  unfold column_set.
  repeat (constructor; [cbn [In]; intuition discriminate|]). constructor.
Qed.

(** ** The batch runners of the extractors *)

Lemma type1_record_keys (pages : string -> list (option string))
    (pdf_file : string) :
  keys (dict_set "file_name" (PyStr (OsPath.basename pdf_file))
          (report_type1_processing.extract_data_from_pdf pages pdf_file))
  = column_set.
Proof. reflexivity. Qed.

Lemma type2_record_keys (text filename : string) :
  keys (report_type2_processing.extract_from_text text filename) = column_set.
Proof.
  unfold report_type2_processing.extract_from_text.
  destruct (search report_type2_processing.p_hours_block text false);
    reflexivity.
Qed.

Lemma type3_record_keys (text filename : string) :
  keys (report_type3_processing.extract_from_text text filename) = column_set.
Proof.
  unfold report_type3_processing.extract_from_text.
  destruct (search report_type3_processing.p_hours text false);
    destruct (search report_type3_processing.p_times text false);
    reflexivity.
Qed.

Lemma type2_record_stamps (text filename : string) :
  dict_get "report_source"
    (report_type2_processing.extract_from_text text filename)
  = Some (PyStr "varian")
  /\ dict_get "file_name"
       (report_type2_processing.extract_from_text text filename)
     = Some (PyStr filename).
Proof.
  unfold report_type2_processing.extract_from_text.
  destruct (search report_type2_processing.p_hours_block text false);
    split; reflexivity.
Qed.

Lemma type3_record_stamps (text filename : string) :
  dict_get "report_source"
    (report_type3_processing.extract_from_text text filename)
  = Some (PyStr "varian")
  /\ dict_get "file_name"
       (report_type3_processing.extract_from_text text filename)
     = Some (PyStr filename).
Proof.
  unfold report_type3_processing.extract_from_text.
  destruct (search report_type3_processing.p_hours text false);
    destruct (search report_type3_processing.p_times text false);
    split; reflexivity.
Qed.

(** Row [i] of a table built by mapping [f] over the documents is [f] of
    document [i]. *)
Lemma mapped_rows (f : string -> list (string * pyobj)) (files : list string)
    (i : nat) :
  (forall file, keys (f file) = column_set) ->
  i < List.length files ->
  row (from_records (map f files)) i = f (nth i files EmptyString).
Proof.
  intros Hk Hi.
  rewrite (from_records_row column_set).
  - rewrite (nth_indep _ [] (f EmptyString)) by (now rewrite length_map).
    apply map_nth.
  - exact column_set_nodup.
  - intros r Hr. apply in_map_iff in Hr as (file & <- & _). apply Hk.
  - now rewrite length_map.
Qed.
(** C7: each batch runner builds a table with one row per document, in
    the order of the documents, whether or not the patterns match.  The
    documents of the first runner are the list it is given.  The
    documents of the other two are the names of the listing of the folder
    that end in [.pdf] once put in lower case, in the order of the
    listing: the table has as many rows as the listing has such names,
    and every such name of the listing has its row.  Row [i] is the
    record extracted from document [i]: it carries the fourteen columns,
    among them the constant [report_source] and the name of the file. *)
Theorem C7_batch_extraction_rows :
  (forall pages pdf_files,
      nrows (report_type1_processing.process_multiple_pdfs pages pdf_files)
      = List.length pdf_files
      /\ forall i, i < List.length pdf_files ->
           let r := row (report_type1_processing.process_multiple_pdfs
                           pages pdf_files) i in
           r = dict_set "file_name"
                 (PyStr (OsPath.basename (nth i pdf_files EmptyString)))
                 (report_type1_processing.extract_data_from_pdf pages
                    (nth i pdf_files EmptyString))
           /\ keys r = column_set
           /\ dict_get "report_source" r = Some (PyStr "varian")
           /\ dict_get "file_name" r
              = Some (PyStr (OsPath.basename (nth i pdf_files EmptyString))))
  /\ (forall pages listdir folder_path,
         let files :=
           filter (fun f => endswith (lower f) ".pdf") (listdir folder_path) in
         let table :=
           report_type2_processing.extract_from_folder pages listdir folder_path in
         nrows table = List.length files
         /\ (forall i,
               i < List.length files ->
               let file_path :=
                 OsPath.join folder_path (nth i files EmptyString) in
               let r := row table i in
               r = report_type2_processing.extract_report_data pages file_path
               /\ keys r = column_set
               /\ dict_get "report_source" r = Some (PyStr "varian")
               /\ dict_get "file_name" r
                  = Some (PyStr (fst (OsPath.splitext
                                        (OsPath.basename file_path)))))
         /\ (forall f,
               In f (listdir folder_path) ->
               endswith (lower f) ".pdf" = true ->
               exists i,
                 i < nrows table
                 /\ row table i
                    = report_type2_processing.extract_report_data pages
                        (OsPath.join folder_path f)))
  /\ (forall pages listdir folder_path,
         let files :=
           filter (fun f => endswith (lower f) ".pdf") (listdir folder_path) in
         let table :=
           report_type3_processing.extract_from_folder pages listdir folder_path in
         nrows table = List.length files
         /\ (forall i,
               i < List.length files ->
               let file_path :=
                 OsPath.join folder_path (nth i files EmptyString) in
               let r := row table i in
               r = report_type3_processing.extract_report_data pages file_path
               /\ keys r = column_set
               /\ dict_get "report_source" r = Some (PyStr "varian")
               /\ dict_get "file_name" r
                  = Some (PyStr (fst (OsPath.splitext
                                        (OsPath.basename file_path)))))
         /\ (forall f,
               In f (listdir folder_path) ->
               endswith (lower f) ".pdf" = true ->
               exists i,
                 i < nrows table
                 /\ row table i
                    = report_type3_processing.extract_report_data pages
                        (OsPath.join folder_path f))).
Proof.
  split; [|split].
  - intros pages pdf_files. split.
    + unfold report_type1_processing.process_multiple_pdfs,
        report_type1_processing.results.
      now rewrite from_records_nrows, length_map.
    + intros i Hi. cbv zeta.
      unfold report_type1_processing.process_multiple_pdfs,
        report_type1_processing.results.
      rewrite (mapped_rows
                 (fun pdf_file =>
                    dict_set "file_name" (PyStr (OsPath.basename pdf_file))
                      (report_type1_processing.extract_data_from_pdf pages
                         pdf_file)))
        by (intros; apply type1_record_keys || exact Hi).
      repeat split; reflexivity.
  - intros pages listdir folder_path files table.
    assert (N : nrows table = List.length files).
    { subst table files.
      unfold report_type2_processing.extract_from_folder, report_type2_processing.data, report_type2_processing.pdf_files.
      now rewrite from_records_nrows, length_map. }
    assert (R : forall i, i < List.length files ->
                row table i
                = report_type2_processing.extract_report_data pages
                    (OsPath.join folder_path (nth i files EmptyString))).
    { intros i Hi. subst table files.
      unfold report_type2_processing.extract_from_folder, report_type2_processing.data, report_type2_processing.pdf_files.
      change report_type2_processing.is_pdf with (fun f => endswith (lower f) ".pdf").
      now rewrite (mapped_rows
                     (fun file => report_type2_processing.extract_report_data pages
                                    (OsPath.join folder_path file)))
        by (intros; apply type2_record_keys || exact Hi). }
    split; [exact N|]. split.
    + intros i Hi. cbv zeta. rewrite (R i Hi).
      unfold report_type2_processing.extract_report_data.
      repeat split;
        first [apply type2_record_keys | apply type2_record_stamps].
    + intros f Hf Hpdf.
      assert (I : In f files) by (apply filter_In; now split).
      destruct (In_nth files f EmptyString I) as (i & Hi & E).
      exists i. split; [now rewrite N|]. now rewrite (R i Hi), E.
  - intros pages listdir folder_path files table.
    assert (N : nrows table = List.length files).
    { subst table files.
      unfold report_type3_processing.extract_from_folder, report_type3_processing.data, report_type3_processing.pdf_files.
      now rewrite from_records_nrows, length_map. }
    assert (R : forall i, i < List.length files ->
                row table i
                = report_type3_processing.extract_report_data pages
                    (OsPath.join folder_path (nth i files EmptyString))).
    { intros i Hi. subst table files.
      unfold report_type3_processing.extract_from_folder, report_type3_processing.data, report_type3_processing.pdf_files.
      change report_type3_processing.is_pdf with (fun f => endswith (lower f) ".pdf").
      now rewrite (mapped_rows
                     (fun file => report_type3_processing.extract_report_data pages
                                    (OsPath.join folder_path file)))
        by (intros; apply type3_record_keys || exact Hi). }
    split; [exact N|]. split.
    + intros i Hi. cbv zeta. rewrite (R i Hi).
      unfold report_type3_processing.extract_report_data.
      repeat split;
        first [apply type3_record_keys | apply type3_record_stamps].
    + intros f Hf Hpdf.
      assert (I : In f files) by (apply filter_In; now split).
      destruct (In_nth files f EmptyString I) as (i & Hi & E).
      exists i. split; [now rewrite N|]. now rewrite (R i Hi), E.
Qed.

Lemma C7_witness :
  nrows (report_type1_processing.process_multiple_pdfs Samples.pages1
           ["reports/a.pdf"; "reports/empty.pdf"]) = 2
  /\ dict_get "work_order_id"
       (row (report_type1_processing.process_multiple_pdfs Samples.pages1
               ["reports/a.pdf"; "reports/empty.pdf"]) 0)
     = Some (PyStr "WO-12345")
  /\ dict_get "file_name"
       (row (report_type1_processing.process_multiple_pdfs Samples.pages1
               ["reports/a.pdf"; "reports/empty.pdf"]) 1)
     = Some (PyStr "empty.pdf")
  /\ nrows (report_type2_processing.extract_from_folder Samples.pages2
              Samples.listdir2 "reports") = 2
  /\ dict_get "file_name"
       (row (report_type2_processing.extract_from_folder Samples.pages2
               Samples.listdir2 "reports") 0)
     = Some (PyStr "a")
  /\ dict_get "file_name"
       (row (report_type2_processing.extract_from_folder Samples.pages2
               Samples.listdir2 "reports") 1)
     = Some (PyStr "B")
  /\ nrows (report_type3_processing.extract_from_folder Samples.pages2
              Samples.listdir2 "reports") = 2
  /\ dict_get "file_name"
       (row (report_type3_processing.extract_from_folder Samples.pages2
               Samples.listdir2 "reports") 0)
     = Some (PyStr "a")
  /\ dict_get "file_name"
       (row (report_type3_processing.extract_from_folder Samples.pages2
               Samples.listdir2 "reports") 1)
     = Some (PyStr "B")
  /\ (exists i,
         i < nrows (report_type3_processing.extract_from_folder Samples.pages2
                      Samples.listdir2 "reports")
         /\ row (report_type3_processing.extract_from_folder Samples.pages2
                   Samples.listdir2 "reports") i
            = report_type3_processing.extract_report_data Samples.pages2
                (OsPath.join "reports" "B.PDF")).
Proof.
  destruct C7_batch_extraction_rows as (A & B & C).
  destruct (A Samples.pages1 ["reports/a.pdf"; "reports/empty.pdf"])
    as (A1 & A2).
  destruct (B Samples.pages2 Samples.listdir2 "reports") as (B1 & B2 & _).
  destruct (C Samples.pages2 Samples.listdir2 "reports") as (C1 & C2 & C3).
  split; [exact A1|].
  split; [destruct (A2 0) as (E & _); [apply Nat.ltb_lt; reflexivity | rewrite E; reflexivity]|].
  split; [destruct (A2 1) as (_ & _ & _ & E); [apply Nat.ltb_lt; reflexivity | exact E]|].
  split; [exact B1|].
  split; [destruct (B2 0) as (_ & _ & _ & E); [apply Nat.ltb_lt; reflexivity | exact E]|].
  split; [destruct (B2 1) as (_ & _ & _ & E); [apply Nat.ltb_lt; reflexivity | exact E]|].
  split; [exact C1|].
  split; [destruct (C2 0) as (_ & _ & _ & E); [apply Nat.ltb_lt; reflexivity | exact E]|].
  split; [destruct (C2 1) as (_ & _ & _ & E); [apply Nat.ltb_lt; reflexivity | exact E]|].
  apply C3; [cbn; tauto | reflexivity].
Defined.

(** ** Columns of a table *)

Lemma lookup_assign_same (name : string) (values : list pyobj)
    (cols : list (string * list pyobj)) :
  lookup name (assign name values cols) = Some values.
Proof.
  induction cols as [|[n c] cols IH]; cbn [assign lookup].
  - now rewrite String.eqb_refl.
  - destruct (n =? name)%string eqn:E; cbn [lookup]; now rewrite E.
Qed.

Lemma lookup_assign_other (name other : string) (values : list pyobj)
    (cols : list (string * list pyobj)) :
  name <> other ->
  lookup other (assign name values cols) = lookup other cols.
Proof.
  intros H. apply String.eqb_neq in H.
  induction cols as [|[n c] cols IH]; cbn [assign lookup].
  - now rewrite H.
  - destruct (n =? name)%string eqn:E; cbn [lookup].
    + apply String.eqb_eq in E. subst n. now rewrite H.
    + now rewrite IH.
Qed.

Lemma assign_new (name : string) (values : list pyobj)
    (cols : list (string * list pyobj)) :
  ~ In name (map fst cols) -> assign name values cols
                              = (cols ++ [(name, values)])%list.
Proof.
  induction cols as [|[n c] cols IH]; cbn [assign map fst app In]; intros H.
  - reflexivity.
  - destruct (n =? name)%string eqn:E.
    + apply String.eqb_eq in E. tauto.
    + f_equal. apply IH. tauto.
Qed.

Lemma lookup_in (name : string) (cols : list (string * list pyobj)) :
  In name (map fst cols) ->
  exists c, lookup name cols = Some c /\ In (name, c) cols.
Proof.
  induction cols as [|[n c] cols IH]; cbn [map fst In lookup]; intros H.
  - destruct H.
  - destruct (n =? name)%string eqn:E.
    + apply String.eqb_eq in E. subst n. exists c. split; [reflexivity | now left].
    + destruct H as [H|H]; [apply String.eqb_neq in E; congruence|].
      destruct (IH H) as (c' & L & I). exists c'. split; [exact L | now right].
Qed.

(** In a well-formed table every row has a cell in every column. *)
Lemma cell_defined (df : DataFrame) (i : nat) (name : string) :
  well_formed df -> In name (labels df) -> i < nrows df ->
  exists x, cell df i name = Some x.
Proof.
  intros W H Hi. destruct (lookup_in _ _ H) as (c & L & I).
  unfold cell, column. rewrite L.
  destruct (nth_error c i) eqn:E; [eauto|].
  apply nth_error_None in E. rewrite (W _ _ I) in E. lia.
Qed.

(** ** The batch runner of the classifier *)

Section ClassifyDataframe.

Variable json_loads : string -> pyobj + py_exception.
Variable create : nat -> request -> completion.
Variable SYSTEM_PROMPT : string.
Variable self : classifier.
Variable repr : pyobj -> string.

Lemma classify_report_some (subject description : string) (max_retries : Z)
    (calls : nat) :
  no_decode_error_raised create ->
  exists result calls',
    classify_report json_loads create SYSTEM_PROMPT self subject description
      max_retries calls = (Returns result, calls').
Proof.
  intros Hc. unfold classify_report.
  destruct (attempts_return json_loads create
              (build_request SYSTEM_PROMPT self subject description)
              max_retries (range max_retries) None calls Hc)
    as [[c E]|(v & c & E & _)]; rewrite E; eauto.
Qed.

(** When the client raises no decode error and the two columns exist,
    every row gets a result. *)
Lemma apply_rows_returns (frame : DataFrame)
    (subject_col description_col : string) (rows : list nat) (calls : nat) :
  no_decode_error_raised create ->
  well_formed frame ->
  In subject_col (labels frame) -> In description_col (labels frame) ->
  (forall i, In i rows -> i < nrows frame) ->
  exists results calls',
    apply_rows json_loads create SYSTEM_PROMPT self repr frame
      subject_col description_col rows calls = (Returns results, calls')
    /\ List.length results = List.length rows.
Proof.
  intros Hc W Hs Hd. revert calls.
  induction rows as [|i rows IH]; intros calls Hr; cbn [apply_rows].
  - exists [], calls. split; reflexivity.
  - assert (Hi : i < nrows frame) by (apply Hr; now left).
    destruct (cell_defined frame i subject_col W Hs Hi) as [subject ->].
    destruct (cell_defined frame i description_col W Hd Hi) as [description ->].
    destruct (classify_report_some (py_str repr subject)
                (py_str repr description) 3 calls Hc) as (result & c1 & ->).
    destruct (IH c1) as (results & c2 & -> & L).
    + intros j Hj. apply Hr. now right.
    + exists (result :: results), c2. split; [reflexivity|].
      cbn [List.length]. now rewrite L.
Qed.

End ClassifyDataframe.

Lemma label_of_str (x : pyobj) :
  is_dict x = false
  \/ (exists d, x = PyDict d
                /\ (dict_get "failure_type" d = None
                    \/ exists s, dict_get "failure_type" d = Some (PyStr s))) ->
  is_str (label_of x) = true.
Proof.
  intros [H|(d & -> & [H|[s H]])]; cbn [label_of].
  - destruct x; try reflexivity. discriminate.
  - now rewrite H.
  - now rewrite H.
Qed.

Lemma store_same (h : heap) (ref : nat) (df : DataFrame) :
  store h ref df ref = df.
Proof. unfold store. now rewrite Nat.eqb_refl. Qed.

Lemma store_other (h : heap) (ref r : nat) (df : DataFrame) :
  r <> ref -> store h ref df r = h r.
Proof. intros H. unfold store. apply Nat.eqb_neq in H. now rewrite H. Qed.

(** What pandas stores for a column with a list or a mapping in it, or
    of strings only: the values given. *)
Lemma infer_unchanged (convert : list pyobj -> list pyobj)
    (values : list pyobj) :
  existsb is_container values || forallb is_str values = true ->
  infer convert values = values.
Proof. intros H. unfold infer. now rewrite H. Qed.

(** Where no value is a list or a mapping, every label is [Error]. *)
Lemma labels_of_scalars (values : list pyobj) :
  existsb is_container values = false ->
  map label_of values = repeat (PyStr "Error") (List.length values).
Proof.
  induction values as [|x values IH]; cbn [existsb map List.length repeat];
    [reflexivity|].
  intros H. apply orb_false_iff in H as [Hx H]. rewrite (IH H).
  destruct x; cbn [is_container] in Hx; try discriminate; reflexivity.
Qed.

(** The labels read from the column of the results as it is stored are
    the labels of the results. *)
Lemma infer_labels (convert : list pyobj -> list pyobj) (results : list pyobj) :
  converts_scalars convert ->
  map label_of (infer convert results) = map label_of results.
Proof.
  intros H. unfold infer.
  destruct (existsb is_container results) eqn:E; [reflexivity|].
  destruct (forallb is_str results); [reflexivity|]. cbn [orb].
  destruct (H results E) as (L & _ & N).
  rewrite (labels_of_scalars _ N), (labels_of_scalars _ E). now rewrite L.
Qed.

(** A string, a list and a mapping are stored as they are. *)
Lemma infer_keeps_object (convert : list pyobj -> list pyobj)
    (values : list pyobj) (i : nat) (v : pyobj) :
  converts_scalars convert ->
  nth_error values i = Some v -> is_object v = true ->
  nth_error (infer convert values) i = Some v.
Proof.
  intros H Hv O. unfold infer.
  destruct (existsb is_container values) eqn:E; [exact Hv|].
  destruct (forallb is_str values); [exact Hv|]. cbn [orb].
  destruct (H values E) as (_ & K & _).
  assert (C : is_container v = false).
  { destruct (is_container v) eqn:C; [|reflexivity].
    rewrite <- E. symmetry. apply existsb_exists. exists v.
    split; [eapply nth_error_In, Hv | exact C]. }
  destruct v; try discriminate; now apply K.
Qed.

(** The labels of a table after an assignment. *)
Lemma labels_assign (name : string) (values : list pyobj)
    (cols : list (string * list pyobj)) :
  map fst (assign name values cols) = add_label name (map fst cols).
Proof.
  unfold add_label.
  induction cols as [|[n c] cols IH]; cbn [assign map fst existsb app];
    [reflexivity|].
  rewrite (String.eqb_sym name n).
  destruct (n =? name)%string; cbn [orb map fst]; [reflexivity|].
  rewrite IH. now destruct (existsb (String.eqb name) (map fst cols)).
Qed.

(** An assignment leaves the former labels first, in their order. *)
Lemma add_label_firstn (name : string) (names more : list string) :
  firstn (List.length names) (add_label name names ++ more) = names.
Proof.
  unfold add_label.
  destruct (existsb (String.eqb name) names); rewrite <- ?app_assoc;
    rewrite firstn_app, Nat.sub_diag, firstn_all; cbn [firstn];
    now rewrite app_nil_r.
Qed.

Lemma add_label_extends (name : string) (names : list string) :
  exists more, add_label name names = (names ++ more)%list.
Proof.
  unfold add_label. destruct (existsb (String.eqb name) names).
  - exists []. now rewrite app_nil_r.
  - now exists [name].
Qed.

(** What [classify_dataframe] leaves under the reference it was given,
    once every row of a table with rows has its result. *)
Lemma classify_dataframe_returns
    (json_loads : string -> pyobj + py_exception)
    (create : nat -> request -> completion) (SYSTEM_PROMPT : string)
    (self : classifier) (repr : pyobj -> string)
    (convert : list pyobj -> list pyobj)
    (on_empty : heap -> nat -> string -> string -> string -> nat ->
                outcome nat * heap * nat)
    (h : heap) (df : nat)
    (subject_col description_col output_col : string) (calls : nat)
    (results : list pyobj) (calls' : nat) :
  0 < nrows (h df) ->
  apply_rows json_loads create SYSTEM_PROMPT self repr (h df)
    subject_col description_col (seq 0 (nrows (h df))) calls
  = (Returns results, calls') ->
  exists h',
    classify_dataframe json_loads create SYSTEM_PROMPT self repr convert
      on_empty h df subject_col description_col output_col calls
    = (Returns df, h', calls')
    /\ h' df = set_column "failure_type"
                 (infer convert (map label_of (infer convert results)))
                 (set_column output_col (infer convert results) (h df))
    /\ forall r, r <> df -> h' r = h r.
Proof.
  intros Hrows E. unfold classify_dataframe.
  destruct (nrows (h df)) as [|n] eqn:N; [lia|]. rewrite E.
  rewrite !store_same. unfold column at 1. cbn [set_column columns].
  rewrite lookup_assign_same.
  eexists. split; [reflexivity|]. split.
  - now rewrite store_same.
  - intros r Hr. now rewrite !store_other.
Qed.

(** ** Claims on [classify_dataframe] *)

(** C9, as stated, fails in its conclusion: the value under the key is
    handed on whatever it is.  When the answer holds a list of two labels,
    the cell of the column [failure_type] is that list, not a string. *)
Lemma C9_counterexample :
  fst (fst (Samples.classify_frame (Samples.answers Samples.two_labels)
              Samples.frame)) = Returns 0
  /\ cell (snd (fst (Samples.classify_frame
                       (Samples.answers Samples.two_labels) Samples.frame)) 0)
       0 "failure_type"
     = Some (PyList [PyStr "Beam Generation"; PyStr "Cooling System"])
  /\ is_str (PyList [PyStr "Beam Generation"; PyStr "Cooling System"]) = false.
Proof. split; [|split]; reflexivity. Qed.

(** C9, amended: on a table with a row at least, distinct labels and the
    two columns read, with a client that raises no decode error,
    [classify_dataframe] returns, and the column [failure_type] is what
    pandas stores for the labels of the results, row by row.  The label
    of a result is the value under its key [failure_type] when the result
    is a mapping with that key, and the string [Error] when it is no
    mapping or lacks the key.  pandas stores the labels as they are when
    one of them is a list or a mapping or when all are strings, and it
    stores a string, a list and a mapping as they are in every column.
    So the cell of a row is its label whenever the label is a string, a
    list or a mapping; it is the string [Error] for a result that is no
    mapping or lacks the key, and a string for a result that holds a
    string under the key.  A number, a boolean or [None] under the key is
    stored as pandas converts the column. *)
Theorem C9_failure_type_column
    (json_loads : string -> pyobj + py_exception)
    (create : nat -> request -> completion) (SYSTEM_PROMPT : string)
    (self : classifier) (repr : pyobj -> string)
    (convert : list pyobj -> list pyobj)
    (on_empty : heap -> nat -> string -> string -> string -> nat ->
                outcome nat * heap * nat)
    (h : heap) (df : nat)
    (subject_col description_col output_col : string) (calls : nat) :
  no_decode_error_raised create ->
  converts_scalars convert ->
  0 < nrows (h df) ->
  well_formed (h df) ->
  NoDup (labels (h df)) ->
  In subject_col (labels (h df)) -> In description_col (labels (h df)) ->
  exists results calls' h',
    apply_rows json_loads create SYSTEM_PROMPT self repr (h df)
      subject_col description_col (seq 0 (nrows (h df))) calls
    = (Returns results, calls')
    /\ List.length results = nrows (h df)
    /\ classify_dataframe json_loads create SYSTEM_PROMPT self repr convert
         on_empty h df subject_col description_col output_col calls
       = (Returns df, h', calls')
    /\ column "failure_type" (h' df)
       = Some (infer convert (map label_of results))
    /\ forall i x, nth_error results i = Some x ->
         (forall d v, x = PyDict d -> dict_get "failure_type" d = Some v ->
                      label_of x = v)
         /\ (forall d, x = PyDict d -> dict_get "failure_type" d = None ->
                       label_of x = PyStr "Error")
         /\ (is_dict x = false -> label_of x = PyStr "Error")
         /\ (existsb is_container (map label_of results)
             || forallb is_str (map label_of results) = true ->
             cell (h' df) i "failure_type" = Some (label_of x))
         /\ (is_object (label_of x) = true ->
             cell (h' df) i "failure_type" = Some (label_of x))
         /\ (is_dict x = false
             \/ (exists d, x = PyDict d
                           /\ (dict_get "failure_type" d = None
                               \/ exists s, dict_get "failure_type" d
                                            = Some (PyStr s))) ->
             is_str (label_of x) = true
             /\ cell (h' df) i "failure_type" = Some (label_of x)).
Proof.
  intros Hc Hv Hrows W _ Hs Hd.
  destruct (apply_rows_returns json_loads create SYSTEM_PROMPT self repr (h df)
              subject_col description_col (seq 0 (nrows (h df))) calls
              Hc W Hs Hd) as (results & calls' & E & L).
  { intros i Hi. apply in_seq in Hi. lia. }
  destruct (classify_dataframe_returns json_loads create SYSTEM_PROMPT self
              repr convert on_empty h df subject_col description_col
              output_col calls results calls' Hrows E) as (h' & R & Hdf & _).
  exists results, calls', h'. rewrite length_seq in L.
  assert (Col : column "failure_type" (h' df)
                = Some (infer convert (map label_of results))).
  { unfold column. rewrite Hdf. cbn [set_column columns].
    rewrite lookup_assign_same. now rewrite infer_labels. }
  assert (Cell : forall i x,
             nth_error results i = Some x ->
             is_object (label_of x) = true ->
             cell (h' df) i "failure_type" = Some (label_of x)).
  { intros i x Hx O. unfold cell. rewrite Col.
    apply (infer_keeps_object convert _ i _ Hv); [|exact O].
    now apply map_nth_error. }
  split; [exact E|]. split; [exact L|]. split; [exact R|].
  split; [exact Col|]. intros i x Hx.
  split; [|split; [|split; [|split; [|split]]]].
  - intros d v -> G. cbn [label_of]. now rewrite G.
  - intros d -> G. cbn [label_of]. now rewrite G.
  - intros G. destruct x; try reflexivity. discriminate.
  - intros U. unfold cell. rewrite Col, (infer_unchanged _ _ U).
    now apply map_nth_error.
  - now apply Cell.
  - intros G. pose proof (label_of_str x G) as S. split; [exact S|].
    apply (Cell i x Hx).
    destruct (label_of x); try discriminate; reflexivity.
Qed.

Lemma C9_witness :
  exists results calls' h',
    apply_rows JsonRef.loads (Samples.answers Samples.cooling)
      Samples.SYSTEM_PROMPT Samples.self Samples.repr Samples.frame
      "subject" "description" (seq 0 (nrows Samples.frame)) 0
    = (Returns results, calls')
    /\ List.length results = nrows Samples.frame
    /\ Samples.classify_frame (Samples.answers Samples.cooling) Samples.frame
       = (Returns 0, h', calls')
    /\ column "failure_type" (h' 0)
       = Some (infer Samples.convert (map label_of results))
    /\ forall i x, nth_error results i = Some x ->
         (forall d v, x = PyDict d -> dict_get "failure_type" d = Some v ->
                      label_of x = v)
         /\ (forall d, x = PyDict d -> dict_get "failure_type" d = None ->
                       label_of x = PyStr "Error")
         /\ (is_dict x = false -> label_of x = PyStr "Error")
         /\ (existsb is_container (map label_of results)
             || forallb is_str (map label_of results) = true ->
             cell (h' 0) i "failure_type" = Some (label_of x))
         /\ (is_object (label_of x) = true ->
             cell (h' 0) i "failure_type" = Some (label_of x))
         /\ (is_dict x = false
             \/ (exists d, x = PyDict d
                           /\ (dict_get "failure_type" d = None
                               \/ exists s, dict_get "failure_type" d
                                            = Some (PyStr s))) ->
             is_str (label_of x) = true
             /\ cell (h' 0) i "failure_type" = Some (label_of x)).
Proof.
  apply (C9_failure_type_column JsonRef.loads (Samples.answers Samples.cooling)
           Samples.SYSTEM_PROMPT Samples.self Samples.repr Samples.convert
           Samples.on_empty (Samples.heap_of Samples.frame) 0
           "subject" "description" "llm_classification" 0).
  - intros n req msg. discriminate.
  - intros values H. split; [reflexivity | split; [tauto | exact H]].
  - cbn. lia.
  - intros name cells H. cbn in H.
    destruct H as [H|[H|[]]]; injection H as <- <-; reflexivity.
  - cbn. repeat constructor; cbn; intuition discriminate.
  - cbn. tauto.
  - cbn. tauto.
Defined.

(** C10, as stated, fails on a table that already has a column named
    [failure_type] or named as the output column: the assignment
    replaces the cells of that column.  In either case one column is
    added, not two, and the cells that the column held are lost. *)
Lemma C10_counterexample :
  (fst (fst (Samples.classify_frame (Samples.answers Samples.cooling)
               Samples.labelled_frame)) = Returns 0
   /\ labels Samples.labelled_frame = ["subject"; "description"; "failure_type"]
   /\ labels (snd (fst (Samples.classify_frame
                          (Samples.answers Samples.cooling)
                          Samples.labelled_frame)) 0)
      = ["subject"; "description"; "failure_type"; "llm_classification"]
   /\ column "failure_type" Samples.labelled_frame
      = Some [PyStr "Imaging System (KV/MV)"]
   /\ column "failure_type"
        (snd (fst (Samples.classify_frame (Samples.answers Samples.cooling)
                     Samples.labelled_frame)) 0)
      = Some [PyStr "Cooling System"])
  /\ (fst (fst (Samples.classify_frame (Samples.answers Samples.cooling)
                  Samples.classified_frame)) = Returns 0
      /\ labels Samples.classified_frame
         = ["llm_classification"; "subject"; "description"]
      /\ labels (snd (fst (Samples.classify_frame
                             (Samples.answers Samples.cooling)
                             Samples.classified_frame)) 0)
         = ["llm_classification"; "subject"; "description"; "failure_type"]
      /\ column "llm_classification" Samples.classified_frame
         = Some [PyStr "to do"]
      /\ column "llm_classification"
           (snd (fst (Samples.classify_frame (Samples.answers Samples.cooling)
                        Samples.classified_frame)) 0)
         = Some [PyDict [("failure_type", PyStr "Cooling System")]]).
Proof. repeat split; reflexivity. Qed.

(** C10, amended: on a table with a row at least, distinct labels and the
    two columns read, with a client that raises no decode error,
    [classify_dataframe] returns the reference it was given, and the
    table under that reference has the same number of rows.  Its labels
    are the former labels in their order and places, followed by the name
    of the output column and by [failure_type] where these were no labels
    before; a column of either name that was there is overwritten where
    it stands.  Every column of another name is unchanged.  The output
    column holds what pandas stores for the results, the column
    [failure_type] what it stores for the labels read from that column.
    Where neither name was a label and the two names differ, exactly
    these two columns are added, in this order.  Every other table of the
    heap is untouched. *)
Theorem C10_two_columns_added_in_place
    (json_loads : string -> pyobj + py_exception)
    (create : nat -> request -> completion) (SYSTEM_PROMPT : string)
    (self : classifier) (repr : pyobj -> string)
    (convert : list pyobj -> list pyobj)
    (on_empty : heap -> nat -> string -> string -> string -> nat ->
                outcome nat * heap * nat)
    (h : heap) (df : nat)
    (subject_col description_col output_col : string) (calls : nat) :
  no_decode_error_raised create ->
  0 < nrows (h df) ->
  well_formed (h df) ->
  NoDup (labels (h df)) ->
  In subject_col (labels (h df)) -> In description_col (labels (h df)) ->
  exists results calls' h',
    apply_rows json_loads create SYSTEM_PROMPT self repr (h df)
      subject_col description_col (seq 0 (nrows (h df))) calls
    = (Returns results, calls')
    /\ classify_dataframe json_loads create SYSTEM_PROMPT self repr convert
         on_empty h df subject_col description_col output_col calls
       = (Returns df, h', calls')
    /\ List.length results = nrows (h df)
    /\ nrows (h' df) = nrows (h df)
    /\ labels (h' df)
       = add_label "failure_type" (add_label output_col (labels (h df)))
    /\ firstn (List.length (labels (h df))) (labels (h' df)) = labels (h df)
    /\ (forall name, name <> output_col -> name <> "failure_type" ->
                     column name (h' df) = column name (h df))
    /\ (output_col <> "failure_type" ->
        column output_col (h' df) = Some (infer convert results))
    /\ column "failure_type" (h' df)
       = Some (infer convert (map label_of (infer convert results)))
    /\ (~ In output_col (labels (h df)) ->
        ~ In "failure_type" (labels (h df)) ->
        output_col <> "failure_type" ->
        columns (h' df)
        = (columns (h df)
           ++ [(output_col, infer convert results);
               ("failure_type",
                infer convert (map label_of (infer convert results)))])%list)
    /\ forall r, r <> df -> h' r = h r.
Proof.
  intros Hc Hrows W _ Hs Hd.
  destruct (apply_rows_returns json_loads create SYSTEM_PROMPT self repr (h df)
              subject_col description_col (seq 0 (nrows (h df))) calls
              Hc W Hs Hd) as (results & calls' & E & L).
  { intros i Hi. apply in_seq in Hi. lia. }
  destruct (classify_dataframe_returns json_loads create SYSTEM_PROMPT self
              repr convert on_empty h df subject_col description_col
              output_col calls results calls' Hrows E)
    as (h' & R & Hdf & Hother).
  exists results, calls', h'. rewrite length_seq in L.
  assert (Labels : labels (h' df)
                   = add_label "failure_type"
                       (add_label output_col (labels (h df)))).
  { unfold labels. rewrite Hdf. cbn [set_column columns].
    now rewrite !labels_assign. }
  split; [exact E|]. split; [exact R|]. split; [exact L|].
  split; [now rewrite Hdf|]. split; [exact Labels|].
  split; [|split; [|split; [|split; [|split]]]].
  - rewrite Labels.
    destruct (add_label_extends output_col (labels (h df))) as [more ->].
    destruct (add_label_extends "failure_type" (labels (h df) ++ more))
      as [more' ->].
    rewrite <- app_assoc, firstn_app, Nat.sub_diag, firstn_all.
    cbn [firstn]. now rewrite app_nil_r.
  - intros name Ho Hf. unfold column. rewrite Hdf. cbn [set_column columns].
    rewrite lookup_assign_other by congruence.
    now rewrite lookup_assign_other by congruence.
  - intros Hne. unfold column. rewrite Hdf. cbn [set_column columns].
    rewrite lookup_assign_other by congruence.
    now rewrite lookup_assign_same.
  - unfold column. rewrite Hdf. cbn [set_column columns].
    now rewrite lookup_assign_same.
  - intros Ho Hf Hne. rewrite Hdf. cbn [set_column columns].
    rewrite (assign_new output_col) by exact Ho.
    rewrite assign_new.
    + now rewrite <- app_assoc.
    + rewrite map_app. cbn [map fst]. intros H.
      apply in_app_or in H as [H|[H|[]]]; [exact (Hf H) | exact (Hne H)].
  - exact Hother.
Qed.

Lemma C10_witness :
  exists results calls' h',
    apply_rows JsonRef.loads (Samples.answers Samples.cooling)
      Samples.SYSTEM_PROMPT Samples.self Samples.repr Samples.labelled_frame
      "subject" "description" (seq 0 (nrows Samples.labelled_frame)) 0
    = (Returns results, calls')
    /\ Samples.classify_frame (Samples.answers Samples.cooling)
         Samples.labelled_frame
       = (Returns 0, h', calls')
    /\ List.length results = nrows Samples.labelled_frame
    /\ nrows (h' 0) = nrows Samples.labelled_frame
    /\ labels (h' 0)
       = add_label "failure_type"
           (add_label "llm_classification" (labels Samples.labelled_frame))
    /\ firstn (List.length (labels Samples.labelled_frame)) (labels (h' 0))
       = labels Samples.labelled_frame
    /\ (forall name, name <> "llm_classification" -> name <> "failure_type" ->
                     column name (h' 0) = column name Samples.labelled_frame)
    /\ ("llm_classification" <> "failure_type" ->
        column "llm_classification" (h' 0)
        = Some (infer Samples.convert results))
    /\ column "failure_type" (h' 0)
       = Some (infer Samples.convert
                 (map label_of (infer Samples.convert results)))
    /\ (~ In "llm_classification" (labels Samples.labelled_frame) ->
        ~ In "failure_type" (labels Samples.labelled_frame) ->
        "llm_classification" <> "failure_type" ->
        columns (h' 0)
        = (columns Samples.labelled_frame
           ++ [("llm_classification", infer Samples.convert results);
               ("failure_type",
                infer Samples.convert
                  (map label_of (infer Samples.convert results)))])%list)
    /\ forall r, r <> 0 -> h' r = Samples.heap_of Samples.labelled_frame r.
Proof.
  apply (C10_two_columns_added_in_place JsonRef.loads
           (Samples.answers Samples.cooling)
           Samples.SYSTEM_PROMPT Samples.self Samples.repr Samples.convert
           Samples.on_empty (Samples.heap_of Samples.labelled_frame) 0
           "subject" "description" "llm_classification" 0).
  - intros n req msg. discriminate.
  - cbn. lia.
  - intros name cells H. cbn in H.
    destruct H as [H|[H|[H|[]]]]; injection H as <- <-; reflexivity.
  - cbn. repeat constructor; cbn; intuition discriminate.
  - cbn. tauto.
  - cbn. tauto.
Defined.

(* ================================================================== *)
(** * Part III: further properties of the scripts *)
(* ================================================================== *)

(** ** The attempts of [classify_report], one by one *)

Section Retry.

Variable json_loads : string -> pyobj + py_exception.
Variable create : nat -> request -> completion.
Variable req : request.
Variable max_retries : Z.

(** What the [try] block returns does not depend on the binding of
    [result_text] that it finds. *)
Lemma try_block_parsed_any (rt rt' : option string) (c : completion) (v : pyobj) :
  try_block json_loads rt c = Parsed v -> try_block json_loads rt' c = Parsed v.
Proof.
  destruct c as [[|[content|] rest]|[m|m]]; cbn [try_block]; try discriminate.
  destruct (json_loads (unfence (strip content))) as [w|[m|m]];
    try discriminate.
  auto.
Qed.

(** A client call that raises leaves the binding of [result_text] as it
    was. *)
Lemma try_block_raises (rt : option string) (e : py_exception) :
  exists msg,
    try_block json_loads rt (Raises e) = DecodeFailed msg rt
    \/ try_block json_loads rt (Raises e) = Failed msg rt.
Proof. destruct e as [m|m]; exists m; cbn [try_block]; auto. Qed.

(** The loop passes over attempts that are not the last and do not
    decode; when these attempts all raise, the binding of [result_text]
    is the one it started with. *)
Lemma attempts_skip (j m : nat) :
  forall k rt calls,
    Z.of_nat (k + j + S m) = max_retries ->
    (forall i, i < j -> forall rt' v,
        try_block json_loads rt' (create (calls + i) req) <> Parsed v) ->
    exists rt',
      attempts json_loads create req max_retries
        (tail_of_range k (j + S m)) rt calls
      = attempts json_loads create req max_retries
          (tail_of_range (k + j) (S m)) rt' (calls + j)
      /\ ((forall i, i < j -> exists e, create (calls + i) req = Raises e) ->
          rt' = rt).
Proof.
  induction j as [|j IH]; intros k rt calls H Hfail.
  - exists rt. rewrite !Nat.add_0_r. cbn [Nat.add]. auto.
  - assert (Step : forall rt1,
               exists rt',
                 attempts json_loads create req max_retries
                   (tail_of_range (S k) (j + S m)) rt1 (S calls)
                 = attempts json_loads create req max_retries
                     (tail_of_range (k + S j) (S m)) rt' (calls + S j)
                 /\ ((forall i, i < j ->
                        exists e, create (S calls + i) req = Raises e) ->
                     rt' = rt1)).
    { intros rt1. destruct (IH (S k) rt1 (S calls)) as (rt' & E & K).
      - lia.
      - intros i Hi. replace (S calls + i) with (calls + S i) by lia.
        apply Hfail. lia.
      - exists rt'. replace (k + S j) with (S k + j) by lia.
        replace (calls + S j) with (S calls + j) by lia. auto. }
    assert (Early : (Z.of_nat k =? max_retries - 1)%Z = false)
      by (apply Z.eqb_neq; lia).
    pose proof (Hfail 0 ltac:(lia) rt) as H0. rewrite Nat.add_0_r in H0.
    change (S j + S m) with (S (j + S m)).
    rewrite tail_of_range_cons. cbn [attempts]. rewrite Early.
    destruct (try_block json_loads rt (create calls req))
      as [v|msg rt1|msg rt1] eqn:T.
    + now destruct (H0 v).
    + destruct (Step rt1) as (rt' & E & K). exists rt'. split; [exact E|].
      intros Hr. rewrite K.
      * destruct (Hr 0 ltac:(lia)) as [e He]. rewrite Nat.add_0_r in He.
        rewrite He in T.
        destruct (try_block_raises rt e) as (m' & [R|R]); rewrite R in T;
          congruence.
      * intros i Hi. replace (S calls + i) with (calls + S i) by lia.
        apply Hr. lia.
    + destruct (Step rt1) as (rt' & E & K). exists rt'. split; [exact E|].
      intros Hr. rewrite K.
      * destruct (Hr 0 ltac:(lia)) as [e He]. rewrite Nat.add_0_r in He.
        rewrite He in T.
        destruct (try_block_raises rt e) as (m' & [R|R]); rewrite R in T;
          congruence.
      * intros i Hi. replace (S calls + i) with (calls + S i) by lia.
        apply Hr. lia.
Qed.

(** The number of client calls of the loop: at most one per attempt, and
    one at least when the loop is left from inside. *)
Lemma attempts_calls (todo : list Z) :
  forall rt calls,
    match attempts json_loads create req max_retries todo rt calls with
    | Left _ c => calls < c <= calls + List.length todo
    | Exhausted c => calls <= c <= calls + List.length todo
    end.
Proof.
  induction todo as [|attempt todo IH]; intros rt calls;
    cbn [attempts List.length].
  - lia.
  - destruct (try_block json_loads rt (create calls req)) as [v|msg rt'|msg rt'].
    + lia.
    + destruct (attempt =? max_retries - 1)%Z.
      * destruct rt'; lia.
      * specialize (IH rt' (S calls)).
        destruct (attempts json_loads create req max_retries todo rt' (S calls));
          lia.
    + destruct (attempt =? max_retries - 1)%Z; [lia|].
      specialize (IH rt' (S calls)).
      destruct (attempts json_loads create req max_retries todo rt' (S calls));
        lia.
Qed.

(** The last attempt: what the [try] block does decides how the loop is
    left. *)
Lemma attempts_last (k : nat) (rt : option string) (calls : nat) :
  Z.of_nat (k + 1) = max_retries ->
  attempts json_loads create req max_retries (tail_of_range k 1) rt calls
  = match try_block json_loads rt (create calls req) with
    | Parsed result => Left (Returns result) (S calls)
    | DecodeFailed msg (Some text) =>
        Left (Returns (parse_error text msg)) (S calls)
    | DecodeFailed msg None =>
        Left (Escapes (UnboundLocalError "result_text")) (S calls)
    | Failed msg _ => Left (Returns (api_error msg)) (S calls)
    end.
Proof.
  intros H. rewrite tail_of_range_cons. cbn [attempts].
  rewrite (last_attempt max_retries k H).
  destruct (try_block json_loads rt (create calls req)) as [v|msg rt'|msg rt'];
    reflexivity.
Qed.

(** An attempt that decodes ends the loop. *)
Lemma attempts_parsed (k m : nat) (rt : option string) (calls : nat)
    (v : pyobj) :
  try_block json_loads rt (create calls req) = Parsed v ->
  attempts json_loads create req max_retries (tail_of_range k (S m)) rt calls
  = Left (Returns v) (S calls).
Proof.
  intros H. rewrite tail_of_range_cons. cbn [attempts]. now rewrite H.
Qed.

End Retry.

(** The loop consults the client only at the calls that it counts, and
    only with the one request. *)
Lemma attempts_same_client (json_loads : string -> pyobj + py_exception)
    (create1 create2 : nat -> request -> completion) (req : request)
    (max_retries : Z) (todo : list Z) :
  forall rt calls,
    (forall i, i < List.length todo ->
               create1 (calls + i) req = create2 (calls + i) req) ->
    attempts json_loads create1 req max_retries todo rt calls
    = attempts json_loads create2 req max_retries todo rt calls.
Proof.
  induction todo as [|attempt todo IH]; intros rt calls H;
    cbn [attempts]; [reflexivity|].
  pose proof (H 0 ltac:(cbn; lia)) as H0. rewrite Nat.add_0_r in H0.
  rewrite <- H0.
  assert (R : forall rt',
             attempts json_loads create1 req max_retries todo rt' (S calls)
             = attempts json_loads create2 req max_retries todo rt' (S calls)).
  { intros rt'. apply IH. intros i Hi.
    replace (S calls + i) with (calls + S i) by lia. apply H. cbn. lia. }
  destruct (try_block json_loads rt (create1 calls req)) as [v|msg rt'|msg rt'];
    [reflexivity| |]; now rewrite R.
Qed.

Lemma length_range (n : Z) : List.length (range n) = Z.to_nat n.
Proof. unfold range, tail_of_range. now rewrite length_map, length_seq. Qed.

(** The client calls of one [classify_report]. *)
Lemma classify_report_calls (json_loads : string -> pyobj + py_exception)
    (create : nat -> request -> completion) (SYSTEM_PROMPT : string)
    (self : classifier) (subject description : string) (max_retries : Z)
    (calls : nat) :
  calls
  <= snd (classify_report json_loads create SYSTEM_PROMPT self subject
            description max_retries calls)
  <= calls + Z.to_nat max_retries
  /\ ((0 < max_retries)%Z ->
      calls < snd (classify_report json_loads create SYSTEM_PROMPT self
                     subject description max_retries calls)).
Proof.
  unfold classify_report.
  pose proof (attempts_calls json_loads create
                (build_request SYSTEM_PROMPT self subject description)
                max_retries (range max_retries) None calls) as B.
  rewrite length_range in B.
  destruct (attempts json_loads create
              (build_request SYSTEM_PROMPT self subject description)
              max_retries (range max_retries) None calls) as [o c|c] eqn:E;
    cbn [snd].
  - lia.
  - split; [lia|]. intros Hpos.
    destruct (range_positive _ Hpos) as (m & _ & Er & Ek). rewrite Er in E.
    now destruct (attempts_not_exhausted json_loads create _ max_retries m 0
                    None calls c Ek E).
Qed.

(** ** [classify_report]: which attempt decides *)

(** X1.  [classify_report] returns the object decoded from the first
    response that decodes: when the attempts before attempt [k] do not
    reach the [return] of line 142 and attempt [k], one of the
    [max_retries] attempts, gets a response whose text the decoder
    accepts, the decoded object is returned after [k + 1] client calls;
    what the later calls would have answered plays no part. *)
Theorem X1_first_decodable_response_returned
    (json_loads : string -> pyobj + py_exception)
    (create : nat -> request -> completion) (SYSTEM_PROMPT : string)
    (self : classifier) (subject description : string) (max_retries : Z)
    (calls k : nat) (content : string) (rest : list (option string))
    (v : pyobj) :
  (Z.of_nat k < max_retries)%Z ->
  (forall i, i < k -> forall rt w,
      try_block json_loads rt
        (create (calls + i)
           (build_request SYSTEM_PROMPT self subject description))
      <> Parsed w) ->
  create (calls + k) (build_request SYSTEM_PROMPT self subject description)
  = Response (Some content :: rest) ->
  json_loads (unfence (strip content)) = inl v ->
  classify_report json_loads create SYSTEM_PROMPT self subject description
    max_retries calls
  = (Returns v, calls + k + 1).
Proof.
  intros Hk Hfail Hc Hv. unfold classify_report.
  set (req := build_request SYSTEM_PROMPT self subject description) in *.
  unfold range.
  replace (Z.to_nat max_retries) with (k + S (Z.to_nat max_retries - k - 1))
    by lia.
  destruct (attempts_skip json_loads create req max_retries k
              (Z.to_nat max_retries - k - 1) 0 None calls) as (rt' & E & _).
  - lia.
  - exact Hfail.
  - rewrite E.
    rewrite (attempts_parsed json_loads create req max_retries _ _ _ _ v).
    + f_equal. lia.
    + rewrite Hc. cbn [try_block]. now rewrite Hv.
Qed.

Lemma X1_witness :
  Samples.classify
    (fun n _ => if (n <? 1)%nat then Response [Some "not json"]
                else Response [Some Samples.cooling]) 3
  = (Returns (PyDict [("failure_type", PyStr "Cooling System")]), 0 + 1 + 1).
Proof.
  apply (X1_first_decodable_response_returned JsonRef.loads
           (fun n _ => if (n <? 1)%nat then Response [Some "not json"]
                       else Response [Some Samples.cooling])
           Samples.SYSTEM_PROMPT Samples.self Samples.subject
           Samples.description 3 0 1 Samples.cooling []).
  - reflexivity.
  - intros i Hi rt w. replace i with 0 by lia. discriminate.
  - reflexivity.
  - reflexivity.
Defined.

(** X2.  [classify_report] calls the client at most [max_retries] times,
    and at least once when [max_retries] is positive. *)
Theorem X2_client_called_at_most_max_retries_times
    (json_loads : string -> pyobj + py_exception)
    (create : nat -> request -> completion) (SYSTEM_PROMPT : string)
    (self : classifier) (subject description : string) (max_retries : Z)
    (calls : nat) :
  calls
  <= snd (classify_report json_loads create SYSTEM_PROMPT self subject
            description max_retries calls)
  <= calls + Z.to_nat max_retries
  /\ ((0 < max_retries)%Z ->
      calls < snd (classify_report json_loads create SYSTEM_PROMPT self
                     subject description max_retries calls)).
Proof. apply classify_report_calls. Qed.

(** X3.  Within one call of [classify_report] every attempt sends the
    same request, and nothing but the answers to the [max_retries] calls
    it may make enters the result: two clients that answer this request
    alike at these calls give the same outcome. *)
Theorem X3_every_attempt_sends_the_same_request
    (json_loads : string -> pyobj + py_exception)
    (create1 create2 : nat -> request -> completion) (SYSTEM_PROMPT : string)
    (self : classifier) (subject description : string) (max_retries : Z)
    (calls : nat) :
  (forall i, i < Z.to_nat max_retries ->
      create1 (calls + i) (build_request SYSTEM_PROMPT self subject description)
      = create2 (calls + i)
          (build_request SYSTEM_PROMPT self subject description)) ->
  classify_report json_loads create1 SYSTEM_PROMPT self subject description
    max_retries calls
  = classify_report json_loads create2 SYSTEM_PROMPT self subject description
      max_retries calls.
Proof.
  intros H. unfold classify_report.
  rewrite (attempts_same_client json_loads create1 create2); [reflexivity|].
  now rewrite length_range.
Qed.

Lemma X3_witness :
  Samples.classify (Samples.answers "not json") 3
  = Samples.classify
      (fun n req =>
         if (n <? 3)%nat
            && (req_user req
                =? user_prompt Samples.self Samples.subject
                     Samples.description)%string
         then Response [Some "not json"]
         else Response [Some Samples.cooling]) 3.
Proof.
  apply (X3_every_attempt_sends_the_same_request JsonRef.loads
           (Samples.answers "not json")
           (fun n req =>
              if (n <? 3)%nat
                 && (req_user req
                     =? user_prompt Samples.self Samples.subject
                          Samples.description)%string
              then Response [Some "not json"]
              else Response [Some Samples.cooling])
           Samples.SYSTEM_PROMPT Samples.self Samples.subject
           Samples.description 3 0).
  intros i Hi. cbn [Nat.add]. unfold Samples.answers.
  cbn [build_request req_user]. rewrite String.eqb_refl.
  destruct (Nat.ltb_spec i 3) as [_|F]; [reflexivity|].
  exfalso. change (Z.to_nat 3) with 3 in Hi. lia.
Defined.

(** X4.  When no attempt decodes, the result tells of the last attempt
    only, whatever went wrong before it: the API error with the message
    of the exception that the last call raised; the API error of a last
    response without choices or without content; the parse error with
    the text and the message of the last refusal of the decoder.  The
    client has then been called [max_retries] times. *)
Theorem X4_result_reports_the_last_attempt
    (json_loads : string -> pyobj + py_exception)
    (create : nat -> request -> completion) (SYSTEM_PROMPT : string)
    (self : classifier) (subject description : string) (max_retries : Z)
    (calls : nat) :
  (0 < max_retries)%Z ->
  (forall i, i < Z.to_nat max_retries - 1 -> forall rt w,
      try_block json_loads rt
        (create (calls + i)
           (build_request SYSTEM_PROMPT self subject description))
      <> Parsed w) ->
  let last :=
    create (calls + (Z.to_nat max_retries - 1))
      (build_request SYSTEM_PROMPT self subject description) in
  let result :=
    classify_report json_loads create SYSTEM_PROMPT self subject description
      max_retries calls in
  (forall msg, last = Raises (OtherException msg) ->
               result = (Returns (api_error msg), calls + Z.to_nat max_retries))
  /\ (last = Response [] ->
      result = (Returns (api_error "list index out of range"),
                calls + Z.to_nat max_retries))
  /\ (forall rest, last = Response (None :: rest) ->
        result
        = (Returns (api_error "'NoneType' object has no attribute 'strip'"),
           calls + Z.to_nat max_retries))
  /\ (forall content rest msg,
        last = Response (Some content :: rest) ->
        json_loads (unfence (strip content)) = inr (JSONDecodeError msg) ->
        result = (Returns (parse_error (unfence (strip content)) msg),
                  calls + Z.to_nat max_retries)).
Proof.
  intros Hpos Hfail last result. subst last result. unfold classify_report.
  set (req := build_request SYSTEM_PROMPT self subject description) in *.
  set (m := Z.to_nat max_retries - 1) in *.
  assert (Em : Z.to_nat max_retries = m + 1) by (subst m; lia).
  unfold range. rewrite Em.
  destruct (attempts_skip json_loads create req max_retries m 0 0 None calls)
    as (rt' & E & _); [lia | exact Hfail |].
  rewrite E, attempts_last by lia.
  repeat apply conj.
  - intros msg ->. cbn [try_block]. f_equal. lia.
  - intros ->. cbn [try_block]. f_equal. lia.
  - intros rest ->. cbn [try_block]. f_equal. lia.
  - intros content rest msg -> Hj. cbn [try_block]. rewrite Hj. f_equal. lia.
Qed.

Lemma X4_witness :
  Samples.classify
    (fun n _ => if (n <? 2)%nat then Response [Some "not json"]
                else Raises (OtherException "Connection error.")) 3
  = (Returns (api_error "Connection error."), 0 + Z.to_nat 3).
Proof.
  refine (proj1 (X4_result_reports_the_last_attempt JsonRef.loads
                   (fun n _ => if (n <? 2)%nat then Response [Some "not json"]
                               else Raises (OtherException "Connection error."))
                   Samples.SYSTEM_PROMPT Samples.self Samples.subject
                   Samples.description 3 0 _ _) "Connection error." _).
  - reflexivity.
  - intros i Hi rt w. change (Z.to_nat 3 - 1) with 2 in Hi.
    destruct i as [|[|i]]; [discriminate | discriminate | lia].
  - reflexivity.
Defined.

(** X5.  The parse error can carry the text of an earlier attempt.  When
    attempt [j] binds [result_text] to a text that the decoder refuses,
    every later attempt ends in an exception raised by the client call,
    and the exception of the last attempt is a decode error, the handler
    of line 144 returns the message of that last exception together with
    the text of attempt [j] as [raw_response]. *)
Theorem X5_parse_error_with_the_text_of_an_earlier_attempt
    (json_loads : string -> pyobj + py_exception)
    (create : nat -> request -> completion) (SYSTEM_PROMPT : string)
    (self : classifier) (subject description : string) (max_retries : Z)
    (calls j : nat) (content : string) (rest : list (option string))
    (msg0 msg : string) :
  (Z.of_nat j < max_retries - 1)%Z ->
  (forall i, i < j -> forall rt w,
      try_block json_loads rt
        (create (calls + i)
           (build_request SYSTEM_PROMPT self subject description))
      <> Parsed w) ->
  create (calls + j) (build_request SYSTEM_PROMPT self subject description)
  = Response (Some content :: rest) ->
  json_loads (unfence (strip content)) = inr (JSONDecodeError msg0) ->
  (forall i, j < i -> i < Z.to_nat max_retries ->
      exists e,
        create (calls + i)
          (build_request SYSTEM_PROMPT self subject description)
        = Raises e) ->
  create (calls + (Z.to_nat max_retries - 1))
    (build_request SYSTEM_PROMPT self subject description)
  = Raises (JSONDecodeError msg) ->
  classify_report json_loads create SYSTEM_PROMPT self subject description
    max_retries calls
  = (Returns (parse_error (unfence (strip content)) msg),
     calls + Z.to_nat max_retries).
Proof.
  intros Hj Hfail Hc Hd Hraise Hlast. unfold classify_report.
  set (req := build_request SYSTEM_PROMPT self subject description) in *.
  set (n := Z.to_nat max_retries) in *.
  assert (Hn : j + 2 <= n) by (subst n; lia).
  unfold range. fold n.
  (* the attempts before attempt j *)
  replace n with (j + S (n - j - 1)) at 1 by lia.
  destruct (attempts_skip json_loads create req max_retries j (n - j - 1) 0
              None calls) as (rt0 & E0 & _); [lia | exact Hfail |].
  rewrite E0. clear E0.
  (* attempt j *)
  rewrite tail_of_range_cons. cbn [attempts]. rewrite Hc. cbn [try_block].
  rewrite Hd.
  replace (Z.of_nat (0 + j) =? max_retries - 1)%Z with false
    by (symmetry; apply Z.eqb_neq; lia).
  (* the attempts between attempt j and the last *)
  replace (n - j - 1) with ((n - j - 2) + 1) by lia.
  destruct (attempts_skip json_loads create req max_retries (n - j - 2) 0
              (S (0 + j)) (Some (unfence (strip content))) (S (calls + j)))
    as (rt1 & E1 & K1).
  - lia.
  - intros i Hi rt w.
    destruct (Hraise (S j + i)) as [e He]; [lia | lia |].
    replace (S (calls + j) + i) with (calls + (S j + i)) by lia.
    rewrite He. destruct e; discriminate.
  - rewrite E1, K1.
    + rewrite attempts_last by lia.
      replace (S (calls + j) + (n - j - 2)) with (calls + (n - 1)) by lia.
      rewrite Hlast. cbn [try_block]. f_equal. lia.
    + intros i Hi. destruct (Hraise (S j + i)) as [e He]; [lia | lia |].
      exists e. now replace (S (calls + j) + i) with (calls + (S j + i)) by lia.
Qed.

Lemma X5_witness :
  Samples.classify
    (fun n _ => if (n <? 1)%nat then Response [Some "not json"]
                else Raises (JSONDecodeError "Expecting value")) 3
  = (Returns (parse_error (unfence (strip "not json")) "Expecting value"),
     0 + Z.to_nat 3).
Proof.
  apply (X5_parse_error_with_the_text_of_an_earlier_attempt JsonRef.loads
           (fun n _ => if (n <? 1)%nat then Response [Some "not json"]
                       else Raises (JSONDecodeError "Expecting value"))
           Samples.SYSTEM_PROMPT Samples.self Samples.subject
           Samples.description 3 0 0 "not json" []
           "Expecting value: line 1 column 1 (char 0)" "Expecting value").
  - reflexivity.
  - intros i Hi. lia.
  - reflexivity.
  - reflexivity.
  - intros i H1 H2. change (Z.to_nat 3) with 3 in H2.
    destruct i as [|[|[|i]]]; [lia | eexists; reflexivity
                              | eexists; reflexivity | lia].
  - reflexivity.
Defined.

(** ** [classify_dataframe]: missing columns and client calls *)

Section Batch.

Variable json_loads : string -> pyobj + py_exception.
Variable create : nat -> request -> completion.
Variable SYSTEM_PROMPT : string.
Variable self : classifier.
Variable repr : pyobj -> string.

(** The client calls of the pass over the rows: three at most for each
    row, and one at least for each row when the pass is completed. *)
Lemma apply_rows_calls (frame : DataFrame) (subject_col description_col : string)
    (rows : list nat) :
  forall calls,
    calls
    <= snd (apply_rows json_loads create SYSTEM_PROMPT self repr frame
              subject_col description_col rows calls)
    <= calls + 3 * List.length rows
    /\ (forall results,
           fst (apply_rows json_loads create SYSTEM_PROMPT self repr frame
                  subject_col description_col rows calls) = Returns results ->
           calls + List.length rows
           <= snd (apply_rows json_loads create SYSTEM_PROMPT self repr frame
                     subject_col description_col rows calls)).
Proof.
  induction rows as [|i rows IH]; intros calls; cbn [apply_rows List.length].
  - cbn [fst snd]. split; [lia | intros; lia].
  - destruct (cell frame i subject_col) as [s|]; [|cbn [fst snd]; split;
                                                    [lia | discriminate]].
    destruct (cell frame i description_col) as [d|];
      [|cbn [fst snd]; split; [lia | discriminate]].
    pose proof (classify_report_calls json_loads create SYSTEM_PROMPT self
                  (py_str repr s) (py_str repr d) 3 calls) as [B1 B2].
    specialize (B2 eq_refl). change (Z.to_nat 3) with 3 in B1.
    destruct (classify_report json_loads create SYSTEM_PROMPT self
                (py_str repr s) (py_str repr d) 3 calls) as [[v|e] c1];
      cbn [snd] in B1, B2; [|cbn [fst snd]; split; [lia | discriminate]].
    destruct (IH c1) as [B3 B4].
    destruct (apply_rows json_loads create SYSTEM_PROMPT self repr frame
                subject_col description_col rows c1) as [[vs|e] c2];
      cbn [fst snd] in *.
    + split; [lia|]. intros ? _. specialize (B4 vs eq_refl). lia.
    + split; [lia | discriminate].
Qed.


End Batch.




(** X7.  On a table with rows, [classify_dataframe] calls the client at
    most three times for each row; when it returns, it has called the
    client at least once for each row. *)
Theorem X7_at_most_three_client_calls_per_row
    (json_loads : string -> pyobj + py_exception)
    (create : nat -> request -> completion) (SYSTEM_PROMPT : string)
    (self : classifier) (repr : pyobj -> string)
    (convert : list pyobj -> list pyobj)
    (on_empty : heap -> nat -> string -> string -> string -> nat ->
                outcome nat * heap * nat)
    (h : heap) (df : nat)
    (subject_col description_col output_col : string) (calls : nat) :
  0 < nrows (h df) ->
  let result :=
    classify_dataframe json_loads create SYSTEM_PROMPT self repr convert
      on_empty h df subject_col description_col output_col calls in
  calls <= snd result <= calls + 3 * nrows (h df)
  /\ (forall ref, fst (fst result) = Returns ref ->
                  calls + nrows (h df) <= snd result).
Proof.
  intros Hrows result. subst result. unfold classify_dataframe.
  destruct (nrows (h df)) as [|n] eqn:En; [lia|]. rewrite <- En. clear Hrows.
  destruct (apply_rows_calls json_loads create SYSTEM_PROMPT self repr (h df)
              subject_col description_col (seq 0 (nrows (h df))) calls)
    as [B1 B2].
  rewrite length_seq in B1, B2.
  destruct (apply_rows json_loads create SYSTEM_PROMPT self repr (h df)
              subject_col description_col (seq 0 (nrows (h df))) calls)
    as [[results|e] c]; cbn [fst snd] in *.
  - split; [exact B1|]. intros _ _. exact (B2 results eq_refl).
  - split; [exact B1 | discriminate].
Qed.

Lemma X7_witness :
  0 <= snd (Samples.classify_frame (Samples.answers "not json") Samples.frame)
  <= 0 + 3 * 1.
Proof.
  exact (proj1 (X7_at_most_three_client_calls_per_row JsonRef.loads
                  (Samples.answers "not json") Samples.SYSTEM_PROMPT
                  Samples.self Samples.repr Samples.convert Samples.on_empty
                  (Samples.heap_of Samples.frame)
                  0 "subject" "description" "llm_classification" 0
                  (Nat.lt_0_succ 0))).
Defined.

(** ** More on strings: pieces of a split, stripping *)

Lemma contains_step (sep : string) (a : ascii) (s : string) :
  contains sep (String a s) = prefix sep (String a s) || contains sep s.
Proof. cbn [contains]. now destruct (prefix sep (String a s)). Qed.

Lemma prefix_extend (p a x : string) :
  prefix p a = true -> prefix p (a ++ x) = true.
Proof.
  revert a. induction p as [|c p IH]; intros a.
  - intros _. now destruct (a ++ x).
  - destruct a as [|b a]; simpl; [discriminate|].
    destruct (ascii_dec c b); [apply IH | discriminate].
Qed.

Lemma prefix_empty (sep : string) :
  sep <> EmptyString -> prefix sep EmptyString = false.
Proof. destruct sep; [congruence | reflexivity]. Qed.

Lemma prefix_rebuild (sep s : string) :
  prefix sep s = true -> s = sep ++ drop (length sep) s.
Proof.
  revert s. induction sep as [|a sep IH]; intros s.
  - now destruct s.
  - destruct s as [|b s]; simpl; [discriminate|].
    destruct (ascii_dec a b) as [<-|]; [|discriminate].
    intros H. now rewrite <- (IH s H).
Qed.

(** What [partition] returns puts the text back together. *)
Lemma partition_rebuild (sep s : string) :
  forall before after,
    partition sep s = Some (before, after) -> s = before ++ sep ++ after.
Proof.
  induction s as [|c s IH]; intros before after; cbn [partition].
  - destruct (prefix sep EmptyString) eqn:E; [|discriminate].
    intros F. injection F as <- <-. exact (prefix_rebuild _ _ E).
  - destruct (prefix sep (String c s)) eqn:E.
    + intros F. injection F as <- <-. exact (prefix_rebuild _ _ E).
    + destruct (partition sep s) as [[b a]|] eqn:P; [|discriminate].
      intros F. injection F as <- <-. cbn [append].
      now rewrite <- (IH b a eq_refl).
Qed.

(** The separator does not occur before the place where [partition]
    finds it. *)
Lemma partition_before_free (sep s : string) :
  sep <> EmptyString ->
  forall before after,
    partition sep s = Some (before, after) -> contains sep before = false.
Proof.
  intros Hsep. induction s as [|c s IH]; intros before after; cbn [partition].
  - destruct (prefix sep EmptyString); [|discriminate].
    intros F. injection F as <- <-. cbn [contains].
    now rewrite (prefix_empty _ Hsep).
  - destruct (prefix sep (String c s)) eqn:E.
    + intros F. injection F as <- <-. cbn [contains].
      now rewrite (prefix_empty _ Hsep).
    + destruct (partition sep s) as [[b a]|] eqn:P; [|discriminate].
      intros F. injection F as <- <-.
      rewrite contains_step, (IH b a eq_refl), orb_false_r.
      destruct (prefix sep (String c b)) eqn:Q; [|reflexivity].
      apply (prefix_extend _ _ (sep ++ a)) in Q. cbn [append] in Q.
      rewrite <- (partition_rebuild _ _ _ _ P) in Q. congruence.
Qed.

Lemma partition_none_free (sep s : string) :
  partition sep s = None -> contains sep s = false.
Proof.
  intros H. destruct (contains sep s) eqn:E; [|reflexivity].
  destruct (partition_contains _ _ E) as (b & a & P). congruence.
Qed.

(** No piece of a split holds the separator. *)
Lemma split_loop_pieces_free (sep : string) :
  sep <> EmptyString ->
  forall n s, length s <= n ->
              Forall (fun piece => contains sep piece = false)
                     (split_loop n sep s).
Proof.
  intros Hsep. induction n as [|n IH]; intros s L; cbn [split_loop].
  - destruct s; [|cbn in L; lia]. constructor; [|constructor].
    cbn [contains]. now rewrite (prefix_empty _ Hsep).
  - destruct (partition sep s) as [[b a]|] eqn:P.
    + constructor; [exact (partition_before_free _ _ Hsep _ _ P)|].
      apply IH. pose proof (partition_length _ _ _ _ P).
      assert (0 < length sep) by (destruct sep; [congruence | cbn; lia]).
      lia.
    + constructor; [exact (partition_none_free _ _ P) | constructor].
Qed.

Lemma split_item_free (sep s : string) (i : nat) :
  sep <> EmptyString -> contains sep (item (split sep s) i) = false.
Proof.
  intros Hsep. unfold item, split.
  pose proof (split_loop_pieces_free sep Hsep (length s) s (le_n _)) as F.
  destruct (nth_in_or_default i (split_loop (length s) sep s) EmptyString)
    as [I| ->].
  - rewrite Forall_forall in F. exact (F _ I).
  - cbn [contains]. now rewrite (prefix_empty _ Hsep).
Qed.

Lemma split_not_empty (sep s : string) : 1 <= List.length (split sep s).
Proof.
  unfold split. destruct (length s); cbn [split_loop List.length]; [lia|].
  destruct (partition sep s) as [[? ?]|]; cbn [List.length]; lia.
Qed.

(** Stripping keeps a part of the text. *)
Lemma contains_extend (sep a x : string) :
  contains sep a = true -> contains sep (a ++ x) = true.
Proof.
  induction a as [|c a IH].
  - cbn [contains]. destruct (prefix sep EmptyString) eqn:E; [|discriminate].
    intros _. apply contains_here. exact (prefix_extend _ _ x E).
  - cbn [append]. rewrite !contains_step. intros H.
    apply orb_true_iff in H as [H|H].
    + apply (prefix_extend _ _ x) in H. cbn [append] in H. now rewrite H.
    + rewrite (IH H). apply orb_true_r.
Qed.

Lemma contains_lstrip (sep s : string) :
  contains sep (lstrip s) = true -> contains sep s = true.
Proof.
  induction s as [|c s IH]; cbn [lstrip]; [auto|].
  destruct (isspace c); [|auto].
  intros H. rewrite contains_step, (IH H). apply orb_true_r.
Qed.

Lemma rstrip_rebuild (s : string) : exists w, s = rstrip s ++ w.
Proof.
  induction s as [|c s [w IH]]; [now exists EmptyString|].
  cbn [rstrip]. destruct (rstrip s) as [|d r] eqn:R.
  - destruct (isspace c).
    + now exists (String c s).
    + exists w. cbn [append] in *. now rewrite <- IH.
  - exists w. cbn [append] in *. now rewrite <- IH.
Qed.

Lemma contains_rstrip (sep s : string) :
  contains sep (rstrip s) = true -> contains sep s = true.
Proof.
  intros H. destruct (rstrip_rebuild s) as [w E]. rewrite E.
  now apply contains_extend.
Qed.

Lemma contains_strip (sep s : string) :
  contains sep s = false -> contains sep (strip s) = false.
Proof.
  intros H. destruct (contains sep (strip s)) eqn:E; [|reflexivity].
  unfold strip in E. apply contains_rstrip, contains_lstrip in E. congruence.
Qed.

(** Stripping twice is stripping once. *)
Lemma rstrip_rstrip (s : string) : rstrip (rstrip s) = rstrip s.
Proof.
  induction s as [|c s IH]; [reflexivity|].
  cbn [rstrip]. destruct (rstrip s) as [|d r] eqn:R.
  - destruct (isspace c) eqn:W; [reflexivity|].
    cbn [rstrip]. now rewrite W.
  - cbn [rstrip]. cbn [rstrip] in IH. rewrite IH. reflexivity.
Qed.

Lemma lstrip_rstrip (s : string) :
  lstrip s = s -> lstrip (rstrip s) = rstrip s.
Proof.
  destruct s as [|c s]; [reflexivity|].
  cbn [lstrip rstrip]. destruct (isspace c) eqn:W.
  - intros H. exfalso.
    assert (L : forall t, length (lstrip t) <= length t).
    { induction t as [|a t IHt]; cbn [lstrip length]; [lia|].
      destruct (isspace a); cbn [length]; lia. }
    specialize (L s). rewrite H in L. cbn [length] in L. lia.
  - intros _. destruct (rstrip s); cbn [lstrip]; now rewrite W.
Qed.

Lemma lstrip_lstrip (s : string) : lstrip (lstrip s) = lstrip s.
Proof.
  induction s as [|c s IH]; [reflexivity|].
  cbn [lstrip]. destruct (isspace c) eqn:W; [exact IH|].
  cbn [lstrip]. now rewrite W.
Qed.

Lemma strip_strip (s : string) : strip (strip s) = strip s.
Proof.
  unfold strip. rewrite (lstrip_rstrip _ (lstrip_lstrip s)).
  apply rstrip_rstrip.
Qed.

Lemma fence_not_empty : fence <> EmptyString.
Proof. discriminate. Qed.

Lemma fence_json_not_empty : fence_json <> EmptyString.
Proof. discriminate. Qed.

(** ** [classify_report]: the fence handling of lines 136 to 139 *)

(** X8.  The list indices of lines 137 and 139 are in range, so the
    fence handling raises no [IndexError]: a text that holds the fence
    the branch tests for splits at it into two pieces at least, and the
    piece that is split again gives one piece at least. *)
Theorem X8_fence_indices_in_range (result_text : string) :
  (contains fence_json result_text = true ->
   2 <= List.length (split fence_json result_text)
   /\ 1 <= List.length (split fence (item (split fence_json result_text) 1)))
  /\ (contains fence result_text = true ->
      2 <= List.length (split fence result_text)
      /\ 1 <= List.length (split fence (item (split fence result_text) 1))).
Proof.
  split; intros H; (split; [|apply split_not_empty]).
  - exact (split_in_range _ _ H fence_json_not_empty).
  - exact (split_in_range _ _ H fence_not_empty).
Qed.

(** X9.  Whenever the response holds a fence, the text handed to the
    decoder holds none, and it has no white space at either end. *)
Theorem X9_decoded_text_holds_no_fence (result_text : string) :
  contains fence result_text = true ->
  contains fence (unfence result_text) = false
  /\ strip (unfence result_text) = unfence result_text.
Proof.
  intros H. unfold unfence. rewrite H.
  destruct (contains fence_json result_text); split;
    try apply strip_strip;
    apply contains_strip, split_item_free, fence_not_empty.
Qed.

Lemma X9_witness :
  contains fence (unfence (fenced_block "python" Samples.cooling)) = false
  /\ strip (unfence (fenced_block "python" Samples.cooling))
     = unfence (fenced_block "python" Samples.cooling).
Proof.
  apply (X9_decoded_text_holds_no_fence
           (fenced_block "python" Samples.cooling)).
  reflexivity.
Defined.

(** X10.  A fenced block that is not closed is read to the end of the
    text: after the fence tagged [json], or after a bare fence in a text
    without the tagged fence, with no back quote before the fence and no
    fence after it, the decoder is handed all that follows the opening
    fence, stripped. *)
Theorem X10_unclosed_fence_is_read_to_the_end (pre body : string) :
  free_of tick pre = true -> contains fence body = false ->
  unfence (pre ++ fence_json ++ body) = strip body
  /\ (contains fence_json (pre ++ fence ++ body) = false ->
      unfence (pre ++ fence ++ body) = strip body).
Proof.
  intros Hpre Hbody.
  assert (Whole : item (split fence body) 0 = body).
  { unfold split.
    now rewrite (split_loop_whole _ _ _ (contains_partition _ _ Hbody)). }
  split.
  - unfold unfence. rewrite contains_append.
    assert (P : partition fence_json (pre ++ fence_json ++ body)
                = Some (pre, body))
      by (apply (partition_skip tick "``json"); exact Hpre).
    destruct (split_first _ _ _ _ P) as [_ E].
    { intros F. apply (f_equal length) in F.
      rewrite !length_append in F. simpl in F. lia. }
    rewrite E.
    rewrite (split_loop_whole _ _ _
               (contains_partition _ _ (contains_fence_json _ Hbody))).
    cbn [item nth]. fold (item (split fence body) 0). now rewrite Whole.
  - intros Hjson. unfold unfence. rewrite Hjson, contains_append.
    assert (P : partition fence (pre ++ fence ++ body) = Some (pre, body))
      by (apply (partition_skip tick "``"); exact Hpre).
    destruct (split_first _ _ _ _ P) as [_ E].
    { intros F. apply (f_equal length) in F.
      rewrite !length_append in F. simpl in F. lia. }
    rewrite E.
    rewrite (split_loop_whole _ _ _ (contains_partition _ _ Hbody)).
    cbn [item nth]. fold (item (split fence body) 0). now rewrite Whole.
Qed.

Lemma X10_witness :
  unfence ("Here it is:" ++ nl ++ fence_json ++ nl ++ Samples.cooling)
  = strip (nl ++ Samples.cooling).
Proof.
  exact (proj1 (X10_unclosed_fence_is_read_to_the_end
                  ("Here it is:" ++ nl) (nl ++ Samples.cooling)
                  eq_refl eq_refl)).
Defined.

(** ** The constructor of the classifier *)

(** X11.  The constructor raises [ValueError] exactly when neither the
    argument [api_key] nor the environment variable [OPENAI_API_KEY]
    holds a non-empty string.  Otherwise the key handed to the client is
    the argument when that is a non-empty string, and the environment
    variable when the argument is [None] or empty; the object keeps the
    model name and the few-shot block of [_format_examples]. *)
Theorem X11_constructor_needs_a_key (getenv : string -> option string)
    (api_key : option string) (model : string) :
  ((exists msg, __init__ getenv api_key model = ValueError msg)
   <-> truthy api_key = false /\ truthy (getenv "OPENAI_API_KEY") = false)
  /\ (forall key, api_key = Some key -> key <> EmptyString ->
        __init__ getenv api_key model
        = Built key {| linac_failure_classifier.model := model;
                       formatted_examples := _format_examples EXAMPLES |})
  /\ (forall key, truthy api_key = false ->
        getenv "OPENAI_API_KEY" = Some key -> key <> EmptyString ->
        __init__ getenv api_key model
        = Built key {| linac_failure_classifier.model := model;
                       formatted_examples := _format_examples EXAMPLES |}).
Proof.
  unfold __init__, py_or. split; [|split].
  - destruct api_key as [[|c k]|]; cbn [truthy];
      destruct (getenv "OPENAI_API_KEY") as [[|c' k']|]; cbn [truthy];
      (split; [intros [msg E]; first [discriminate E | auto]
              |intros [E1 E2]; first [discriminate | eauto]]).
  - intros key -> Hk. destruct key as [|c k]; [congruence | reflexivity].
  - intros key Ht -> Hk. rewrite Ht.
    destruct key as [|c k]; [congruence | reflexivity].
Qed.

(** ** Paths and file names *)

Lemma rfind_from_free (c : ascii) (s : string) :
  free_of c s = true -> forall i, rfind_from c i s = None.
Proof.
  induction s as [|a s IH]; intros H i; cbn [rfind_from]; [reflexivity|].
  cbn [free_of] in H. apply andb_true_iff in H as [Ha Hs].
  rewrite (IH Hs). apply negb_true_iff in Ha. now rewrite Ha.
Qed.

Lemma rfind_free (c : ascii) (s : string) :
  free_of c s = true -> rfind c s = None.
Proof. intros H. unfold rfind. now apply rfind_from_free. Qed.

Lemma rfind_from_append_free (c : ascii) (x f : string) :
  free_of c f = true ->
  forall i, rfind_from c i (x ++ f) = rfind_from c i x.
Proof.
  intros Hf. induction x as [|a x IH]; intros i; cbn [append rfind_from].
  - now apply rfind_from_free.
  - now rewrite IH.
Qed.

Lemma rfind_from_last (c : ascii) (y : string) :
  forall i, rfind_from c i (y ++ String c EmptyString) = Some (i + length y).
Proof.
  induction y as [|a y IH]; intros i; cbn [append rfind_from length].
  - rewrite Ascii.eqb_refl. f_equal. lia.
  - rewrite IH. f_equal. lia.
Qed.

(** The last occurrence of [c] in a text that goes on without [c]. *)
Lemma rfind_last (c : ascii) (y f : string) :
  free_of c f = true -> rfind c (y ++ String c f) = Some (length y).
Proof.
  intros Hf. unfold rfind.
  change (String c f) with (String c EmptyString ++ f).
  rewrite <- append_assoc, (rfind_from_append_free c _ f Hf).
  now rewrite rfind_from_last.
Qed.

Lemma endswith_rebuild (s suffix : string) :
  endswith s suffix = true -> exists y, s = y ++ suffix.
Proof.
  induction s as [|c s IH]; cbn [endswith].
  - destruct (String.eqb_spec EmptyString suffix) as [<-|]; [|discriminate].
    now exists EmptyString.
  - destruct (String.eqb_spec (String c s) suffix) as [<-|].
    + now exists EmptyString.
    + intros H. destruct (IH H) as [y ->]. now exists (String c y).
Qed.

Lemma endswith_append (y suffix : string) : endswith (y ++ suffix) suffix = true.
Proof.
  induction y as [|c y IH]; cbn [append].
  - destruct suffix; cbn [endswith]; now rewrite String.eqb_refl.
  - cbn [endswith]. rewrite IH. now destruct (String.eqb _ suffix).
Qed.

Lemma prefix_slash_free (f : string) :
  free_of "/" f = true -> prefix "/" f = false.
Proof.
  destruct f as [|a f]; [reflexivity|]. cbn [free_of]. intros H.
  apply andb_true_iff in H as [Ha _]. apply negb_true_iff in Ha.
  rewrite Ascii.eqb_sym in Ha. now apply prefix_head.
Qed.

(** The last component of the path that [join] makes of a folder and a
    name without slash is that name. *)
Lemma basename_join (folder f : string) :
  free_of "/" f = true -> OsPath.basename (OsPath.join folder f) = f.
Proof.
  intros Hf.
  assert (Cut : forall y, OsPath.basename (y ++ String "/" f) = f).
  { intros y. unfold OsPath.basename. rewrite (rfind_last _ _ _ Hf).
    change (String "/" f) with (String "/" EmptyString ++ f).
    rewrite <- append_assoc.
    replace (S (length y)) with (length (y ++ String "/" EmptyString))
      by (rewrite length_append; cbn [length]; lia).
    apply drop_append. }
  unfold OsPath.join. rewrite (prefix_slash_free _ Hf).
  destruct (String.eqb_spec folder EmptyString) as [->|Hne]; cbn [orb].
  - cbn [append]. unfold OsPath.basename.
    now rewrite (rfind_free _ _ Hf).
  - destruct (endswith folder "/") eqn:E.
    + destruct (endswith_rebuild _ _ E) as [y ->].
      rewrite append_assoc. exact (Cut y).
    + exact (Cut folder).
Qed.

Lemma substring_prefix (a b : string) : substring 0 (length a) (a ++ b) = a.
Proof.
  induction a as [|c a IH]; cbn [append length substring].
  - apply substring_0_0.
  - now rewrite IH.
Qed.

Lemma drop_prefix (a b : string) : drop (length a) (a ++ b) = b.
Proof. apply drop_append. Qed.

(** [splitext] on a name without slash: the extension is what follows
    the last dot, unless dots alone precede it. *)
Lemma splitext_name (stem e : string) :
  free_of "/" (stem ++ String "." e) = true -> free_of "." e = true ->
  OsPath.splitext (stem ++ String "." e)
  = if OsPath.all_dots stem then (stem ++ String "." e, EmptyString)
    else (stem, String "." e).
Proof.
  intros Hs He. unfold OsPath.splitext.
  rewrite (rfind_last _ _ _ He), (rfind_free _ _ Hs).
  cbn [Nat.leb andb]. rewrite Nat.sub_0_r.
  unfold take. rewrite substring_prefix, drop_prefix.
  now destruct (OsPath.all_dots stem).
Qed.

(** X12.  The second and the third extractor name a document by its file
    name without the extension: for a file [stem.e] of the folder, with
    no slash in the name and no dot in [e], the field [file_name] is
    [stem], whatever the folder path; a name whose stem is empty or made
    of dots only is kept whole. *)
Theorem X12_file_name_without_extension (folder stem e : string) :
  free_of "/" (stem ++ String "." e) = true -> free_of "." e = true ->
  let file_name :=
    PyStr (if OsPath.all_dots stem then stem ++ String "." e else stem) in
  (forall pages,
      dict_get "file_name"
        (report_type2_processing.extract_report_data pages
           (OsPath.join folder (stem ++ String "." e)))
      = Some file_name)
  /\ (forall pages,
         dict_get "file_name"
           (report_type3_processing.extract_report_data pages
              (OsPath.join folder (stem ++ String "." e)))
         = Some file_name).
Proof.
  intros Hs He file_name. subst file_name.
  split; intros pages;
    [unfold report_type2_processing.extract_report_data;
     rewrite (proj2 (type2_record_stamps _ _))
    |unfold report_type3_processing.extract_report_data;
     rewrite (proj2 (type3_record_stamps _ _))];
    rewrite (basename_join _ _ Hs), (splitext_name _ _ Hs He);
    now destruct (OsPath.all_dots stem).
Qed.

Lemma X12_witness :
  dict_get "file_name"
    (report_type2_processing.extract_report_data Samples.pages2
       (OsPath.join "reports" "SR 4711.v2.pdf"))
  = Some (PyStr "SR 4711.v2").
Proof.
  exact (proj1 (X12_file_name_without_extension "reports" "SR 4711.v2" "pdf"
                  eq_refl eq_refl) Samples.pages2).
Defined.

(** X13.  The script of the first extractor names a document by its
    whole file name, extension included: when no name of the directory
    holds a slash, the table it builds is the table of the records of
    the names kept, in order, each with that name as [file_name]. *)
Theorem X13_first_script_keeps_the_whole_file_name
    (pages : string -> list (option string))
    (listdir : string -> list string) (directory_path : string) :
  (forall f, In f (listdir directory_path) -> free_of "/" f = true) ->
  report_type1_processing.df_results pages listdir directory_path
  = from_records
      (map (fun f =>
              dict_set "file_name" (PyStr f)
                (report_type1_processing.extract_data_from_pdf pages
                   (OsPath.join directory_path f)))
           (report_type1_processing.pdf_names listdir directory_path)).
Proof.
  intros H. unfold report_type1_processing.df_results,
    report_type1_processing.process_multiple_pdfs,
    report_type1_processing.results, report_type1_processing.pdf_files.
  f_equal. rewrite map_map. apply map_ext_in. intros f Hf.
  unfold report_type1_processing.pdf_names in Hf.
  apply filter_In in Hf as [Hf _]. now rewrite (basename_join _ _ (H f Hf)).
Qed.

Lemma X13_witness :
  dict_get "file_name"
    (row (report_type1_processing.df_results Samples.pages1
            Samples.listdir2 "reports") 0)
  = Some (PyStr "a.pdf").
Proof.
  rewrite (X13_first_script_keeps_the_whole_file_name Samples.pages1
             Samples.listdir2 "reports").
  - reflexivity.
  - intros f [<-|[<-|[<-|[]]]]; reflexivity.
Defined.

(** ** Which files a folder contributes *)

Lemma lower_append (a b : string) : lower (a ++ b) = lower a ++ lower b.
Proof. induction a as [|c a IH]; cbn [append lower]; [reflexivity | now rewrite IH]. Qed.

(** Two texts that end alike in pieces of the same length end in the
    same piece. *)
Lemma append_same_length (a c b d : string) :
  a ++ b = c ++ d -> length b = length d -> b = d.
Proof.
  revert c. induction a as [|x a IH]; intros c E L.
  - destruct c as [|y c]; [exact E|]. exfalso.
    apply (f_equal length) in E. cbn [append length] in E.
    rewrite length_append in E. lia.
  - destruct c as [|y c].
    + exfalso. apply (f_equal length) in E. cbn [append length] in E.
      rewrite length_append in E. lia.
    + cbn [append] in E. injection E as _ E. exact (IH c E L).
Qed.

Lemma filter_none {A : Type} (f : A -> bool) (l : list A) :
  (forall x, In x l -> f x = false) -> filter f l = [].
Proof.
  induction l as [|a l IH]; intros H; cbn [filter]; [reflexivity|].
  rewrite (H a (or_introl eq_refl)). apply IH. intros x Hx. apply H. now right.
Qed.

(** X14.  A file that the script of the first extractor takes from a
    folder is taken by the second and the third extractor as well; not
    the other way round: the first script wants the ending [.pdf] in
    lower case, so a name that ends in [.PDF] is passed over by the
    first script and taken by the other two. *)
Theorem X14_first_script_passes_over_upper_case_endings
    (listdir : string -> list string) (folder : string) :
  (forall f, In f (report_type1_processing.pdf_names listdir folder) ->
             In f (report_type2_processing.pdf_files listdir folder)
             /\ In f (report_type3_processing.pdf_files listdir folder))
  /\ (forall stem, In (stem ++ ".PDF") (listdir folder) ->
        ~ In (stem ++ ".PDF") (report_type1_processing.pdf_names listdir folder)
        /\ In (stem ++ ".PDF") (report_type2_processing.pdf_files listdir folder)
        /\ In (stem ++ ".PDF")
              (report_type3_processing.pdf_files listdir folder)).
Proof.
  assert (Up : forall stem, report_type2_processing.is_pdf (stem ++ ".PDF") = true).
  { intros stem. unfold report_type2_processing.is_pdf.
    rewrite lower_append. apply endswith_append. }
  split.
  - intros f Hf. unfold report_type1_processing.pdf_names in Hf.
    apply filter_In in Hf as [Hin He].
    destruct (endswith_rebuild _ _ He) as [y ->].
    assert (P : report_type2_processing.is_pdf (y ++ ".pdf") = true).
    { unfold report_type2_processing.is_pdf. rewrite lower_append.
      apply endswith_append. }
    split; apply filter_In; split; assumption.
  - intros stem Hin. repeat split.
    + unfold report_type1_processing.pdf_names. intros H.
      apply filter_In in H as [_ He].
      destruct (endswith_rebuild _ _ He) as [y E].
      apply append_same_length in E; [discriminate | reflexivity].
    + apply filter_In. split; [exact Hin | apply Up].
    + apply filter_In. split; [exact Hin | apply Up].
Qed.

Lemma X14_witness :
  ~ In ("B" ++ ".PDF") (report_type1_processing.pdf_names Samples.listdir2 "reports")
  /\ In ("B" ++ ".PDF") (report_type2_processing.pdf_files Samples.listdir2 "reports")
  /\ In ("B" ++ ".PDF") (report_type3_processing.pdf_files Samples.listdir2 "reports").
Proof.
  apply (proj2 (X14_first_script_passes_over_upper_case_endings
                  Samples.listdir2 "reports") "B").
  cbn. tauto.
Defined.

(** X15.  A folder without a file that ends in [.pdf] gives a table
    without rows and without columns: the fourteen columns of the data
    model are not there.  So does an empty list of files given to
    [process_multiple_pdfs]. *)
Theorem X15_no_document_no_column :
  (forall pages,
      report_type1_processing.process_multiple_pdfs pages []
      = {| nrows := 0; columns := [] |})
  /\ (forall pages listdir directory_path,
         (forall f, In f (listdir directory_path) -> endswith f ".pdf" = false) ->
         report_type1_processing.df_results pages listdir directory_path
         = {| nrows := 0; columns := [] |})
  /\ (forall pages listdir folder_path,
         (forall f, In f (listdir folder_path) ->
                    report_type2_processing.is_pdf f = false) ->
         report_type2_processing.extract_from_folder pages listdir folder_path
         = {| nrows := 0; columns := [] |})
  /\ (forall pages listdir folder_path,
         (forall f, In f (listdir folder_path) ->
                    report_type3_processing.is_pdf f = false) ->
         report_type3_processing.extract_from_folder pages listdir folder_path
         = {| nrows := 0; columns := [] |}).
Proof.
  repeat apply conj.
  - reflexivity.
  - intros pages listdir directory_path H.
    unfold report_type1_processing.df_results,
      report_type1_processing.pdf_files, report_type1_processing.pdf_names.
    now rewrite (filter_none _ _ H).
  - intros pages listdir folder_path H.
    unfold report_type2_processing.extract_from_folder,
      report_type2_processing.data, report_type2_processing.pdf_files.
    now rewrite (filter_none _ _ H).
  - intros pages listdir folder_path H.
    unfold report_type3_processing.extract_from_folder,
      report_type3_processing.data, report_type3_processing.pdf_files.
    now rewrite (filter_none _ _ H).
Qed.

Lemma X15_witness :
  report_type2_processing.extract_from_folder Samples.pages2
    (fun _ => ["notes.txt"; "scan.png"]) "reports"
  = {| nrows := 0; columns := [] |}.
Proof.
  apply (proj1 (proj2 (proj2 X15_no_document_no_column))).
  intros f [<-|[<-|[]]]; reflexivity.
Defined.

(** X16.  A document without text (every page gives [None] or the empty
    string, as a scanned report does) is not refused by the first
    extractor: its record has [None] in the twelve fields that come from
    a pattern, and the constant [report_source]. *)
Theorem X16_document_without_text
    (pages : string -> list (option string)) (pdf_path : string) :
  (forall t, In t (pages pdf_path) -> t = None \/ t = Some EmptyString) ->
  report_type1_processing.extract_data_from_pdf pages pdf_path
  = (map (fun kp => (fst kp, PyNone)) report_type1_processing.patterns
     ++ [("report_source", PyStr "varian")])%list.
Proof.
  intros H. unfold report_type1_processing.extract_data_from_pdf.
  assert (E : report_type1_processing.read_text pages pdf_path = EmptyString).
  { unfold report_type1_processing.read_text.
    induction (pages pdf_path) as [|t l IH]; [reflexivity|].
    cbn [flat_map].
    destruct (H t (or_introl eq_refl)) as [-> | ->]; cbn [app];
      apply IH; intros u Hu; apply H; now right. }
  rewrite E. reflexivity.
Qed.

Lemma X16_witness :
  report_type1_processing.extract_data_from_pdf Samples.pages1 "reports/b.pdf"
  = (map (fun kp => (fst kp, PyNone)) report_type1_processing.patterns
     ++ [("report_source", PyStr "varian")])%list.
Proof.
  apply (X16_document_without_text Samples.pages1 "reports/b.pdf").
  intros t [<-|[]]. now left.
Defined.

(** ** What a match holds *)

Lemma match_lit_rebuild (lit s rest : string) :
  match_lit lit s = Some rest -> s = lit ++ rest.
Proof.
  revert s. induction lit as [|a lit IH]; intros s; cbn [match_lit].
  - intros E. now injection E as ->.
  - destruct s as [|b s]; [discriminate|].
    destruct (Ascii.eqb_spec a b) as [<-|]; [|discriminate].
    intros E. cbn [append]. now rewrite (IH s E).
Qed.

(** A repetition takes characters of its class, as many as its bounds
    allow, and hands over to what follows. *)
Lemma rep_sound (dotall : bool) (k : cclass) (greedy : bool) (next : cont)
    (s : string) :
  forall lo hi pos cs res,
    rep dotall k greedy lo hi next pos s cs = Some res ->
    exists w rest,
      s = w ++ rest
      /\ all_chars (class_matches dotall k) w = true
      /\ lo <= length w
      /\ (forall h, hi = Some h -> length w <= h)
      /\ next (pos + length w) rest cs = Some res.
Proof.
  induction s as [|c s IH]; intros lo hi pos cs res.
  - assert (Stop : (if (lo =? 0)%nat then next pos EmptyString cs else None)
                   = Some res ->
                   exists w rest,
                     EmptyString = w ++ rest
                     /\ all_chars (class_matches dotall k) w = true
                     /\ lo <= length w
                     /\ (forall h, hi = Some h -> length w <= h)
                     /\ next (pos + length w) rest cs = Some res).
    { destruct (Nat.eqb_spec lo 0) as [->|]; [|discriminate]. intros E.
      exists EmptyString, EmptyString. cbn [length append all_chars].
      rewrite Nat.add_0_r. repeat split; [lia | intros; lia | exact E]. }
    cbn [rep]. destruct greedy; intros E; apply orelse_some in E as [E|E];
      try discriminate; exact (Stop E).
  - assert (Stop : (if (lo =? 0)%nat then next pos (String c s) cs else None)
                   = Some res ->
                   exists w rest,
                     String c s = w ++ rest
                     /\ all_chars (class_matches dotall k) w = true
                     /\ lo <= length w
                     /\ (forall h, hi = Some h -> length w <= h)
                     /\ next (pos + length w) rest cs = Some res).
    { destruct (Nat.eqb_spec lo 0) as [->|]; [|discriminate]. intros E.
      exists EmptyString, (String c s). cbn [length append all_chars].
      rewrite Nat.add_0_r. repeat split; [lia | intros; lia | exact E]. }
    assert (More : (if may_take hi && class_matches dotall k c
                    then rep dotall k greedy (pred lo) (dec hi) next (S pos) s cs
                    else None) = Some res ->
                   exists w rest,
                     String c s = w ++ rest
                     /\ all_chars (class_matches dotall k) w = true
                     /\ lo <= length w
                     /\ (forall h, hi = Some h -> length w <= h)
                     /\ next (pos + length w) rest cs = Some res).
    { destruct (may_take hi && class_matches dotall k c) eqn:T;
        [|discriminate].
      apply andb_true_iff in T as [Tm Tc]. intros E.
      destruct (IH _ _ _ _ _ E) as (w & rest & -> & A & L & H & N).
      exists (String c w), rest. cbn [append all_chars length].
      rewrite Tc, A. repeat split.
      - lia.
      - intros h ->. destruct h as [|h]; [discriminate|].
        specialize (H h eq_refl). lia.
      - now replace (pos + S (length w)) with (S pos + length w) by lia. }
    cbn [rep]. destruct greedy; intros E; apply orelse_some in E as [E|E];
      first [exact (Stop E) | exact (More E)].
Qed.

Lemma substring_middle (pre w rest : string) :
  substring (length pre) (length w) (pre ++ w ++ rest) = w.
Proof.
  rewrite <- (Nat.add_0_r (length pre)), substring_skip.
  apply substring_prefix.
Qed.

Lemma sound_capture_seq_l (dotall : bool) (text : string) (r1 r2 : regex)
    (c : nat * (nat * nat)) :
  sound_capture dotall text r1 c -> sound_capture dotall text (Seq r1 r2) c.
Proof.
  intros (L & r' & I & D). split; [exact L|]. exists r'. split; [|exact D].
  cbn [bodies]. apply in_or_app. now left.
Qed.

Lemma sound_capture_seq_r (dotall : bool) (text : string) (r1 r2 : regex)
    (c : nat * (nat * nat)) :
  sound_capture dotall text r2 c -> sound_capture dotall text (Seq r1 r2) c.
Proof.
  intros (L & r' & I & D). split; [exact L|]. exists r'. split; [|exact D].
  cbn [bodies]. apply in_or_app. now right.
Qed.

Lemma sound_capture_alt_l (dotall : bool) (text : string) (r1 r2 : regex)
    (c : nat * (nat * nat)) :
  sound_capture dotall text r1 c -> sound_capture dotall text (Alt r1 r2) c.
Proof.
  intros (L & r' & I & D). split; [exact L|]. exists r'. split; [|exact D].
  cbn [bodies]. apply in_or_app. now left.
Qed.

Lemma sound_capture_alt_r (dotall : bool) (text : string) (r1 r2 : regex)
    (c : nat * (nat * nat)) :
  sound_capture dotall text r2 c -> sound_capture dotall text (Alt r1 r2) c.
Proof.
  intros (L & r' & I & D). split; [exact L|]. exists r'. split; [|exact D].
  cbn [bodies]. apply in_or_app. now right.
Qed.

Lemma sound_capture_group (dotall : bool) (text : string) (i : nat)
    (r1 : regex) (c : nat * (nat * nat)) :
  sound_capture dotall text r1 c -> sound_capture dotall text (Group i r1) c.
Proof.
  intros (L & r' & I & D). split; [exact L|]. exists r'. split; [|exact D].
  cbn [bodies]. apply in_or_app. now right.
Qed.

(** A successful run of a pattern at a place of the text has matched a
    text of the pattern there and goes on behind it; the groups it has
    added hold texts of the patterns between their parentheses. *)
Lemma run_sound (dotall : bool) (text : string) (r : regex) :
  forall next pre s cs res,
    text = pre ++ s ->
    run dotall r next (length pre) s cs = Some res ->
    exists w rest cs',
      s = w ++ rest
      /\ denotes dotall r w
      /\ next (length pre + length w) rest cs' = Some res
      /\ (forall c, In c cs' -> In c cs \/ sound_capture dotall text r c).
Proof.
  induction r as [l|k|k lo hi g|r1 IH1 r2 IH2|r1 IH1 r2 IH2|i r1 IH1];
    intros next pre s cs res Ht; cbn [run].
  - destruct (match_lit l s) as [rest|] eqn:M; [|discriminate].
    intros E. exists l, rest, cs.
    repeat split; [exact (match_lit_rebuild _ _ _ M) | exact E | auto].
  - destruct s as [|c s]; [discriminate|].
    destruct (class_matches dotall k c) eqn:K; [|discriminate].
    intros E. exists (String c EmptyString), s, cs. cbn [length append].
    repeat split.
    + exists c. auto.
    + now replace (length pre + 1) with (S (length pre)) by lia.
    + auto.
  - intros E.
    destruct (rep_sound _ _ _ _ _ _ _ _ _ _ E) as (w & rest & -> & A & L & H & N).
    exists w, rest, cs. repeat split; auto.
  - intros E.
    destruct (IH1 _ _ _ _ _ Ht E) as (w1 & rest1 & cs1 & -> & D1 & E1 & K1).
    assert (Ht' : text = (pre ++ w1) ++ rest1) by now rewrite append_assoc.
    rewrite <- length_append in E1.
    destruct (IH2 _ _ _ _ _ Ht' E1) as (w2 & rest2 & cs2 & -> & D2 & E2 & K2).
    exists (w1 ++ w2), rest2, cs2. repeat split.
    + now rewrite append_assoc.
    + exists w1, w2. auto.
    + rewrite !length_append in *. now rewrite Nat.add_assoc.
    + intros c Hc. destruct (K2 c Hc) as [Hc1|S2].
      * destruct (K1 c Hc1) as [Hc0|S1]; [now left|].
        right. now apply sound_capture_seq_l.
      * right. now apply sound_capture_seq_r.
  - intros E. apply orelse_some in E as [E|E].
    + destruct (IH1 _ _ _ _ _ Ht E) as (w & rest & cs' & -> & D & N & K).
      exists w, rest, cs'. repeat split; [now left | exact N |].
      intros c Hc. destruct (K c Hc); [now left|].
      right. now apply sound_capture_alt_l.
    + destruct (IH2 _ _ _ _ _ Ht E) as (w & rest & cs' & -> & D & N & K).
      exists w, rest, cs'. repeat split; [now right | exact N |].
      intros c Hc. destruct (K c Hc); [now left|].
      right. now apply sound_capture_alt_r.
  - intros E.
    destruct (IH1 _ _ _ _ _ Ht E) as (w & rest & cs' & -> & D & N & K).
    exists w, rest, ((i, (length pre, length pre + length w)) :: cs').
    repeat split; [exact D | exact N |].
    intros c [<-|Hc].
    + right. split; [cbn [fst snd]; lia|]. exists r1. cbn [fst snd bodies].
      rewrite Nat.eqb_refl. split; [now left|].
      replace (length pre + length w - length pre) with (length w) by lia.
      now rewrite Ht, substring_middle.
    + destruct (K c Hc); [now left|].
      right. now apply sound_capture_group.
Qed.

Lemma search_from_sound (dotall : bool) (r : regex) (text : string) :
  forall s pre m,
    text = pre ++ s ->
    search_from dotall r text (length pre) s = Some m ->
    match_sound dotall r text m.
Proof.
  assert (Here : forall s pre e cs,
             text = pre ++ s ->
             run dotall r accept (length pre) s [] = Some (e, cs) ->
             match_sound dotall r text
               {| m_text := text; m_start := length pre; m_end := e;
                  m_groups := cs |}).
  { intros s pre e cs Ht E.
    destruct (run_sound dotall text r _ _ _ _ _ Ht E)
      as (w & rest & cs' & -> & D & A & K).
    unfold accept in A. injection A as <- <-.
    split; [reflexivity|]. split.
    - exists pre, w, rest. cbn [m_start m_end]. auto.
    - cbn [m_groups]. intros c Hc. now destruct (K c Hc) as [[]|]. }
  induction s as [|c s IH]; intros pre m Ht; cbn [search_from];
    destruct (run dotall r accept (length pre) _ []) as [[e cs]|] eqn:E;
    try discriminate.
  - intros F. injection F as <-. exact (Here _ _ _ _ Ht E).
  - intros F. injection F as <-. exact (Here _ _ _ _ Ht E).
  - replace (S (length pre)) with (length (pre ++ String c EmptyString))
      by (rewrite length_append; cbn [length]; lia).
    apply IH. now rewrite append_assoc.
Qed.

Lemma search_sound (r : regex) (text : string) (dotall : bool) (m : Match) :
  search r text dotall = Some m -> match_sound dotall r text m.
Proof. exact (search_from_sound dotall r text text EmptyString m eq_refl). Qed.

Lemma findall_from_sound (r : regex) (text : string) (m : Match) :
  forall s pre skip,
    text = pre ++ s ->
    In m (findall_from false r text (length pre) skip s) ->
    match_sound false r text m.
Proof.
  assert (Here : forall s pre e cs,
             text = pre ++ s ->
             run false r accept (length pre) s [] = Some (e, cs) ->
             match_sound false r text
               {| m_text := text; m_start := length pre; m_end := e;
                  m_groups := cs |}).
  { intros s pre e cs Ht E.
    destruct (run_sound false text r _ _ _ _ _ Ht E)
      as (w & rest & cs' & -> & D & A & K).
    unfold accept in A. injection A as <- <-.
    split; [reflexivity|]. split.
    - exists pre, w, rest. cbn [m_start m_end]. auto.
    - cbn [m_groups]. intros c Hc. now destruct (K c Hc) as [[]|]. }
  induction s as [|c s IH]; intros pre skip Ht; destruct skip as [|skip];
    cbn [findall_from];
    try (destruct (run false r accept (length pre) _ []) as [[e cs]|] eqn:E);
    cbn [In]; try tauto.
  - intros [<-|[]]. exact (Here _ _ _ _ Ht E).
  - intros [<-|H]; [exact (Here _ _ _ _ Ht E)|].
    replace (S (length pre)) with (length (pre ++ String c EmptyString)) in H
      by (rewrite length_append; cbn [length]; lia).
    revert H. apply IH. now rewrite append_assoc.
  - replace (S (length pre)) with (length (pre ++ String c EmptyString))
      by (rewrite length_append; cbn [length]; lia).
    apply IH. now rewrite append_assoc.
  - replace (S (length pre)) with (length (pre ++ String c EmptyString))
      by (rewrite length_append; cbn [length]; lia).
    apply IH. now rewrite append_assoc.
Qed.

Lemma findall_sound (r : regex) (text : string) (m : Match) :
  In m (findall r text) -> match_sound false r text m.
Proof. exact (findall_from_sound r text m text EmptyString 0 eq_refl). Qed.

Lemma span_of_in (n : nat) (cs : captures) (sp : nat * nat) :
  span_of n cs = Some sp -> In (n, sp) cs.
Proof.
  induction cs as [|[i x] cs IH]; cbn [span_of]; [discriminate|].
  destruct (Nat.eqb_spec i n) as [->|].
  - intros E. injection E as ->. now left.
  - intros E. right. exact (IH E).
Qed.

(** A group that took part in a sound match holds a text of a pattern
    between its parentheses. *)
Lemma group_of_sound_match (dotall : bool) (r : regex) (text : string)
    (m : Match) (n : nat) :
  match_sound dotall r text m -> span_of n (m_groups m) <> None ->
  exists r', In r' (bodies n r) /\ denotes dotall r' (group m n).
Proof.
  intros (Ht & _ & K) H. unfold group.
  destruct (span_of n (m_groups m)) as [[a b]|] eqn:E; [|congruence].
  destruct (K _ (span_of_in _ _ _ E)) as (_ & r' & I & D).
  exists r'. split; [exact I|]. now rewrite Ht.
Qed.

Lemma search_group_sound (r : regex) (text : string) (dotall : bool)
    (n : nat) (m : Match) :
  always_sets n r = true -> search r text dotall = Some m ->
  exists r', In r' (bodies n r) /\ denotes dotall r' (group m n).
Proof.
  intros A E. apply (group_of_sound_match dotall r text).
  - exact (search_sound _ _ _ _ E).
  - exact (search_from_bound dotall r text n A _ _ _ E).
Qed.


(** ** The shape of the extracted fields *)

Lemma all_chars_impl (p q : ascii -> bool) (s : string) :
  (forall c, p c = true -> q c = true) ->
  all_chars p s = true -> all_chars q s = true.
Proof.
  intros H. induction s as [|c s IH]; cbn [all_chars]; [reflexivity|].
  intros E. apply andb_true_iff in E as [E1 E2].
  now rewrite (H c E1), (IH E2).
Qed.

Lemma all_chars_append (p : ascii -> bool) (a b : string) :
  all_chars p (a ++ b) = all_chars p a && all_chars p b.
Proof.
  induction a as [|c a IH]; cbn [append all_chars]; [reflexivity|].
  now rewrite IH, andb_assoc.
Qed.

Lemma rstrip_fixed (s : string) :
  all_chars (fun c => negb (isspace c)) s = true -> rstrip s = s.
Proof.
  induction s as [|c s IH]; cbn [all_chars rstrip]; [reflexivity|].
  intros E. apply andb_true_iff in E as [E1 E2]. apply negb_true_iff in E1.
  rewrite (IH E2), E1. now destruct s.
Qed.

(** A text without white space is its own strip. *)
Lemma strip_fixed (s : string) :
  all_chars (fun c => negb (isspace c)) s = true -> strip s = s.
Proof.
  intros H. unfold strip.
  assert (L : lstrip s = s).
  { destruct s as [|c s]; [reflexivity|]. cbn [all_chars] in H.
    apply andb_true_iff in H as [H _]. apply negb_true_iff in H.
    cbn [lstrip]. now rewrite H. }
  rewrite L. now apply rstrip_fixed.
Qed.

Lemma digit_no_space (c : ascii) :
  Re.is_digit c = true -> negb (isspace c) = true.
Proof.
  destruct c as [[] [] [] [] [] [] [] []]; vm_compute; congruence.
Qed.

Lemma digit_or_point_no_space (c : ascii) :
  Re.is_digit c || Ascii.eqb c "." = true -> negb (isspace c) = true.
Proof.
  destruct c as [[] [] [] [] [] [] [] []]; vm_compute; congruence.
Qed.




Lemma digits_strip (ds : string) :
  all_chars Re.is_digit ds = true -> strip ds = ds.
Proof.
  intros A. apply strip_fixed.
  exact (all_chars_impl _ _ _ digit_no_space A).
Qed.





(** X17.  Every group that the scripts read from a match has taken part
    in that match, whatever the text: [match.group(n)] and the members
    of [match.groups()] are strings, never [None], so the calls of
    [strip] on them cannot fail and no field is filled with [None] by
    way of a group. *)
Theorem X17_every_group_read_took_part_in_the_match
    (pattern : regex) (read : list nat) (n : nat) :
  In (pattern, read) group_uses -> In n read ->
  (forall text dotall m,
      search pattern text dotall = Some m ->
      exists a b, span_of n (m_groups m) = Some (a, b) /\ a <= b)
  /\ (forall text m,
         In m (findall pattern text) ->
         exists a b, span_of n (m_groups m) = Some (a, b) /\ a <= b).
Proof.
  intros Hp Hn.
  assert (A : always_sets n pattern = true).
  { pose proof scripts_groups_bound as S. rewrite forallb_forall in S.
    specialize (S _ Hp). cbn [fst snd] in S. rewrite forallb_forall in S.
    exact (S _ Hn). }
  split.
  - intros text dotall m E.
    destruct (group_bound _ _ _ _ _ A E) as (a & b & Hs).
    exists a, b. split; [exact Hs|].
    destruct (search_sound _ _ _ _ E) as (_ & _ & K).
    exact (proj1 (K _ (span_of_in _ _ _ Hs))).
  - intros text m E.
    destruct (findall_bound _ _ _ _ A E) as (a & b & Hs).
    exists a, b. split; [exact Hs|].
    destruct (findall_sound _ _ _ E) as (_ & _ & K).
    exact (proj1 (K _ (span_of_in _ _ _ Hs))).
Qed.

Lemma X17_witness :
  Forall (fun m => exists a b, span_of 3 (m_groups m) = Some (a, b) /\ a <= b)
         (findall report_type2_processing.time_entry Samples.text2).
Proof.
  apply Forall_forall.
  refine (proj2 (X17_every_group_read_took_part_in_the_match
                   report_type2_processing.time_entry [1; 2; 3] 3 _ _)
            Samples.text2).
  - unfold group_uses. apply in_or_app. right. now left.
  - cbn. tauto.
Defined.

Lemma type2_work_order_field (text filename : string) :
  dict_get "work_order_id"
    (report_type2_processing.extract_from_text text filename)
  = Some (PyStr (report_type2_processing.find text
                   report_type2_processing.p_work_order_id false EmptyString)).
Proof.
  unfold report_type2_processing.extract_from_text.
  destruct (search report_type2_processing.p_hours_block text false);
    reflexivity.
Qed.

(** The one pattern between the parentheses of a group. *)
Lemma search_group_body (r body : regex) (text : string) (dotall : bool)
    (n : nat) (m : Match) :
  always_sets n r = true -> bodies n r = [body] ->
  search r text dotall = Some m -> denotes dotall body (group m n).
Proof.
  intros A B E. destruct (search_group_sound _ _ _ _ _ A E) as (r' & I & D).
  rewrite B in I. destruct I as [<-|[]]. exact D.
Qed.









(** ** A client that is down *)

Section Down.

Variable json_loads : string -> pyobj + py_exception.
Variable create : nat -> request -> completion.
Variable SYSTEM_PROMPT : string.
Variable self : classifier.
Variable repr : pyobj -> string.

Hypothesis down : forall n req, exists msg, create n req = Raises (OtherException msg).


End Down.





Lemma all_chars_lstrip (p : ascii -> bool) (s : string) :
  all_chars p s = true -> all_chars p (lstrip s) = true.
Proof.
  induction s as [|c s IH]; cbn [lstrip]; [auto|].
  destruct (isspace c); [|auto].
  cbn [all_chars]. intros E. apply andb_true_iff in E as [_ E]. auto.
Qed.

Lemma all_chars_rstrip (p : ascii -> bool) (s : string) :
  all_chars p s = true -> all_chars p (rstrip s) = true.
Proof.
  intros H. destruct (rstrip_rebuild s) as [w E]. rewrite E in H.
  rewrite all_chars_append in H. now apply andb_true_iff in H as [H _].
Qed.

Lemma all_chars_strip (p : ascii -> bool) (s : string) :
  all_chars p s = true -> all_chars p (strip s) = true.
Proof. intros H. unfold strip. now apply all_chars_rstrip, all_chars_lstrip. Qed.

Lemma capital_or_digit_no_space (c : ascii) :
  class_matches false (AnyOf [Range "A" "Z"; Range "0" "9"]) c = true ->
  negb (isspace c) = true.
Proof.
  destruct c as [[] [] [] [] [] [] [] []]; vm_compute; congruence.
Qed.

Lemma type2_find_fields (text filename : string) :
  dict_get "machine_id"
    (report_type2_processing.extract_from_text text filename)
  = Some (PyStr (report_type2_processing.find text
                   report_type2_processing.p_machine_id false EmptyString))
  /\ dict_get "subject"
       (report_type2_processing.extract_from_text text filename)
     = Some (PyStr (report_type2_processing.find text
                      report_type2_processing.p_subject false EmptyString)).
Proof.
  unfold report_type2_processing.extract_from_text.
  destruct (search report_type2_processing.p_hours_block text false);
    split; reflexivity.
Qed.

Lemma type3_machine_id_field (text filename : string) :
  dict_get "machine_id"
    (report_type3_processing.extract_from_text text filename)
  = Some (PyStr (report_type3_processing.find text
                   report_type3_processing.p_machine_id false EmptyString)).
Proof.
  unfold report_type3_processing.extract_from_text.
  destruct (search report_type3_processing.p_hours text false);
    destruct (search report_type3_processing.p_times text false);
    reflexivity.
Qed.

(** X21.  The machine and the subject of a record.  The machine of the
    first extractor is [None] or a text without white space, one
    character at least; in the second and the third extractor it is the
    empty string or made of capital letters and digits, one character at
    least.  The subject of the first extractor is [None] or a text
    without line feed, which can be empty; the subject of the second
    extractor is a text without line feed. *)
Theorem X21_shape_of_machine_and_subject (text filename : string) :
  (dict_get "machine_id" (report_type1_processing.extract_from_text text)
   = Some PyNone
   \/ exists w,
       w <> EmptyString
       /\ all_chars (fun c => negb (isspace c)) w = true
       /\ dict_get "machine_id" (report_type1_processing.extract_from_text text)
          = Some (PyStr w))
  /\ (forall record,
         record = report_type2_processing.extract_from_text text filename
         \/ record = report_type3_processing.extract_from_text text filename ->
         dict_get "machine_id" record = Some (PyStr EmptyString)
         \/ exists w,
             w <> EmptyString
             /\ all_chars
                  (class_matches false (AnyOf [Range "A" "Z"; Range "0" "9"]))
                  w = true
             /\ dict_get "machine_id" record = Some (PyStr w))
  /\ (dict_get "subject" (report_type1_processing.extract_from_text text)
      = Some PyNone
      \/ exists w,
          all_chars (fun c => negb (Ascii.eqb c LF)) w = true
          /\ dict_get "subject" (report_type1_processing.extract_from_text text)
             = Some (PyStr w))
  /\ (exists w,
         all_chars (fun c => negb (Ascii.eqb c LF)) w = true
         /\ dict_get "subject"
              (report_type2_processing.extract_from_text text filename)
            = Some (PyStr w)).
Proof.
  assert (Id : forall dotall pattern m,
             always_sets 1 pattern = true ->
             bodies 1 pattern
             = [plus (AnyOf [Range "A" "Z"; Range "0" "9"])] ->
             search pattern text dotall = Some m ->
             group m 1 <> EmptyString
             /\ all_chars
                  (class_matches false (AnyOf [Range "A" "Z"; Range "0" "9"]))
                  (group m 1) = true
             /\ strip (group m 1) = group m 1).
  { intros dotall pattern m A B E.
    destruct (search_group_body _ _ _ _ _ _ A B E) as (C & L & _).
    assert (C' : all_chars
                   (class_matches false
                      (AnyOf [Range "A" "Z"; Range "0" "9"]))
                   (group m 1) = true) by exact C.
    repeat split.
    - intros Z. rewrite Z in L. cbn in L. lia.
    - exact C'.
    - apply strip_fixed.
      exact (all_chars_impl _ _ _ capital_or_digit_no_space C'). }
  repeat apply conj.
  - rewrite (type1_pattern_field _ "machine_id"
               (cat [Lit "Asset"; plus ws; Group 1 (plus (One NonSpace))]))
      by (unfold report_type1_processing.patterns; cbn [In]; tauto).
    destruct (search (cat [Lit "Asset"; plus ws;
                           Group 1 (plus (One NonSpace))]) text false)
      as [m|] eqn:E; [right | now left].
    destruct (search_group_body
                (cat [Lit "Asset"; plus ws; Group 1 (plus (One NonSpace))])
                (plus (One NonSpace)) text false 1 m eq_refl eq_refl E)
      as (C & L & _).
    assert (C' : all_chars (fun c => negb (isspace c)) (group m 1) = true)
      by exact C.
    exists (group m 1). repeat split.
    + intros Z. rewrite Z in L. cbn in L. lia.
    + exact C'.
    + cbn [report_type1_processing.value_of String.eqb Ascii.eqb Bool.eqb].
      now rewrite (strip_fixed _ C').
  - intros record [-> | ->].
    + rewrite (proj1 (type2_find_fields text filename)).
      unfold report_type2_processing.find.
      destruct (search report_type2_processing.p_machine_id text false)
        as [m|] eqn:E; [right | now left].
      destruct (Id false report_type2_processing.p_machine_id m
                  eq_refl eq_refl E) as (N & C & S).
      exists (group m 1). now rewrite S.
    + rewrite type3_machine_id_field. unfold report_type3_processing.find.
      destruct (search report_type3_processing.p_machine_id text false)
        as [m|] eqn:E; [right | now left].
      destruct (Id false report_type3_processing.p_machine_id m
                  eq_refl eq_refl E) as (N & C & S).
      exists (group m 1). now rewrite S.
  - rewrite (type1_pattern_field _ "subject"
               (cat [Lit "Subject"; plus ws; Group 1 (plus Dot)]))
      by (unfold report_type1_processing.patterns; cbn [In]; tauto).
    destruct (search (cat [Lit "Subject"; plus ws; Group 1 (plus Dot)])
                text false) as [m|] eqn:E; [right | now left].
    destruct (search_group_body
                (cat [Lit "Subject"; plus ws; Group 1 (plus Dot)])
                (plus Dot) text false 1 m eq_refl eq_refl E) as (C & _).
    exists (strip (group m 1)). split; [|reflexivity].
    apply all_chars_strip. exact C.
  - rewrite (proj2 (type2_find_fields text filename)).
    unfold report_type2_processing.find.
    destruct (search report_type2_processing.p_subject text false)
      as [m|] eqn:E.
    + destruct (search_group_body report_type2_processing.p_subject
                  (plus (NoneOf [Chr LF])) text false 1 m eq_refl eq_refl E)
        as (C & _).
      exists (strip (group m 1)). split; [|reflexivity].
      apply all_chars_strip.
      apply (all_chars_impl _ _ _ ) with (2 := C). intros c.
      cbn [class_matches existsb atom_matches]. rewrite orb_false_r.
      now rewrite Ascii.eqb_sym.
    + exists EmptyString. split; reflexivity.
Qed.

(** ** A client whose every answer decodes *)

Section Healthy.

Variable json_loads : string -> pyobj + py_exception.
Variable create : nat -> request -> completion.
Variable SYSTEM_PROMPT : string.
Variable self : classifier.
Variable repr : pyobj -> string.

(** The first attempt decodes. *)
Lemma classify_report_at_once (subject description : string)
    (max_retries : Z) (calls : nat) (content : string)
    (rest : list (option string)) (v : pyobj) :
  (0 < max_retries)%Z ->
  create calls (build_request SYSTEM_PROMPT self subject description)
  = Response (Some content :: rest) ->
  json_loads (unfence (strip content)) = inl v ->
  classify_report json_loads create SYSTEM_PROMPT self subject description
    max_retries calls
  = (Returns v, S calls).
Proof.
  intros Hpos Hc Hv. unfold classify_report.
  destruct (range_positive _ Hpos) as (m & _ & -> & _).
  rewrite (attempts_parsed json_loads create _ max_retries 0 m None calls v);
    [reflexivity|].
  rewrite Hc. cbn [try_block]. now rewrite Hv.
Qed.

Hypothesis healthy : forall n req, exists content rest v,
    create n req = Response (Some content :: rest)
    /\ json_loads (unfence (strip content)) = inl v.

Lemma apply_rows_healthy (frame : DataFrame)
    (subject_col description_col : string) (rows : list nat) :
  well_formed frame ->
  In subject_col (labels frame) -> In description_col (labels frame) ->
  (forall i, In i rows -> i < nrows frame) ->
  forall calls,
    exists results,
      apply_rows json_loads create SYSTEM_PROMPT self repr frame
        subject_col description_col rows calls
      = (Returns results, calls + List.length rows)
      /\ forall j i, nth_error rows j = Some i ->
           exists s x v,
             cell frame i subject_col = Some s
             /\ cell frame i description_col = Some x
             /\ answer_decodes json_loads create SYSTEM_PROMPT self repr
                  (calls + j) s x v
             /\ nth_error results j = Some v.
Proof.
  intros W Hs Hd. induction rows as [|i rows IH]; intros Hr calls;
    cbn [apply_rows List.length].
  - exists []. rewrite Nat.add_0_r. split; [reflexivity|].
    intros [|j] i; discriminate.
  - destruct (cell_defined frame i subject_col W Hs) as [s Es];
      [apply Hr; now left|].
    destruct (cell_defined frame i description_col W Hd) as [x Ex];
      [apply Hr; now left|].
    rewrite Es, Ex.
    destruct (healthy calls
                (build_request SYSTEM_PROMPT self (py_str repr s)
                   (py_str repr x))) as (content & rest & v & Hc & Hv).
    rewrite (classify_report_at_once _ _ 3 calls content rest v eq_refl Hc Hv).
    destruct (IH (fun j Hj => Hr j (or_intror Hj)) (S calls))
      as (results & -> & K).
    exists (v :: results). split; [f_equal; lia|].
    intros [|j] i'; cbn [nth_error].
    + intros F. injection F as <-. exists s, x, v. rewrite Nat.add_0_r.
      repeat split; try assumption. exists content, rest. auto.
    + intros F. destruct (K j i' F) as (s' & x' & v' & A & B & C & D).
      exists s', x', v'.
      replace (calls + S j) with (S calls + j) by lia. auto.
Qed.

End Healthy.

(** One result for each row. *)
Lemma apply_rows_length (json_loads : string -> pyobj + py_exception)
    (create : nat -> request -> completion) (SYSTEM_PROMPT : string)
    (self : classifier) (repr : pyobj -> string) (frame : DataFrame)
    (subject_col description_col : string) (rows : list nat) :
  forall calls results calls',
    apply_rows json_loads create SYSTEM_PROMPT self repr frame
      subject_col description_col rows calls = (Returns results, calls') ->
    List.length results = List.length rows.
Proof.
  induction rows as [|i rows IH]; intros calls results calls';
    cbn [apply_rows].
  - intros E. now injection E as <- _.
  - destruct (cell frame i subject_col); [|discriminate].
    destruct (cell frame i description_col); [|discriminate].
    destruct (classify_report json_loads create SYSTEM_PROMPT self _ _ 3 calls)
      as [[result|e] c]; [|discriminate].
    destruct (apply_rows json_loads create SYSTEM_PROMPT self repr frame
                subject_col description_col rows c) as [[rs|e] c'] eqn:E;
      [|discriminate].
    intros F. injection F as <- _. cbn [List.length]. f_equal.
    exact (IH _ _ _ E).
Qed.

(** X23.  When every answer of the client decodes, [classify_dataframe]
    calls the client once for each row, in the order of the rows, on a
    table with rows and distinct labels that has the two columns read:
    call [i] carries the request made of the subject and the description
    of row [i], both turned into strings.  The column [failure_type] is
    what pandas stores for the labels taken from the answers in that
    order; the cell of row [i] is the label taken from the answer to call
    [i] whenever that label is a string, a list or a mapping, and so
    whenever the answer is no mapping or lacks the key, the label then
    being the string [Error]. *)
Theorem X23_one_call_for_each_row_in_order
    (json_loads : string -> pyobj + py_exception)
    (create : nat -> request -> completion) (SYSTEM_PROMPT : string)
    (self : classifier) (repr : pyobj -> string)
    (convert : list pyobj -> list pyobj)
    (on_empty : heap -> nat -> string -> string -> string -> nat ->
                outcome nat * heap * nat)
    (h : heap) (df : nat)
    (subject_col description_col output_col : string) (calls : nat) :
  (forall n req, exists content rest v,
      create n req = Response (Some content :: rest)
      /\ json_loads (unfence (strip content)) = inl v) ->
  converts_scalars convert ->
  0 < nrows (h df) -> well_formed (h df) -> NoDup (labels (h df)) ->
  In subject_col (labels (h df)) -> In description_col (labels (h df)) ->
  exists h' answers,
    classify_dataframe json_loads create SYSTEM_PROMPT self repr convert
      on_empty h df subject_col description_col output_col calls
    = (Returns df, h', calls + nrows (h df))
    /\ List.length answers = nrows (h df)
    /\ column "failure_type" (h' df)
       = Some (infer convert (map label_of answers))
    /\ forall i, i < nrows (h df) ->
         exists s x v,
           cell (h df) i subject_col = Some s
           /\ cell (h df) i description_col = Some x
           /\ answer_decodes json_loads create SYSTEM_PROMPT self repr
                (calls + i) s x v
           /\ nth_error answers i = Some v
           /\ (is_object (label_of v) = true ->
               cell (h' df) i "failure_type" = Some (label_of v))
           /\ (is_dict v = false ->
               cell (h' df) i "failure_type" = Some (PyStr "Error"))
           /\ (forall d, v = PyDict d -> dict_get "failure_type" d = None ->
               cell (h' df) i "failure_type" = Some (PyStr "Error")).
Proof.
  intros Hh Hv Hrows W _ Hs Hd.
  destruct (apply_rows_healthy json_loads create SYSTEM_PROMPT self repr Hh
              (h df) subject_col description_col (seq 0 (nrows (h df)))
              W Hs Hd) with (calls := calls) as (results & E & K).
  { intros i Hi. apply in_seq in Hi. lia. }
  rewrite length_seq in E.
  destruct (classify_dataframe_returns json_loads create SYSTEM_PROMPT self
              repr convert on_empty h df subject_col description_col
              output_col calls results _ Hrows E) as (h' & R & Hdf & _).
  assert (Col : column "failure_type" (h' df)
                = Some (infer convert (map label_of results))).
  { unfold column. rewrite Hdf. cbn [set_column columns].
    rewrite lookup_assign_same. now rewrite infer_labels. }
  assert (L : List.length results = nrows (h df)).
  { rewrite (apply_rows_length json_loads create SYSTEM_PROMPT self repr
               (h df) subject_col description_col (seq 0 (nrows (h df)))
               calls results _ E).
    apply length_seq. }
  exists h', results. split; [exact R|]. split; [exact L|].
  split; [exact Col|].
  intros i Hi.
  assert (N : nth_error (seq 0 (nrows (h df))) i = Some i).
  { rewrite (nth_error_nth' _ 0) by (now rewrite length_seq).
    now rewrite seq_nth. }
  destruct (K i i N) as (s & x & v & A & B & C & D).
  assert (Cell : is_object (label_of v) = true ->
                 cell (h' df) i "failure_type" = Some (label_of v)).
  { intros O. unfold cell. rewrite Col.
    apply (infer_keeps_object convert _ i _ Hv); [|exact O].
    now apply map_nth_error. }
  exists s, x, v.
  split; [exact A|]. split; [exact B|]. split; [exact C|].
  split; [exact D|]. split; [exact Cell|]. split.
  - intros G. replace (PyStr "Error") with (label_of v).
    + apply Cell. destruct v; try reflexivity. discriminate.
    + destruct v; try reflexivity. discriminate.
  - intros d -> G. replace (PyStr "Error") with (label_of (PyDict d)).
    + apply Cell. cbn [label_of]. now rewrite G.
    + cbn [label_of]. now rewrite G.
Qed.

Lemma X23_witness :
  exists h' answers,
    Samples.classify_frame (Samples.answers Samples.cooling) Samples.frame
    = (Returns 0, h', 0 + 1)
    /\ List.length answers = 1
    /\ column "failure_type" (h' 0)
       = Some (infer Samples.convert (map label_of answers))
    /\ forall i, i < 1 ->
         exists s x v,
           cell Samples.frame i "subject" = Some s
           /\ cell Samples.frame i "description" = Some x
           /\ answer_decodes JsonRef.loads (Samples.answers Samples.cooling)
                Samples.SYSTEM_PROMPT Samples.self Samples.repr (0 + i) s x v
           /\ nth_error answers i = Some v
           /\ (is_object (label_of v) = true ->
               cell (h' 0) i "failure_type" = Some (label_of v))
           /\ (is_dict v = false ->
               cell (h' 0) i "failure_type" = Some (PyStr "Error"))
           /\ (forall d, v = PyDict d -> dict_get "failure_type" d = None ->
               cell (h' 0) i "failure_type" = Some (PyStr "Error")).
Proof.
  apply (X23_one_call_for_each_row_in_order JsonRef.loads
           (Samples.answers Samples.cooling)
           Samples.SYSTEM_PROMPT Samples.self Samples.repr Samples.convert
           Samples.on_empty
           (Samples.heap_of Samples.frame) 0 "subject" "description"
           "llm_classification" 0).
  - intros n req. exists Samples.cooling, [], 
      (PyDict [("failure_type", PyStr "Cooling System")]).
    split; reflexivity.
  - intros values H. split; [reflexivity | split; [tauto | exact H]].
  - cbn. lia.
  - intros name cells [E|[E|[]]]; now injection E as <- <-.
  - cbn. repeat constructor; cbn; intuition discriminate.
  - cbn. tauto.
  - cbn. tauto.
Defined.





(** ** The work order, layout by layout *)

(** The search passes over the positions where the pattern does not
    match. *)
Lemma search_from_later (dotall : bool) (r : regex) (text pre : string) :
  forall pos rest,
    no_match_before dotall r (length pre) pos (pre ++ rest) = true ->
    search_from dotall r text pos (pre ++ rest)
    = search_from dotall r text (pos + length pre) rest.
Proof.
  induction pre as [|a pre IH]; intros pos rest H.
  - cbn [append length]. now rewrite Nat.add_0_r.
  - cbn [length append no_match_before] in H.
    cbn [append search_from length].
    destruct (run dotall r accept pos (String a (pre ++ rest)) []);
      [discriminate|].
    rewrite (IH _ _ H). f_equal. lia.
Qed.

Lemma search_from_here (dotall : bool) (r : regex) (text : string)
    (pos : nat) (s : string) (e : nat) (cs : captures) :
  run dotall r accept pos s [] = Some (e, cs) ->
  search_from dotall r text pos s
  = Some {| m_text := text; m_start := pos; m_end := e; m_groups := cs |}.
Proof. intros H. destruct s; cbn [search_from]; now rewrite H. Qed.

(** The leftmost match, when the pattern matches after [pre] and at no
    earlier position. *)
Lemma search_at (r : regex) (pre rest : string) (e : nat) (cs : captures) :
  no_match_before false r (length pre) 0 (pre ++ rest) = true ->
  run false r accept (length pre) rest [] = Some (e, cs) ->
  search r (pre ++ rest) false
  = Some {| m_text := pre ++ rest; m_start := length pre; m_end := e;
            m_groups := cs |}.
Proof.
  intros H R. unfold search. rewrite (search_from_later _ _ _ _ _ _ H).
  now apply search_from_here.
Qed.

(** A greedy repetition takes a whole run of characters of its class
    when what follows the run can go on from there. *)
Lemma rep_takes_all (dotall : bool) (k : cclass) (next : cont) (cs : captures)
    (rest : string) (res : nat * captures) (w : string) :
  starts_with (class_matches dotall k) rest = false ->
  forall lo pos,
    all_chars (class_matches dotall k) w = true ->
    lo <= length w ->
    next (pos + length w) rest cs = Some res ->
    rep dotall k true lo None next pos (w ++ rest) cs = Some res.
Proof.
  intros Hrest. induction w as [|c w IH]; intros lo pos A L N.
  - cbn [length] in L, N. assert (lo = 0) by lia. subst lo.
    rewrite Nat.add_0_r in N. cbn [append].
    destruct rest as [|c rest]; cbn [rep Nat.eqb may_take andb].
    + exact N.
    + cbn [starts_with] in Hrest. rewrite Hrest. exact N.
  - cbn [all_chars] in A. apply andb_true_iff in A as [A1 A2].
    cbn [append rep may_take andb dec]. rewrite A1.
    rewrite (IH (pred lo) (S pos) A2); [reflexivity | cbn [length] in L; lia |].
    cbn [length] in N.
    now replace (S pos + length w) with (pos + S (length w)) by lia.
Qed.

(** [\s+] on a run of white space before a text that starts with none,
    and [\d+] on a run of digits before a text that starts with none. *)
Lemma rep_blank (next : cont) (cs : captures) (rest : string)
    (res : nat * captures) (blank : string) (pos : nat) :
  blank <> EmptyString -> all_chars isspace blank = true ->
  starts_with isspace rest = false ->
  next (pos + length blank) rest cs = Some res ->
  rep false ws true 1 None next pos (blank ++ rest) cs = Some res.
Proof.
  intros N A R H. apply rep_takes_all; try assumption.
  destruct blank; [congruence | cbn [length]; lia].
Qed.

Lemma rep_digits (next : cont) (cs : captures) (post : string)
    (res : nat * captures) (ds : string) (pos : nat) :
  ds <> EmptyString -> all_chars Re.is_digit ds = true ->
  starts_with Re.is_digit post = false ->
  next (pos + length ds) post cs = Some res ->
  rep false d true 1 None next pos (ds ++ post) cs = Some res.
Proof.
  intros N A R H. apply rep_takes_all; try assumption.
  destruct ds; [congruence | cbn [length]; lia].
Qed.

Lemma not_digit_like (post : string) :
  starts_with digit_like post = false -> starts_with Re.is_digit post = false.
Proof.
  destruct post as [|c post]; cbn [starts_with]; [reflexivity|].
  unfold digit_like. intros H. now apply orb_false_iff in H as [H _].
Qed.

Lemma digits_start (ds post : string) :
  ds <> EmptyString -> all_chars Re.is_digit ds = true ->
  starts_with isspace (ds ++ post) = false.
Proof.
  destruct ds as [|c ds]; [congruence|]. intros _ A.
  cbn [all_chars] in A. apply andb_true_iff in A as [A _].
  cbn [append starts_with]. apply negb_true_iff. now apply digit_no_space.
Qed.

(** The group of a match, read back from the text. *)
Lemma group_at (text before w after : string) (s e a b : nat) :
  text = before ++ w ++ after -> a = length before -> b = a + length w ->
  group {| m_text := text; m_start := s; m_end := e;
           m_groups := [(1, (a, b))] |} 1 = w.
Proof.
  intros -> -> ->. unfold group. cbn [m_groups m_text span_of Nat.eqb].
  replace (length before + length w - length before) with (length w) by lia.
  apply substring_middle.
Qed.

Section WorkOrder.

Variables (label pre blank ds post : string).

Hypothesis blank_not_empty : blank <> EmptyString.
Hypothesis blank_is_space : all_chars isspace blank = true.
Hypothesis ds_not_empty : ds <> EmptyString.
Hypothesis ds_are_digits : all_chars Re.is_digit ds = true.
Hypothesis post_no_digit : starts_with digit_like post = false.

(** The pattern of the first layout: the label, [\s+], [WO-], [(\d+)]. *)
Lemma search_label_prefix_number :
  let r := Seq (Lit label) (Seq (plus ws) (Seq (Lit "WO-") (Group 1 (plus d)))) in
  let text := pre ++ label ++ blank ++ "WO-" ++ ds ++ post in
  no_match_before false r (length pre) 0 text = true ->
  exists m, search r text false = Some m /\ group m 1 = ds.
Proof.
  intros r text H. eexists. split.
  - apply (search_at r pre (label ++ blank ++ "WO-" ++ ds ++ post));
      [exact H|].
    subst r. cbn [run]. rewrite match_lit_append.
    apply rep_blank; [assumption | assumption | reflexivity|].
    rewrite match_lit_append.
    apply rep_digits; [assumption | assumption | now apply not_digit_like|].
    reflexivity.
  - apply (group_at _ (pre ++ label ++ blank ++ "WO-") ds post).
    + subst text. now rewrite !append_assoc.
    + rewrite !length_append. cbn [length]. lia.
    + reflexivity.
Qed.

(** The pattern of the second layout: the label, [\s+], [(\d+)]. *)
Lemma search_label_number :
  let r := Seq (Lit label) (Seq (plus ws) (Group 1 (plus d))) in
  let text := pre ++ label ++ blank ++ ds ++ post in
  no_match_before false r (length pre) 0 text = true ->
  exists m, search r text false = Some m /\ group m 1 = ds.
Proof.
  intros r text H. eexists. split.
  - apply (search_at r pre (label ++ blank ++ ds ++ post)); [exact H|].
    subst r. cbn [run]. rewrite match_lit_append.
    apply rep_blank; [assumption | assumption | now apply digits_start|].
    apply rep_digits; [assumption | assumption | now apply not_digit_like|].
    reflexivity.
  - apply (group_at _ (pre ++ label ++ blank) ds post).
    + subst text. now rewrite !append_assoc.
    + rewrite !length_append. lia.
    + reflexivity.
Qed.

(** The pattern of the third layout: the label, [\s+], [(WO-\d+)]. *)
Lemma search_label_prefixed_number :
  let r := Seq (Lit label) (Seq (plus ws) (Group 1 (Seq (Lit "WO-") (plus d)))) in
  let text := pre ++ label ++ blank ++ "WO-" ++ ds ++ post in
  no_match_before false r (length pre) 0 text = true ->
  exists m, search r text false = Some m /\ group m 1 = "WO-" ++ ds.
Proof.
  intros r text H. eexists. split.
  - apply (search_at r pre (label ++ blank ++ "WO-" ++ ds ++ post));
      [exact H|].
    subst r. cbn [run]. rewrite match_lit_append.
    apply rep_blank; [assumption | assumption | reflexivity|].
    rewrite match_lit_append.
    apply rep_digits; [assumption | assumption | now apply not_digit_like|].
    reflexivity.
  - apply (group_at _ (pre ++ label ++ blank) ("WO-" ++ ds) post).
    + subst text. now rewrite !append_assoc.
    + rewrite !length_append. lia.
    + rewrite !length_append. cbn [length]. lia.
Qed.

End WorkOrder.

(** ** Claim on the work order *)

(** C6, as stated, fails.  The text [Work Order WO-12345] holds the
    phrase, and the second and the third extractor fill the field with
    the empty string: their patterns ask for the labels [Notification No.]
    and [Work Order Number].  And a text can hold the phrase and give
    another value in the first extractor, which reads every digit that
    follows. *)
Lemma C6_counterexample :
  contains "Work Order WO-12345" "Work Order WO-12345" = true
  /\ dict_get "work_order_id"
       (report_type2_processing.extract_from_text "Work Order WO-12345"
          "report")
     = Some (PyStr EmptyString)
  /\ dict_get "work_order_id"
       (report_type3_processing.extract_from_text "Work Order WO-12345"
          "report")
     = Some (PyStr EmptyString)
  /\ contains "Work Order WO-12345" "Work Order WO-123456" = true
  /\ dict_get "work_order_id"
       (report_type1_processing.extract_from_text "Work Order WO-123456")
     = Some (PyStr "WO-123456").
Proof. repeat split; reflexivity. Qed.

(** C6, amended.  Each extractor has its own layout of the work order: a
    label, white space, and the number, which is a run of digits with
    [WO-] before it in the first and in the third layout and without it
    in the second.  The labels are [Work Order], [Notification No.] and
    [Work Order Number].  When the pattern matches first at such a place
    and no digit follows the run, the field is [WO-] followed by the run
    in the first and in the third extractor, and the run alone in the
    second; so the first extractor gives [WO-12345] for the phrase
    [Work Order WO-12345] that no digit follows.  When the pattern of an
    extractor matches nowhere, the field is [None] in the first
    extractor and the empty string in the other two.  The character
    after the run is neither an ASCII digit nor beyond ASCII. *)
Theorem C6_work_order_id :
  (forall pre blank ds post,
      let text := pre ++ "Work Order" ++ blank ++ "WO-" ++ ds ++ post in
      no_match_before false report_type1_processing.p_work_order_id
        (length pre) 0 text = true ->
      blank <> EmptyString -> all_chars isspace blank = true ->
      ds <> EmptyString -> all_chars Re.is_digit ds = true ->
      starts_with digit_like post = false ->
      dict_get "work_order_id"
        (report_type1_processing.extract_from_text text)
      = Some (PyStr ("WO-" ++ ds)))
  /\ (forall pre post,
         no_match_before false report_type1_processing.p_work_order_id
           (length pre) 0 (pre ++ "Work Order WO-12345" ++ post) = true ->
         starts_with digit_like post = false ->
         dict_get "work_order_id"
           (report_type1_processing.extract_from_text
              (pre ++ "Work Order WO-12345" ++ post))
         = Some (PyStr "WO-12345"))
  /\ (forall pre blank ds post filename,
         let text := pre ++ "Notification No." ++ blank ++ ds ++ post in
         no_match_before false report_type2_processing.p_work_order_id
           (length pre) 0 text = true ->
         blank <> EmptyString -> all_chars isspace blank = true ->
         ds <> EmptyString -> all_chars Re.is_digit ds = true ->
         starts_with digit_like post = false ->
         dict_get "work_order_id"
           (report_type2_processing.extract_from_text text filename)
         = Some (PyStr ds))
  /\ (forall pre blank ds post filename,
         let text :=
           pre ++ "Work Order Number" ++ blank ++ "WO-" ++ ds ++ post in
         no_match_before false report_type3_processing.p_work_order_id
           (length pre) 0 text = true ->
         blank <> EmptyString -> all_chars isspace blank = true ->
         ds <> EmptyString -> all_chars Re.is_digit ds = true ->
         starts_with digit_like post = false ->
         dict_get "work_order_id"
           (report_type3_processing.extract_from_text text filename)
         = Some (PyStr ("WO-" ++ ds)))
  /\ (forall text,
         search report_type1_processing.p_work_order_id text false = None ->
         dict_get "work_order_id"
           (report_type1_processing.extract_from_text text) = Some PyNone)
  /\ (forall text filename,
         search report_type2_processing.p_work_order_id text false = None ->
         dict_get "work_order_id"
           (report_type2_processing.extract_from_text text filename)
         = Some (PyStr EmptyString))
  /\ (forall text filename,
         search report_type3_processing.p_work_order_id text false = None ->
         dict_get "work_order_id"
           (report_type3_processing.extract_from_text text filename)
         = Some (PyStr EmptyString)).
Proof.
  assert (One : forall pre blank ds post,
             no_match_before false report_type1_processing.p_work_order_id
               (length pre) 0
               (pre ++ "Work Order" ++ blank ++ "WO-" ++ ds ++ post) = true ->
             blank <> EmptyString -> all_chars isspace blank = true ->
             ds <> EmptyString -> all_chars Re.is_digit ds = true ->
             starts_with digit_like post = false ->
             dict_get "work_order_id"
               (report_type1_processing.extract_from_text
                  (pre ++ "Work Order" ++ blank ++ "WO-" ++ ds ++ post))
             = Some (PyStr ("WO-" ++ ds))).
  { intros pre blank ds post H B1 B2 D1 D2 P.
    destruct (search_label_prefix_number "Work Order" pre blank ds post
                B1 B2 D1 D2 P H) as (m & E & G).
    rewrite (type1_pattern_field _ "work_order_id"
               report_type1_processing.p_work_order_id)
      by (left; reflexivity).
    unfold report_type1_processing.p_work_order_id. cbn [cat].
    rewrite E. cbn [report_type1_processing.value_of].
    rewrite String.eqb_refl, G. now rewrite (digits_strip _ D2). }
  split; [exact One|]. split; [|split; [|split; [|split; [|split]]]].
  - intros pre post H P.
    exact (One pre " " "12345" post H ltac:(discriminate) eq_refl
             ltac:(discriminate) eq_refl P).
  - intros pre blank ds post filename text H B1 B2 D1 D2 P.
    destruct (search_label_number "Notification No." pre blank ds post
                B1 B2 D1 D2 P H) as (m & E & G).
    rewrite type2_work_order_field. unfold report_type2_processing.find.
    unfold report_type2_processing.p_work_order_id. cbn [cat].
    fold text in E. rewrite E, G. now rewrite (digits_strip _ D2).
  - intros pre blank ds post filename text H B1 B2 D1 D2 P.
    destruct (search_label_prefixed_number "Work Order Number" pre blank ds
                post B1 B2 D1 D2 P H) as (m & E & G).
    rewrite type3_work_order_field. unfold report_type3_processing.find.
    unfold report_type3_processing.p_work_order_id. cbn [cat].
    fold text in E. rewrite E, G. do 2 f_equal. apply strip_fixed.
    rewrite all_chars_append.
    now rewrite (all_chars_impl _ _ _ digit_no_space D2).
  - intros text E.
    rewrite (type1_pattern_field _ "work_order_id"
               report_type1_processing.p_work_order_id)
      by (left; reflexivity).
    now rewrite E.
  - intros text filename E.
    apply (type2_field _ _ _ report_type2_processing.p_work_order_id false);
      [left; reflexivity | exact E].
  - intros text filename E.
    apply (type3_field _ _ _ report_type3_processing.p_work_order_id false);
      [left; reflexivity | exact E].
Qed.

Lemma C6_witness :
  dict_get "work_order_id"
    (report_type1_processing.extract_from_text
       (("Work Order Times" ++ nl) ++ "Work Order WO-12345"
        ++ (nl ++ "Asset H19")))
  = Some (PyStr "WO-12345")
  /\ dict_get "work_order_id"
       (report_type1_processing.extract_from_text
          ("Service Report" ++ nl ++ "Work Order" ++ (nl ++ "  ") ++ "WO-"
           ++ "0042" ++ " closed"))
     = Some (PyStr ("WO-" ++ "0042"))
  /\ dict_get "work_order_id"
       (report_type2_processing.extract_from_text
          ("Notification No." ++ " " ++ "300123" ++ (nl ++ "Equipment ID"))
          "report")
     = Some (PyStr "300123")
  /\ dict_get "work_order_id"
       (report_type3_processing.extract_from_text
          ("Work Order " ++ "Work Order Number" ++ " " ++ "WO-" ++ "12345"
           ++ EmptyString) "report")
     = Some (PyStr ("WO-" ++ "12345"))
  /\ dict_get "work_order_id"
       (report_type3_processing.extract_from_text "Asset H19" "report")
     = Some (PyStr EmptyString).
Proof.
  destruct C6_work_order_id as (A & A' & B & C & _ & _ & D).
  split; [|split; [|split; [|split]]].
  - apply (A' ("Work Order Times" ++ nl) (nl ++ "Asset H19")); reflexivity.
  - apply (A ("Service Report" ++ nl) (nl ++ "  ") "0042" " closed");
      reflexivity || discriminate.
  - apply (B EmptyString " " "300123" (nl ++ "Equipment ID"));
      reflexivity || discriminate.
  - apply (C "Work Order " " " "12345" EmptyString);
      reflexivity || discriminate.
  - apply D. reflexivity.
Defined.
